(** * AI-health-Analyzer: the hybrid prediction engine and the recommendation rules

    A shallow embedding of [src/prediction_engine.py] (class [HealthPredictor])
    and [src/recommendation.py] (class [HealthRecommendationSystem]).

    Modelling conventions.
    - Python [str] is [string]; the character classes used by [str.lower],
      [str.strip] and the pattern [[^\w\s]] are the ASCII ones (a byte above
      127 is neither a word character nor white space).  String literals that
      hold emoji keep their UTF-8 bytes; only equality ever looks at them.
    - Python [float] is [Q]; [round(x, 2)] is rounding to the nearest
      hundredth, ties to even.
    - A raised exception is a value of [result]; the functions are written in
      the error monad.
    - A Python [dict] is an association list in insertion order.
    - scikit-learn and NumPy are not part of the repository: the fitted
      vectorizer with the cosine scores, the fitted forest and the label
      encoder are fields of the predictor.  [np.argsort] with its default
      [kind] promises an ascending order and nothing about equal values: the
      statements about the ranking take the sort as a parameter meeting
      [sorts], and [argsort], a stable one, is the instance the examples are
      computed with.
    - The statements are about text and numbers where these conventions agree
      with Python: ASCII text, and scores compared and rounded as exact
      decimals. *)

From Stdlib Require Import String Ascii List Bool Arith ZArith QArith Qround Lia.
From Stdlib Require Import Permutation Sorted Lqa.
Import ListNotations.

Set Implicit Arguments.

Local Open Scope string_scope.
Local Open Scope list_scope.
Local Open Scope nat_scope.

(** ** Text *)

Module Text.

Definition code (c : ascii) : nat := nat_of_ascii c.

Definition between (lo hi n : nat) : bool := (lo <=? n) && (n <=? hi).

(** White space as [str.strip] and [\s] see it: TAB..CR, FS..US and space. *)
Definition is_space (c : ascii) : bool :=
  between 9 13 (code c) || between 28 32 (code c).

(** [\w]: digits, letters and the underscore. *)
Definition is_word (c : ascii) : bool :=
  between 48 57 (code c) || between 65 90 (code c)
  || (code c =? 95) || between 97 122 (code c).

(** [str.lower] on one character. *)
Definition lower_char (c : ascii) : ascii :=
  if between 65 90 (code c) then ascii_of_nat (code c + 32) else c.

Definition chars : string -> list ascii := list_ascii_of_string.
Definition text : list ascii -> string := string_of_list_ascii.

Fixpoint lstrip (l : list ascii) : list ascii :=
  match l with
  | [] => []
  | c :: r => if is_space c then lstrip r else l
  end.

Definition rstrip (l : list ascii) : list ascii := rev (lstrip (rev l)).

Definition strip_chars (l : list ascii) : list ascii := rstrip (lstrip l).

(** [s.strip()] *)
Definition strip (s : string) : string := text (strip_chars (chars s)).

(** [s.lower()] *)
Definition lower (s : string) : string := text (map lower_char (chars s)).

(** [s.replace(a, b)] for single characters. *)
Definition replace_char (a b : ascii) (s : string) : string :=
  text (map (fun c => if Ascii.eqb c a then b else c) (chars s)).

(** [re.sub(r'[^\w\s]', '', s)] *)
Definition drop_special (s : string) : string :=
  text (filter (fun c => is_word c || is_space c) (chars s)).

(** [s.split(sep)] for a one-character separator: never an empty list. *)
Fixpoint split_chars (sep : ascii) (l : list ascii) : list (list ascii) :=
  match l with
  | [] => [[]]
  | c :: r =>
      if Ascii.eqb c sep then [] :: split_chars sep r
      else match split_chars sep r with
           | [] => [[c]]
           | w :: ws => (c :: w) :: ws
           end
  end.

Definition split (sep : ascii) (s : string) : list string :=
  map text (split_chars sep (chars s)).

(** [sub in s] *)
Fixpoint contains (sub s : string) : bool :=
  prefix sub s ||
  match s with
  | EmptyString => false
  | String _ r => contains sub r
  end.

Definition is_empty (s : string) : bool :=
  match s with EmptyString => true | _ => false end.

End Text.

(** ** [HealthPredictor.preprocess_symptoms] *)

Definition preprocess_symptoms (symptoms : string) : string :=
  let symptoms := Text.replace_char ";"%char " "%char symptoms in
  Text.drop_special (Text.strip (Text.lower symptoms)).

(** ** Numbers *)

Module Num.

Local Open Scope Q_scope.

Definition Qltb (x y : Q) : bool := negb (Qle_bool y x).

(** Nearest integer, ties to even. *)
Definition round_half_even (x : Q) : Z :=
  let f := Qfloor x in
  match Qcompare (x - inject_Z f) (1 # 2) with
  | Lt => f
  | Gt => (f + 1)%Z
  | Eq => if Z.even f then f else (f + 1)%Z
  end.

(** [round(x, 2)] *)
Definition round2 (x : Q) : Q := round_half_even (x * 100) # 100.

End Num.

(** ** Exceptions *)

Inductive exn : Set := IndexError | KeyError | ValueError.

Inductive result (A : Type) : Type :=
| Ok (a : A)
| Raise (e : exn).

Arguments Ok {A} a.
Arguments Raise {A} e.

Definition bind {A B : Type} (c : result A) (k : A -> result B) : result B :=
  match c with
  | Ok a => k a
  | Raise e => Raise e
  end.

Notation "x <- c ;; k" := (bind c (fun x => k))
  (at level 61, c at next level, right associativity).

(** ** Stable sorting *)

Section StableSort.

Variable A : Type.
Variable leb : A -> A -> bool.

(** [x] goes in front of the first element it is not above, so that an
    element never overtakes an equal one that came before it. *)
Fixpoint insert (x : A) (l : list A) : list A :=
  match l with
  | [] => [x]
  | y :: r => if leb x y then x :: l else y :: insert x r
  end.

Definition stable_sort (l : list A) : list A := fold_right insert [] l.

End StableSort.

Definition value_leb (p q : nat * Q) : bool := Qle_bool (snd p) (snd q).

(** [np.argsort(a)], stable instance: the indices of [a] in ascending order
    of value, equal values keeping their index order.  NumPy fixes no order
    for equal values; see [sorts] for what holds of every [np.argsort]. *)
Definition argsort (a : list Q) : list nat :=
  map fst (stable_sort value_leb (combine (seq 0 (length a)) a)).

(** ** Insertion-ordered dictionaries with string keys *)

Module Dict.

Definition t (V : Type) : Type := list (string * V).

Section Ops.
Variable V : Type.

(** [k in d] *)
Definition mem (k : string) (d : t V) : bool :=
  existsb (fun kv => String.eqb (fst kv) k) d.

(** [d.get(k)] *)
Fixpoint get (k : string) (d : t V) : option V :=
  match d with
  | [] => None
  | (k', v) :: r => if String.eqb k' k then Some v else get k r
  end.

(** [d[k] = v]: an existing key keeps its place. *)
Fixpoint set (k : string) (v : V) (d : t V) : t V :=
  match d with
  | [] => [(k, v)]
  | (k', v') :: r =>
      if String.eqb k' k then (k', v) :: r else (k', v') :: set k v r
  end.

(** [d[k] = f(d[k])] for a key that is present. *)
Fixpoint update (k : string) (f : V -> V) (d : t V) : t V :=
  match d with
  | [] => []
  | (k', v') :: r =>
      if String.eqb k' k then (k', f v') :: r else (k', v') :: update k f r
  end.

Definition keys (d : t V) : list string := map fst d.
End Ops.

End Dict.

(** [list(dict.fromkeys(l))]: the first occurrence of each string, in order. *)
Fixpoint fromkeys (seen l : list string) : list string :=
  match l with
  | [] => []
  | x :: r =>
      if existsb (String.eqb x) seen then fromkeys seen r
      else x :: fromkeys (x :: seen) r
  end.

Definition unique (l : list string) : list string := fromkeys [] l.

(** ** The catalog and the predictions *)

(** A row of the catalog ([self.df]). *)
Record DiseaseRecord : Set := mkRow {
  Disease : string;
  Symptoms : string;
  Severity : string;
  Precautions : string;
  Diet_Recommendations : string;
  Description : string
}.

(** The dictionary built for each prediction. *)
Record Prediction : Set := mkPrediction {
  disease : string;
  confidence : Q;
  severity : string;
  precautions : string;
  diet_recommendations : string;
  description : string;
  matched_symptoms : string
}.

(** [prediction['confidence'] = c] on a copy. *)
Definition with_confidence (p : Prediction) (c : Q) : Prediction :=
  mkPrediction (disease p) c (severity p) (precautions p)
    (diet_recommendations p) (description p) (matched_symptoms p).

(** The predictor after [prepare_models]: the catalog, and what the fitted
    scikit-learn objects compute on a preprocessed query. *)
Record HealthPredictor : Type := mkPredictor {
  df : list DiseaseRecord;
  (** [cosine_similarity(vectorizer.transform([q]), symptom_vectors).flatten()] *)
  cosine_scores : string -> list Q;
  (** [model.predict_proba(vectorizer.transform([q]))[0]] *)
  predict_proba : string -> list Q;
  (** [label_encoder.classes_] *)
  classes_ : list string
}.

Section Engine.

Variable self : HealthPredictor.

Local Open Scope Q_scope.

Definition calculate_similarity_scores (user_symptoms : string) : list Q :=
  let processed_input := preprocess_symptoms user_symptoms in
  cosine_scores self processed_input.

(** [self.df.iloc[idx]] *)
Definition iloc (rows : list DiseaseRecord) (idx : nat) : result DiseaseRecord :=
  match nth_error rows idx with
  | Some r => Ok r
  | None => Raise IndexError
  end.

Definition prediction_of (name : string) (conf : Q) (disease_info : DiseaseRecord)
  : Prediction :=
  mkPrediction name (Num.round2 conf) (Severity disease_info)
    (Precautions disease_info) (Diet_Recommendations disease_info)
    (Description disease_info) (Symptoms disease_info).

(** [np.argsort(a)[::-1][:top_n]] *)
Definition top_indices (a : list Q) (top_n : nat) : list nat :=
  firstn top_n (rev (argsort a)).

(** The loop of [predict_diseases_similarity]; every index comes from
    [argsort similarities], so [similarities[idx]] is in range. *)
Fixpoint similarity_loop (similarities : list Q) (idxs : list nat)
  : result (list Prediction) :=
  match idxs with
  | [] => Ok []
  | idx :: rest =>
      if Num.Qltb 0 (nth idx similarities 0) then
        disease_info <- iloc (df self) idx ;;
        let confidence := nth idx similarities 0 * 100 in
        predictions <- similarity_loop similarities rest ;;
        Ok (prediction_of (Disease disease_info) confidence disease_info
              :: predictions)
      else similarity_loop similarities rest
  end.

Definition predict_diseases_similarity (user_symptoms : string) (top_n : nat)
  : result (list Prediction) :=
  let similarities := calculate_similarity_scores user_symptoms in
  similarity_loop similarities (top_indices similarities top_n).

(** [label_encoder.inverse_transform([idx])[0]] *)
Definition inverse_transform (idx : nat) : result string :=
  match nth_error (classes_ self) idx with
  | Some name => Ok name
  | None => Raise ValueError
  end.

(** [self.df[self.df['Disease'] == disease_name]] *)
Definition rows_named (disease_name : string) : list DiseaseRecord :=
  filter (fun r => String.eqb (Disease r) disease_name) (df self).

Fixpoint ml_loop (probabilities : list Q) (idxs : list nat)
  : result (list Prediction) :=
  match idxs with
  | [] => Ok []
  | idx :: rest =>
      if Num.Qltb (1 # 100) (nth idx probabilities 0) then
        disease_name <- inverse_transform idx ;;
        disease_info <- iloc (rows_named disease_name) 0 ;;
        let confidence := nth idx probabilities 0 * 100 in
        predictions <- ml_loop probabilities rest ;;
        Ok (prediction_of disease_name confidence disease_info :: predictions)
      else ml_loop probabilities rest
  end.

Definition predict_diseases_ml (user_symptoms : string) (top_n : nat)
  : result (list Prediction) :=
  let processed_input := preprocess_symptoms user_symptoms in
  let probabilities := predict_proba self processed_input in
  ml_loop probabilities (top_indices probabilities top_n).

(** An entry of [combined_scores]. *)
Record Combined : Type := mkCombined { info : Prediction; score : Q }.

Definition add_score (x : Q) (c : Combined) : Combined :=
  mkCombined (info c) (score c + x).

(** The body of the 60% loop over the similarity predictions. *)
Definition add_similarity (d : Dict.t Combined) (pred : Prediction)
  : Dict.t Combined :=
  Dict.set (disease pred) (mkCombined pred (confidence pred * (6 # 10))) d.

Definition weigh_similarity (preds : list Prediction) (d : Dict.t Combined)
  : Dict.t Combined :=
  fold_left add_similarity preds d.

(** The body of the 40% loop over the classifier predictions. *)
Definition add_ml (d : Dict.t Combined) (pred : Prediction) : Dict.t Combined :=
  if Dict.mem (disease pred) d then
    Dict.update (disease pred) (add_score (confidence pred * (4 # 10))) d
  else
    Dict.set (disease pred) (mkCombined pred (confidence pred * (4 # 10))) d.

Definition weigh_ml (preds : list Prediction) (d : Dict.t Combined)
  : Dict.t Combined :=
  fold_left add_ml preds d.

(** [sorted(items, key=lambda x: x[1]['score'], reverse=True)]: descending,
    equal scores keeping their order. *)
Definition sort_by_score (d : Dict.t Combined) : Dict.t Combined :=
  stable_sort
    (fun x y : string * Combined => Qle_bool (score (snd y)) (score (snd x))) d.

Definition combine_predictions
    (similarity_predictions ml_predictions : list Prediction) (top_n : nat)
  : list Prediction :=
  let combined_scores :=
    weigh_ml ml_predictions (weigh_similarity similarity_predictions []) in
  let sorted_predictions := firstn top_n (sort_by_score combined_scores) in
  map (fun kv : string * Combined =>
         with_confidence (info (snd kv)) (Num.round2 (score (snd kv))))
      sorted_predictions.

Definition hybrid_prediction (user_symptoms : string) (top_n : nat)
  : result (list Prediction) :=
  similarity_predictions <- predict_diseases_similarity user_symptoms top_n ;;
  ml_predictions <- predict_diseases_ml user_symptoms top_n ;;
  Ok (combine_predictions similarity_predictions ml_predictions top_n).

End Engine.

(** ** [HealthRecommendationSystem] *)

(** The values stored in the dictionaries the recommendation system returns. *)
#[warnings="-register-all"] Inductive value : Type :=
| VStr (s : string)
| VList (l : list string)
| VDict (d : list (string * value)).

Module Rec.

(** An entry of [self.severity_actions]. *)
Record SeverityAction : Set := mkAction {
  urgency : string;
  action : string;
  timeframe : string;
  color : string
}.

Definition severity_actions : Dict.t SeverityAction :=
  [ ("Mild",
     mkAction "Low Priority"
       "Monitor symptoms and try self-care measures"
       "If symptoms persist for more than 3-5 days"
       "🟢");
    ("Moderate",
     mkAction "Medium Priority"
       "Consider scheduling an appointment with healthcare provider"
       "If symptoms persist for more than 24-48 hours or worsen"
       "🟡");
    ("Severe",
     mkAction "HIGH PRIORITY"
       "Seek immediate medical attention"
       "Contact healthcare provider immediately or visit emergency room"
       "🔴") ].

Definition general_health_tips : list string :=
  [ "💧 Stay well-hydrated by drinking plenty of water throughout the day";
    "😴 Ensure adequate rest and sleep (7-9 hours for adults)";
    "🏃‍♂️ Maintain light physical activity as tolerated";
    "🧘‍♀️ Practice stress management techniques like meditation or deep breathing";
    "🚭 Avoid smoking and limit alcohol consumption";
    "🧼 Maintain good hygiene practices";
    "🌡️ Monitor your symptoms and track any changes";
    "📱 Keep emergency contacts readily available" ].

(** [severity_priority.get(x, 0)] *)
Definition severity_priority (x : string) : nat :=
  if String.eqb x "Severe" then 3
  else if String.eqb x "Moderate" then 2
  else if String.eqb x "Mild" then 1
  else 0.

(** [max(best :: l, key=key)]: the first element whose key is largest. *)
Fixpoint max_by {A : Type} (key : A -> nat) (best : A) (l : list A) : A :=
  match l with
  | [] => best
  | x :: r => if key best <? key x then max_by key x r else max_by key best r
  end.

(** [d[k]] *)
Definition item {V : Type} (k : string) (d : Dict.t V) : result V :=
  match Dict.get k d with
  | Some v => Ok v
  | None => Raise KeyError
  end.

Definition generate_severity_assessment (predictions : list Prediction)
  : result (Dict.t value) :=
  match predictions with
  | [] =>
      Ok [ ("overall_severity", VStr "Unknown");
           ("recommendation",
            VStr "Unable to assess. Please consult a healthcare provider.");
           ("urgency", VStr "Consult healthcare provider");
           ("color", VStr "⚪") ]
  | pred :: rest =>
      let highest_severity :=
        max_by severity_priority (severity pred) (map severity rest) in
      severity_info <- item highest_severity severity_actions ;;
      Ok [ ("overall_severity", VStr highest_severity);
           ("recommendation", VStr (action severity_info));
           ("urgency", VStr (urgency severity_info));
           ("timeframe", VStr (timeframe severity_info));
           ("color", VStr (color severity_info)) ]
  end.

(** [severity_assessment['overall_severity']] *)
Definition overall_severity (severity_assessment : Dict.t value) : result string :=
  v <- item "overall_severity" severity_assessment ;;
  match v with
  | VStr s => Ok s
  | _ => Raise KeyError
  end.

(** A missing field and a NaN cell are both the empty string here. *)
Definition parse_recommendations (recommendation_text : string) : list string :=
  if Text.is_empty recommendation_text then []
  else
    let recommendations :=
      map Text.strip (Text.split ","%char recommendation_text) in
    filter (fun rec => negb (Text.is_empty rec)) recommendations.

(** [if phrase not in recs: recs.append(f"{marker} {phrase}")] *)
Definition append_marked (marker : string) (recs : list string) (phrase : string)
  : list string :=
  if existsb (String.eqb phrase) recs then recs
  else recs ++ [(marker ++ " " ++ phrase)%string].

(** The loop over the predictions that collects one field's phrases. *)
Definition collect (marker : string) (field : Prediction -> string)
    (predictions : list Prediction) : list string :=
  fold_left
    (fun recs pred =>
       fold_left (append_marked marker) (parse_recommendations (field pred)) recs)
    predictions [].

Definition generate_lifestyle_recommendations (predictions : list Prediction)
  : result (list string) :=
  match predictions with
  | [] => Ok []
  | _ =>
      let lifestyle_recs := collect "⚠️" precautions predictions in
      severity_assessment <- generate_severity_assessment predictions ;;
      overall <- overall_severity severity_assessment ;;
      if existsb (String.eqb overall) ["Mild"; "Moderate"] then
        Ok (lifestyle_recs ++ firstn 4 general_health_tips)
      else
        Ok (lifestyle_recs ++ firstn 2 general_health_tips)
  end.

Definition general_dietary_tips : list string :=
  [ "🥗 Eat a balanced diet rich in fruits and vegetables";
    "💊 Consider appropriate vitamin supplements if recommended";
    "🍯 Natural remedies like honey and ginger may help with some symptoms";
    "🚫 Avoid foods that may worsen your condition" ].

Definition generate_dietary_recommendations (predictions : list Prediction)
  : list string :=
  match predictions with
  | [] => []
  | _ =>
      let dietary_recs := collect "🍽️" diet_recommendations predictions in
      if length dietary_recs <? 3 then
        dietary_recs ++ firstn 2 general_dietary_tips
      else dietary_recs
  end.

Definition general_warning_signs : list string :=
  [ "🚨 Difficulty breathing or shortness of breath";
    "🚨 Chest pain or pressure";
    "🚨 High fever (>103°F/39.4°C)";
    "🚨 Severe dehydration";
    "🚨 Persistent vomiting";
    "🚨 Severe abdominal pain";
    "🚨 Signs of infection (spreading redness, pus)";
    "🚨 Loss of consciousness or confusion" ].

Definition cardiac_warning : string :=
  "🚨 Chest pain radiating to arm, jaw, or back".
Definition stroke_warning : string :=
  "🚨 Sudden weakness, speech difficulty, or vision problems".
Definition asthma_warning : string :=
  "🚨 Severe difficulty breathing or wheezing".
Definition diabetes_warning : string :=
  "🚨 Extremely high or low blood sugar levels".

(** The body of the loop of [generate_warning_signs]: an [if]/[elif] chain. *)
Definition add_specific_warning (specific_warnings : list string)
    (pred : Prediction) : list string :=
  let disease := Text.lower (disease pred) in
  if Text.contains "heart" disease || Text.contains "cardiac" disease then
    specific_warnings ++ [cardiac_warning]
  else if Text.contains "stroke" disease then
    specific_warnings ++ [stroke_warning]
  else if Text.contains "asthma" disease then
    specific_warnings ++ [asthma_warning]
  else if Text.contains "diabetes" disease then
    specific_warnings ++ [diabetes_warning]
  else specific_warnings.

Definition generate_warning_signs (predictions : list Prediction) : list string :=
  match predictions with
  | [] => []
  | _ =>
      let specific_warnings := fold_left add_specific_warning predictions [] in
      let all_warnings := specific_warnings ++ firstn 5 general_warning_signs in
      unique all_warnings
  end.

Definition cold_flu_tips : list string :=
  [ "🤧 Use a humidifier or breathe steam from a hot shower";
    "🍵 Drink warm beverages like tea with honey";
    "🧊 Gargle with warm salt water for sore throat" ].

Definition headache_tips : list string :=
  [ "🌑 Rest in a dark, quiet room";
    "❄️ Apply cold or warm compress to head/neck";
    "💆‍♀️ Try gentle neck and shoulder massage" ].

Definition stomach_tips : list string :=
  [ "🍚 Follow BRAT diet (Bananas, Rice, Applesauce, Toast)";
    "💧 Sip clear fluids frequently";
    "🌡️ Use heating pad on stomach for comfort" ].

Definition seek_attention : string :=
  "⚠️ Seek immediate medical attention - self-care not appropriate for severe conditions".

Definition condition_tips (disease : string) : list string :=
  if Text.contains "cold" disease || Text.contains "flu" disease then
    cold_flu_tips
  else if Text.contains "headache" disease || Text.contains "migraine" disease then
    headache_tips
  else if Text.contains "stomach" disease || Text.contains "gastro" disease then
    stomach_tips
  else [].

(** The loop of [generate_self_care_tips], with its [break]. *)
Fixpoint self_care_loop (self_care_tips : list string)
    (predictions : list Prediction) : list string :=
  match predictions with
  | [] => self_care_tips
  | pred :: rest =>
      let disease := Text.lower (disease pred) in
      let self_care_tips := self_care_tips ++ condition_tips disease in
      if String.eqb (severity pred) "Severe" then [seek_attention]
      else self_care_loop self_care_tips rest
  end.

Definition generate_self_care_tips (predictions : list Prediction) : list string :=
  match predictions with
  | [] => []
  | _ => unique (self_care_loop [] predictions)
  end.

Definition generate_followup_recommendations (predictions : list Prediction)
  : result (list string) :=
  severity_assessment <- generate_severity_assessment predictions ;;
  overall <- overall_severity severity_assessment ;;
  if String.eqb overall "Severe" then
    Ok [ "🏥 Seek immediate emergency medical care";
         "📞 Call emergency services if symptoms are life-threatening";
         "👨‍⚕️ Follow up with specialists as recommended" ]
  else if String.eqb overall "Moderate" then
    Ok [ "📅 Schedule appointment with primary care physician within 24-48 hours";
         "📊 Consider getting relevant tests or screenings";
         "📝 Keep a symptom diary to track changes";
         "💊 Follow prescribed treatment plan if applicable" ]
  else
    Ok [ "📋 Monitor symptoms for 3-5 days";
         "📅 Schedule routine check-up if symptoms persist";
         "📱 Consider telehealth consultation if available";
         "📖 Research reputable health information sources" ].

Definition _generate_disclaimer : Dict.t value :=
  [ ("title", VStr "⚠️ IMPORTANT MEDICAL DISCLAIMER");
    ("content",
     VList
       [ "This system is for informational purposes only and does not constitute medical advice.";
         "Always consult with qualified healthcare professionals for proper diagnosis and treatment.";
         "In case of medical emergency, call your local emergency services immediately.";
         "This tool should not replace professional medical consultation, examination, or treatment." ]) ].

(** [timestamp] is [datetime.now().strftime("%Y-%m-%d %H:%M:%S")], read by
    the caller. *)
Definition generate_comprehensive_recommendations (timestamp : string)
    (predictions : list Prediction) (user_symptoms : string)
  : result (Dict.t value) :=
  match predictions with
  | [] =>
      Ok [ ("error", VStr "No predictions available to generate recommendations");
           ("general_advice",
            VStr "Please consult with a healthcare provider for proper evaluation.") ]
  | _ =>
      severity_assessment <- generate_severity_assessment predictions ;;
      lifestyle <- generate_lifestyle_recommendations predictions ;;
      let dietary := generate_dietary_recommendations predictions in
      let self_care := generate_self_care_tips predictions in
      let warnings := generate_warning_signs predictions in
      followup <- generate_followup_recommendations predictions ;;
      Ok [ ("timestamp", VStr timestamp);
           ("input_symptoms", VStr user_symptoms);
           ("severity_assessment", VDict severity_assessment);
           ("lifestyle_recommendations", VList lifestyle);
           ("dietary_recommendations", VList dietary);
           ("self_care_tips", VList self_care);
           ("warning_signs", VList warnings);
           ("followup_recommendations", VList followup);
           ("disclaimer", VDict _generate_disclaimer) ]
  end.

End Rec.

(** ** Vocabulary of the statements, and sample data *)

Definition is_tier (s : string) : Prop :=
  s = "Severe" \/ s = "Moderate" \/ s = "Mild".

(** The severity the assessment reports for a non-empty list. *)
Definition highest_severity (pred : Prediction) (rest : list Prediction) : string :=
  Rec.max_by Rec.severity_priority (severity pred) (map severity rest).

Definition assessment_of (s : string) (a : Rec.SeverityAction) : Dict.t value :=
  [ ("overall_severity", VStr s);
    ("recommendation", VStr (Rec.action a));
    ("urgency", VStr (Rec.urgency a));
    ("timeframe", VStr (Rec.timeframe a));
    ("color", VStr (Rec.color a)) ].

Definition mild_severe_moderate : list Prediction :=
  [ mkPrediction "Common Cold" 40 "Mild" "Rest" "Warm fluids" "" "";
    mkPrediction "Pneumonia" 30 "Severe" "Rest" "Warm fluids" "" "";
    mkPrediction "Flu" 20 "Moderate" "Rest" "Warm fluids" "" "" ].

Definition flu_rest : Prediction :=
  mkPrediction "Flu" (755 # 10) "Mild" "Rest" "Light meals" "" "".

Definition cold_rest : Prediction :=
  mkPrediction "Common Cold" (452 # 10) "Mild" "Rest" "Warm fluids" "" "".

Definition is_cardiac (p : Prediction) : bool :=
  Text.contains "heart" (Text.lower (disease p))
  || Text.contains "cardiac" (Text.lower (disease p)).

Definition is_stroke (p : Prediction) : bool :=
  Text.contains "stroke" (Text.lower (disease p)).

Definition cardiac_stroke : Prediction :=
  mkPrediction "Cardiac Stroke" 50 "Severe" "Call emergency services" "" "" "".

Definition keep (c : ascii) : bool := Text.is_word c || Text.is_space c.

Definition semicolon_to_space (c : ascii) : ascii :=
  if Ascii.eqb c ";"%char then " "%char else c.

(** [preprocess_symptoms] on the list of characters. *)
Definition normalize (l : list ascii) : list ascii :=
  filter keep (Text.strip_chars (map Text.lower_char (map semicolon_to_space l))).

(** The order [np.argsort] leaves the (index, value) pairs in: ascending
    values, equal values by ascending index. *)
Definition pair_before (p q : nat * Q) : Prop :=
  (snd p < snd q)%Q \/ ((snd p == snd q)%Q /\ fst p < fst q).

(** The ranking of [np.argsort(a)[::-1]]: descending values, and among equal
    values the larger index first. *)
Definition ranks_before (a : list Q) (i j : nat) : Prop :=
  (nth j a 0 < nth i a 0)%Q \/ ((nth i a 0 == nth j a 0)%Q /\ j < i).

Definition positive_at (a : list Q) (i : nat) : bool := Num.Qltb 0 (nth i a 0%Q).

Definition empty_row : DiseaseRecord := mkRow "" "" "" "" "" "".

Definition row_at (self : HealthPredictor) (i : nat) : DiseaseRecord :=
  nth i (df self) empty_row.

(** The prediction [predict_diseases_similarity] builds for catalog row [i]. *)
Definition similarity_candidate (self : HealthPredictor) (a : list Q) (i : nat)
  : Prediction :=
  prediction_of (Disease (row_at self i)) (nth i a 0 * 100)%Q (row_at self i).

(** A two-row catalog whose rows score alike, for the tie-break. *)
Definition two_rows : list DiseaseRecord :=
  [ mkRow "Flu" "fever;cough;chills;fatigue" "Moderate"
      "Bed rest, avoid contact with others" "Light meals, plenty of fluids"
      "Viral infection causing systemic symptoms";
    mkRow "Common Cold" "fever;runny nose;cough" "Mild"
      "Rest, stay hydrated" "Warm fluids, ginger tea"
      "Viral infection affecting upper respiratory tract" ].

Definition tied_predictor : HealthPredictor :=
  mkPredictor two_rows (fun _ => [1 # 2; 1 # 2]%Q) (fun _ => [1 # 2; 1 # 2]%Q)
    ["Common Cold"; "Flu"].

(** Row [r] is the first row of the catalog, at index [i], whose [Disease]
    is [name]. *)
Definition first_row_named (self : HealthPredictor) (name : string)
    (i : nat) (r : DiseaseRecord) : Prop :=
  nth_error (df self) i = Some r /\ Disease r = name /\
  forall j r', j < i -> nth_error (df self) j = Some r' -> Disease r' <> name.

Definition carries_fields_of (p : Prediction) (r : DiseaseRecord) : Prop :=
  severity p = Severity r /\ precautions p = Precautions r /\
  diet_recommendations p = Diet_Recommendations r /\
  description p = Description r /\ matched_symptoms p = Symptoms r.

(** A catalog with two rows named "Flu". *)
Definition duplicate_rows : list DiseaseRecord :=
  [ mkRow "Flu" "fever;cough;chills" "Moderate" "Bed rest" "Light meals"
      "Viral infection";
    mkRow "Common Cold" "runny nose;cough" "Mild" "Rest" "Warm fluids"
      "Upper respiratory infection";
    mkRow "Flu" "high fever;body aches" "Severe" "See a doctor" "Fluids"
      "Severe influenza" ].

Definition duplicate_predictor : HealthPredictor :=
  mkPredictor duplicate_rows (fun _ => [0; 0; 1 # 2]%Q) (fun _ => [3 # 10; 7 # 10]%Q)
    ["Common Cold"; "Flu"].

(** [combined_scores] after the two loops of [hybrid_prediction]. *)
Definition combined_scores (similarity_predictions ml_predictions : list Prediction)
  : Dict.t Combined :=
  weigh_ml ml_predictions (weigh_similarity similarity_predictions []).

(** Every key of [combined_scores] is the disease of the entry's [info]. *)
Definition keyed_by_disease (d : Dict.t Combined) : Prop :=
  Forall (fun kv => fst kv = disease (info (snd kv))) d.

Definition named (k : string) (p : Prediction) : bool := String.eqb (disease p) k.

(** A three-row catalog on which the two arms overlap. *)
Definition three_rows : list DiseaseRecord :=
  [ mkRow "Flu" "fever;cough;chills;fatigue" "Moderate"
      "Bed rest, avoid contact with others" "Light meals, plenty of fluids"
      "Viral infection causing systemic symptoms";
    mkRow "Common Cold" "fever;runny nose;cough" "Mild"
      "Rest, stay hydrated" "Warm fluids, ginger tea"
      "Viral infection affecting upper respiratory tract";
    mkRow "Migraine" "headache;nausea;sensitivity to light" "Moderate"
      "Rest in dark room" "Stay hydrated" "Recurring severe headache" ].

Definition sample_predictor : HealthPredictor :=
  mkPredictor three_rows
    (fun _ => [8 # 10; 3 # 10; 0]%Q)
    (fun _ => [2 # 10; 7 # 10; 1 # 10]%Q)
    ["Common Cold"; "Flu"; "Migraine"].

Definition sample_similarity_predictions : list Prediction :=
  [ similarity_candidate sample_predictor [8 # 10; 3 # 10; 0]%Q 0;
    similarity_candidate sample_predictor [8 # 10; 3 # 10; 0]%Q 1 ].

Definition sample_ml_predictions : list Prediction :=
  [ prediction_of "Flu" ((7 # 10) * 100)%Q (row_at sample_predictor 0);
    prediction_of "Common Cold" ((2 # 10) * 100)%Q (row_at sample_predictor 1);
    prediction_of "Migraine" ((1 # 10) * 100)%Q (row_at sample_predictor 2) ].

(** The sample catalog queried with words none of its rows has: every cosine
    score is 0, while the forest still returns a distribution. *)
Definition no_overlap_predictor : HealthPredictor :=
  mkPredictor three_rows
    (fun _ => [0; 0; 0]%Q)
    (fun _ => [2 # 10; 7 # 10; 1 # 10]%Q)
    ["Common Cold"; "Flu"; "Migraine"].

(** [sum(a)] *)
Definition total (a : list Q) : Q := fold_right Qplus 0%Q a.

Definition class_at (self : HealthPredictor) (i : nat) : string :=
  nth i (classes_ self) "".

(** The prediction [predict_diseases_ml] builds for class [i]. *)
Definition ml_candidate (self : HealthPredictor) (probabilities : list Q) (i : nat)
  : Prediction :=
  prediction_of (class_at self i) (nth i probabilities 0 * 100)%Q
    (nth 0 (rows_named self (class_at self i)) empty_row).

Definition likely_at (probabilities : list Q) (i : nat) : bool :=
  Num.Qltb (1 # 100) (nth i probabilities 0%Q).

(** A predictor as [prepare_models] leaves it: one cosine score per row, one
    probability per class, every class a name of the catalog, no name
    twice. *)
Record fitted (self : HealthPredictor) : Prop := mkFitted {
  fitted_names : NoDup (map Disease (df self));
  fitted_classes : NoDup (classes_ self);
  fitted_labels : incl (classes_ self) (map Disease (df self));
  fitted_scores : forall q, length (cosine_scores self q) = length (df self);
  fitted_proba : forall q, length (predict_proba self q) = length (classes_ self)
}.

(** ** More text primitives *)

Module Str.

(** [str.upper] on one character. *)
Definition upper_char (c : ascii) : ascii :=
  if Text.between 97 122 (Text.code c) then ascii_of_nat (Text.code c - 32) else c.

(** [s.upper()] *)
Definition upper (s : string) : string :=
  Text.text (map upper_char (Text.chars s)).

Definition newline : string := String (ascii_of_nat 10) EmptyString.

(** [sep.join(l)] *)
Fixpoint join (sep : string) (l : list string) : string :=
  match l with
  | [] => ""
  | [x] => x
  | x :: r => (x ++ sep ++ join sep r)%string
  end.

End Str.

(** ** [HealthPredictor.get_severity_warning] *)

Definition severity_warnings : Dict.t string :=
  [ ("Mild", "💚 Low concern - Monitor symptoms and consider self-care measures.");
    ("Moderate",
     "🟡 Moderate concern - Consider consulting a healthcare provider if symptoms persist or worsen.");
    ("Severe",
     "🔴 HIGH CONCERN - Seek immediate medical attention. This could be a serious condition.") ].

Definition no_match_warning : string := "No matching conditions found.".
Definition default_warning : string := "Please monitor your symptoms carefully.".
Definition high_concern_warning : string :=
  "🔴 HIGH CONCERN - Seek immediate medical attention. This could be a serious condition.".

Definition get_severity_warning (predictions : list Prediction) : string :=
  match predictions with
  | [] => no_match_warning
  | pred :: _ =>
      let highest_severity := severity pred in
      match Dict.get highest_severity severity_warnings with
      | Some warning => warning
      | None => default_warning
      end
  end.

(** ** [HealthRecommendationSystem.format_recommendations_for_display] *)

(** What the function returns: the dictionary itself when it has an [error]
    key, the formatted text otherwise. *)
Inductive display : Type :=
| Unchanged (recommendations : Dict.t value)
| Formatted (text : string).

Module Display.

(** The three shapes of value the bundle holds.  A value of another shape
    than the one [generate_comprehensive_recommendations] stores under a key
    is outside this model: the accessor answers [ValueError] for it. *)
Definition as_str (v : value) : result string :=
  match v with VStr s => Ok s | _ => Raise ValueError end.
Definition as_list (v : value) : result (list string) :=
  match v with VList l => Ok l | _ => Raise ValueError end.
Definition as_dict (v : value) : result (Dict.t value) :=
  match v with VDict d => Ok d | _ => Raise ValueError end.

Definition str_item (k : string) (d : Dict.t value) : result string :=
  v <- Rec.item k d ;; as_str v.
Definition list_item (k : string) (d : Dict.t value) : result (list string) :=
  v <- Rec.item k d ;; as_list v.
Definition dict_item (k : string) (d : Dict.t value) : result (Dict.t value) :=
  v <- Rec.item k d ;; as_dict v.

(** [if items: formatted.append(title); for x in shown: formatted.append(f"  • {x}")] *)
Definition section (title : string) (items shown : list string) : list string :=
  match items with
  | [] => []
  | _ => title :: map (fun rec => ("  • " ++ rec)%string) shown
  end.

Definition format_recommendations_for_display (recommendations : Dict.t value)
  : result display :=
  if Dict.mem "error" recommendations then Ok (Unchanged recommendations)
  else
    severity <- dict_item "severity_assessment" recommendations ;;
    color <- str_item "color" severity ;;
    overall <- str_item "overall_severity" severity ;;
    recommendation <- str_item "recommendation" severity ;;
    timeframe <- str_item "timeframe" severity ;;
    lifestyle <- list_item "lifestyle_recommendations" recommendations ;;
    dietary <- list_item "dietary_recommendations" recommendations ;;
    self_care <- list_item "self_care_tips" recommendations ;;
    warnings <- list_item "warning_signs" recommendations ;;
    followup <- list_item "followup_recommendations" recommendations ;;
    disclaimer <- dict_item "disclaimer" recommendations ;;
    title <- str_item "title" disclaimer ;;
    content <- list_item "content" disclaimer ;;
    let formatted :=
      [ (Str.newline ++ color ++ " **SEVERITY ASSESSMENT: " ++ Str.upper overall
           ++ "**")%string;
        ("📋 **Recommendation:** " ++ recommendation)%string;
        ("⏰ **Timeframe:** " ++ timeframe)%string ]
      ++ section (Str.newline ++ "🏃‍♂️ **LIFESTYLE RECOMMENDATIONS:**")
           lifestyle (firstn 6 lifestyle)
      ++ section (Str.newline ++ "🍽️ **DIETARY RECOMMENDATIONS:**")
           dietary (firstn 5 dietary)
      ++ section (Str.newline ++ "💆‍♀️ **SELF-CARE TIPS:**")
           self_care (firstn 4 self_care)
      ++ section (Str.newline ++ "🚨 **SEEK IMMEDIATE MEDICAL ATTENTION IF:**")
           warnings (firstn 5 warnings)
      ++ section (Str.newline ++ "📅 **FOLLOW-UP CARE:**") followup followup
      ++ [ (Str.newline ++ title)%string ]
      ++ map (fun c => ("• " ++ c)%string) content in
    Ok (Formatted (Str.join Str.newline formatted)).

End Display.

(** ** Vocabulary of the further statements *)

(** Every phrase of one field, candidate after candidate. *)
Definition phrases_of (field : Prediction -> string) (predictions : list Prediction)
  : list string :=
  flat_map (fun pred => Rec.parse_recommendations (field pred)) predictions.

(** [f"{marker} {phrase}"] *)
Definition marked (marker phrase : string) : string :=
  (marker ++ " " ++ phrase)%string.

(** A phrase as [parse_recommendations] returns them. *)
Definition clean_phrase (phrase : string) : Prop :=
  phrase <> "" /\ Text.strip phrase = phrase /\
  ~ In ","%char (Text.chars phrase).

Definition has_severe (predictions : list Prediction) : Prop :=
  exists p, In p predictions /\ severity p = "Severe".

Definition untiered (predictions : list Prediction) : Prop :=
  forall p, In p predictions -> ~ is_tier (severity p).

Definition specific_warnings : list string :=
  [ Rec.cardiac_warning; Rec.stroke_warning; Rec.asthma_warning;
    Rec.diabetes_warning ].

Definition condition_specific_tips : list string :=
  Rec.cold_flu_tips ++ Rec.headache_tips ++ Rec.stomach_tips.

Definition success_keys : list string :=
  [ "timestamp"; "input_symptoms"; "severity_assessment";
    "lifestyle_recommendations"; "dietary_recommendations"; "self_care_tips";
    "warning_signs"; "followup_recommendations"; "disclaimer" ].

(** Descending confidence. *)
Definition confidence_ge (p q : Prediction) : Prop :=
  (confidence q <= confidence p)%Q.

(** The classifier ranking test: probability above 0.01. *)
Definition in_unit (x : Q) : Prop := (0 <= x /\ x <= 1)%Q.

Definition flu_and_cold : list Prediction :=
  [ mkPrediction "Flu" (755 # 10) "Moderate"
      "Bed rest, antiviral medication if severe, avoid contact with others"
      "Light meals, plenty of fluids, chicken soup"
      "Viral infection causing systemic symptoms" "";
    mkPrediction "Common Cold" (452 # 10) "Mild"
      "Rest, stay hydrated, avoid cold exposure"
      "Warm fluids, vitamin C rich foods, ginger tea"
      "Viral infection affecting upper respiratory tract" "" ].

(** [any(pred['severity'] == 'Severe' for pred in predictions)] *)
Definition any_severe (predictions : list Prediction) : bool :=
  existsb (fun p => String.eqb (severity p) "Severe") predictions.

(** Every row of the catalog has one of the three tiers as severity. *)
Definition tiered_catalog (self : HealthPredictor) : Prop :=
  Forall (fun r => is_tier (Severity r)) (df self).

(** A predictor whose label encoder was loaded from an older model: the
    class "Asthma" is not in the catalog. *)
Definition stale_predictor : HealthPredictor :=
  mkPredictor three_rows
    (fun _ => [8 # 10; 3 # 10; 0]%Q)
    (fun _ => [5 # 10; 3 # 10; 2 # 10]%Q)
    ["Asthma"; "Flu"; "Migraine"].

(** ** The ranking with [np.argsort] left open *)

(** What every [np.argsort] guarantees, whatever its [kind]: the indices of
    the array, each once, in ascending order of value.  Nothing is said of
    the order of equal values. *)
Definition ascending (a : list Q) (i j : nat) : Prop :=
  (nth i a 0 <= nth j a 0)%Q.

Definition descending (a : list Q) (i j : nat) : Prop :=
  (nth j a 0 <= nth i a 0)%Q.

Definition sorts (sort : list Q -> list nat) : Prop :=
  forall a,
    Permutation (sort a) (seq 0 (length a)) /\
    StronglySorted (ascending a) (sort a).

(** [sort(a)[::-1][:top_n]] *)
Definition top_indices_by (sort : list Q -> list nat) (a : list Q) (top_n : nat)
  : list nat :=
  firstn top_n (rev (sort a)).

(** [predict_diseases_similarity] with [np.argsort] as the parameter [sort];
    [predict_diseases_similarity] is its instance at [argsort]. *)
Definition predict_diseases_similarity_by (sort : list Q -> list nat)
    (self : HealthPredictor) (user_symptoms : string) (top_n : nat)
  : result (list Prediction) :=
  let similarities := calculate_similarity_scores self user_symptoms in
  similarity_loop self similarities (top_indices_by sort similarities top_n).

(** [predict_diseases_ml] with [np.argsort] as the parameter [sort]. *)
Definition predict_diseases_ml_by (sort : list Q -> list nat)
    (self : HealthPredictor) (user_symptoms : string) (top_n : nat)
  : result (list Prediction) :=
  let processed_input := preprocess_symptoms user_symptoms in
  let probabilities := predict_proba self processed_input in
  ml_loop self probabilities (top_indices_by sort probabilities top_n).

(** [hybrid_prediction] with [np.argsort] as the parameter [sort]. *)
Definition hybrid_prediction_by (sort : list Q -> list nat)
    (self : HealthPredictor) (user_symptoms : string) (top_n : nat)
  : result (list Prediction) :=
  similarity_predictions <-
    predict_diseases_similarity_by sort self user_symptoms top_n ;;
  ml_predictions <- predict_diseases_ml_by sort self user_symptoms top_n ;;
  Ok (combine_predictions similarity_predictions ml_predictions top_n).

(** Candidate [p] is the one built from catalog row [i]: the row's name and
    fields (its confidence is left aside). *)
Definition row_candidate (self : HealthPredictor) (i : nat) (p : Prediction)
  : Prop :=
  exists r,
    nth_error (df self) i = Some r /\ disease p = Disease r /\
    carries_fields_of p r.

(** Candidate [p] is the one built for class [j]: the class as its name and
    the fields of the first catalog row of that name. *)
Definition class_candidate (self : HealthPredictor) (j : nat) (p : Prediction)
  : Prop :=
  nth_error (classes_ self) j = Some (disease p) /\
  exists i r, first_row_named self (disease p) i r /\ carries_fields_of p r.

(** [prediction['confidence'] = round(pred['confidence'] * 0.4, 2)] *)
Definition classifier_share (pm : Prediction) : Prediction :=
  with_confidence pm (Num.round2 ((4 # 10) * confidence pm)).

(** Text on which [Str.upper] and the [Text] primitives are Python's. *)
Definition ascii_text (s : string) : Prop :=
  Forall (fun c => Text.code c < 128) (Text.chars s).

(** The assessment of an empty candidate list. *)
Definition unknown_assessment : Dict.t value :=
  [ ("overall_severity", VStr "Unknown");
    ("recommendation",
     VStr "Unable to assess. Please consult a healthcare provider.");
    ("urgency", VStr "Consult healthcare provider");
    ("color", VStr "⚪") ].
(** * Properties *)

Unset Implicit Arguments.

(** ** The error monad *)

Lemma bind_ok {A B : Type} (c : result A) (k : A -> result B) (b : B) :
  bind c k = Ok b -> exists a, c = Ok a /\ k a = Ok b.
Proof.
  destruct c as [a|e]; simpl; intros H; [exists a; auto | discriminate].
Qed.

Lemma bind_Ok {A B : Type} (a : A) (k : A -> result B) : bind (Ok a) k = k a.
Proof. reflexivity. Qed.

(** ** [dict.fromkeys] *)

Lemma fromkeys_In (l seen : list string) (x : string) :
  In x (fromkeys seen l) <-> In x l /\ ~ In x seen.
Proof.
  revert seen; induction l as [|y r IH]; intros seen; simpl.
  - tauto.
  - destruct (existsb (String.eqb y) seen) eqn:E.
    + apply existsb_exists in E. destruct E as (z & Hz & Hyz).
      apply String.eqb_eq in Hyz; subst z.
      rewrite IH. split.
      * intros [H1 H2]; auto.
      * intros [[->|H1] H2]; [contradiction | auto].
    + assert (Hy : ~ In y seen).
      { intros Hin. apply Bool.not_true_iff_false in E. apply E.
        apply existsb_exists. exists y; split; auto. apply String.eqb_refl. }
      simpl. rewrite IH. simpl.
      destruct (String.string_dec y x) as [->|Hne]; tauto.
Qed.

Lemma unique_In (l : list string) (x : string) : In x (unique l) <-> In x l.
Proof. unfold unique. rewrite fromkeys_In. simpl. tauto. Qed.

(** ** Severity assessment *)

Lemma max_by_spec {A : Type} (key : A -> nat) (l : list A) (best : A) :
  In (Rec.max_by key best l) (best :: l) /\
  Forall (fun x => key x <= key (Rec.max_by key best l)) (best :: l).
Proof.
  revert best; induction l as [|x r IH]; intros best; simpl.
  - split; auto.
  - destruct (key best <? key x) eqn:E.
    + destruct (IH x) as [Hin Hall]. split.
      * simpl in Hin. tauto.
      * apply Nat.ltb_lt in E. inversion Hall as [|? ? Hx Hr]; subst.
        constructor; [lia|]. constructor; auto.
    + destruct (IH best) as [Hin Hall]. split.
      * simpl in Hin. tauto.
      * apply Nat.ltb_ge in E. inversion Hall as [|? ? Hb Hr]; subst.
        constructor; auto. constructor; auto. lia.
Qed.

Lemma priority_tier (s : string) : 1 <= Rec.severity_priority s -> is_tier s.
Proof.
  unfold Rec.severity_priority, is_tier.
  destruct (String.eqb_spec s "Severe"); auto.
  destruct (String.eqb_spec s "Moderate"); auto.
  destruct (String.eqb_spec s "Mild"); auto.
  lia.
Qed.

Lemma tier_priority (s : string) : is_tier s -> 1 <= Rec.severity_priority s.
Proof. intros [-> | [-> | ->]]; cbv; lia. Qed.

Lemma priority_le_3 (s : string) : Rec.severity_priority s <= 3.
Proof.
  unfold Rec.severity_priority.
  repeat match goal with |- context [String.eqb ?a ?b] => destruct (String.eqb a b) end; lia.
Qed.

Lemma priority_3 (s : string) : Rec.severity_priority s = 3 -> s = "Severe".
Proof.
  unfold Rec.severity_priority.
  destruct (String.eqb_spec s "Severe"); auto.
  repeat match goal with |- context [String.eqb ?a ?b] => destruct (String.eqb a b) end;
    discriminate.
Qed.

Lemma highest_severity_spec (pred : Prediction) (rest : list Prediction) :
  In (highest_severity pred rest) (map severity (pred :: rest)) /\
  forall p, In p (pred :: rest) ->
    Rec.severity_priority (severity p)
    <= Rec.severity_priority (highest_severity pred rest).
Proof.
  unfold highest_severity.
  destruct (max_by_spec Rec.severity_priority (map severity rest) (severity pred))
    as [Hin Hall].
  split; [exact Hin|].
  intros p Hp. rewrite Forall_forall in Hall. apply Hall.
  change (In (severity p) (map severity (pred :: rest))). now apply in_map.
Qed.

Lemma tier_action (s : string) :
  is_tier s -> exists a, Rec.item s Rec.severity_actions = Ok a.
Proof. intros [-> | [-> | ->]]; eexists; reflexivity. Qed.

Lemma assessment_ok (pred : Prediction) (rest : list Prediction) :
  is_tier (highest_severity pred rest) ->
  exists a,
    Rec.generate_severity_assessment (pred :: rest)
    = Ok (assessment_of (highest_severity pred rest) a).
Proof.
  intros Ht. destruct (tier_action _ Ht) as [a Ha]. exists a.
  unfold Rec.generate_severity_assessment. fold (highest_severity pred rest).
  rewrite Ha. reflexivity.
Qed.

Lemma overall_of_assessment (s : string) (a : Rec.SeverityAction) :
  Rec.overall_severity (assessment_of s a) = Ok s.
Proof. reflexivity. Qed.

Lemma lifestyle_ok (pred : Prediction) (rest : list Prediction)
    (a : Rec.SeverityAction) :
  Rec.generate_severity_assessment (pred :: rest)
  = Ok (assessment_of (highest_severity pred rest) a) ->
  Rec.generate_lifestyle_recommendations (pred :: rest)
  = Ok (Rec.collect "⚠️" precautions (pred :: rest)
        ++ firstn
             (if existsb (String.eqb (highest_severity pred rest))
                   ["Mild"; "Moderate"]
              then 4 else 2)
             Rec.general_health_tips).
Proof.
  intros Ha. unfold Rec.generate_lifestyle_recommendations.
  rewrite Ha, bind_Ok, overall_of_assessment, bind_Ok.
  destruct (existsb (String.eqb (highest_severity pred rest)) ["Mild"; "Moderate"]);
    reflexivity.
Qed.

Lemma followup_ok (pred : Prediction) (rest : list Prediction)
    (a : Rec.SeverityAction) :
  Rec.generate_severity_assessment (pred :: rest)
  = Ok (assessment_of (highest_severity pred rest) a) ->
  exists followup,
    Rec.generate_followup_recommendations (pred :: rest) = Ok followup.
Proof.
  intros Ha. unfold Rec.generate_followup_recommendations.
  rewrite Ha, bind_Ok, overall_of_assessment, bind_Ok.
  destruct (String.eqb (highest_severity pred rest) "Severe");
    [| destruct (String.eqb (highest_severity pred rest) "Moderate")];
    eexists; reflexivity.
Qed.

(** With a tier as the highest severity no step of
    [generate_comprehensive_recommendations] raises, and the bundle is the
    nine-key dictionary. *)
Lemma comprehensive_ok (timestamp user_symptoms : string)
    (pred : Prediction) (rest : list Prediction) :
  is_tier (highest_severity pred rest) ->
  exists a lifestyle followup,
    Rec.generate_comprehensive_recommendations timestamp (pred :: rest) user_symptoms
    = Ok [ ("timestamp", VStr timestamp);
           ("input_symptoms", VStr user_symptoms);
           ("severity_assessment",
            VDict (assessment_of (highest_severity pred rest) a));
           ("lifestyle_recommendations", VList lifestyle);
           ("dietary_recommendations",
            VList (Rec.generate_dietary_recommendations (pred :: rest)));
           ("self_care_tips",
            VList (Rec.generate_self_care_tips (pred :: rest)));
           ("warning_signs", VList (Rec.generate_warning_signs (pred :: rest)));
           ("followup_recommendations", VList followup);
           ("disclaimer", VDict Rec._generate_disclaimer) ]
    /\ Rec.generate_lifestyle_recommendations (pred :: rest) = Ok lifestyle.
Proof.
  intros Ht. destruct (assessment_ok pred rest Ht) as [a Ha].
  destruct (followup_ok pred rest a Ha) as [followup Hf].
  exists a. eexists. exists followup.
  unfold Rec.generate_comprehensive_recommendations.
  rewrite Ha, (lifestyle_ok pred rest a Ha), Hf. split; reflexivity.
Qed.

(** C2. For every candidate list that holds a candidate of one of the three
    tiers (so for every non-empty list of well-formed candidates), [recommend]
    returns a bundle whose [severity_assessment.overall_severity] is a severity
    of the list with the largest priority under Severe=3, Moderate=2, Mild=1. *)
Theorem overall_severity_is_maximum
    (timestamp user_symptoms : string) (predictions : list Prediction) :
  (exists p, In p predictions /\ is_tier (severity p)) ->
  exists bundle assessment s,
    Rec.generate_comprehensive_recommendations timestamp predictions user_symptoms
    = Ok bundle /\
    Dict.get "severity_assessment" bundle = Some (VDict assessment) /\
    Dict.get "overall_severity" assessment = Some (VStr s) /\
    In s (map severity predictions) /\
    forall p, In p predictions ->
      Rec.severity_priority (severity p) <= Rec.severity_priority s.
Proof.
  intros (p0 & Hin0 & Ht0).
  destruct predictions as [|pred rest]; [contradiction|].
  destruct (highest_severity_spec pred rest) as [Hin Hmax].
  assert (Ht : is_tier (highest_severity pred rest)).
  { apply priority_tier. apply tier_priority in Ht0.
    specialize (Hmax p0 Hin0). lia. }
  destruct (comprehensive_ok timestamp user_symptoms pred rest Ht)
    as (a & lifestyle & followup & Hb & _).
  eexists. exists (assessment_of (highest_severity pred rest) a).
  exists (highest_severity pred rest).
  split; [exact Hb|]. repeat split; auto.
Qed.

Lemma overall_severity_is_maximum_witness :
  exists bundle assessment s,
    Rec.generate_comprehensive_recommendations "2024-01-01 00:00:00"
      mild_severe_moderate "fever, cough" = Ok bundle /\
    Dict.get "severity_assessment" bundle = Some (VDict assessment) /\
    Dict.get "overall_severity" assessment = Some (VStr s) /\
    In s (map severity mild_severe_moderate) /\
    forall p, In p mild_severe_moderate ->
      Rec.severity_priority (severity p) <= Rec.severity_priority s.
Proof.
  apply (overall_severity_is_maximum "2024-01-01 00:00:00" "fever, cough"
           mild_severe_moderate).
  eexists. split; [left; reflexivity|]. right; right; reflexivity.
Defined.

(** The example of the specification: severities Mild, Severe, Moderate. *)
Example overall_severity_example :
  exists bundle,
    Rec.generate_comprehensive_recommendations "2024-01-01 00:00:00"
      mild_severe_moderate "fever, cough" = Ok bundle /\
    v <- Rec.item "severity_assessment" bundle ;;
    match v with
    | VDict assessment => Rec.overall_severity assessment
    | _ => Raise KeyError
    end = Ok "Severe".
Proof. eexists. split; reflexivity. Qed.

(** ** Self-care tips *)

Lemma self_care_loop_severe (predictions : list Prediction) (tips : list string) :
  (exists p, In p predictions /\ severity p = "Severe") ->
  Rec.self_care_loop tips predictions = [Rec.seek_attention].
Proof.
  revert tips; induction predictions as [|pred rest IH]; intros tips (p & Hin & Hs).
  - contradiction.
  - simpl. destruct (String.eqb_spec (severity pred) "Severe") as [E|E]; auto.
    apply IH. destruct Hin as [->|Hin]; [contradiction|]. exists p; auto.
Qed.

Lemma severe_is_highest (pred : Prediction) (rest : list Prediction) :
  (exists p, In p (pred :: rest) /\ severity p = "Severe") ->
  highest_severity pred rest = "Severe".
Proof.
  intros (p & Hin & Hs).
  destruct (highest_severity_spec pred rest) as [_ Hmax].
  specialize (Hmax p Hin). rewrite Hs in Hmax.
  apply priority_3.
  pose proof (priority_le_3 (highest_severity pred rest)).
  change (Rec.severity_priority "Severe") with 3 in Hmax. lia.
Qed.

(** C6. When a candidate of the list has severity "Severe", the bundle's
    [self_care_tips] is the one-entry list holding the
    seek-immediate-medical-attention entry. *)
Theorem severe_candidate_single_self_care_tip
    (timestamp user_symptoms : string) (predictions : list Prediction) :
  (exists p, In p predictions /\ severity p = "Severe") ->
  exists bundle,
    Rec.generate_comprehensive_recommendations timestamp predictions user_symptoms
    = Ok bundle /\
    Dict.get "self_care_tips" bundle = Some (VList [Rec.seek_attention]).
Proof.
  intros Hsev.
  destruct predictions as [|pred rest];
    [destruct Hsev as (? & [] & _)|].
  assert (Ht : is_tier (highest_severity pred rest)).
  { rewrite (severe_is_highest pred rest Hsev). left; reflexivity. }
  destruct (comprehensive_ok timestamp user_symptoms pred rest Ht)
    as (a & lifestyle & followup & Hb & _).
  eexists. split; [exact Hb|].
  cbn [Dict.get String.eqb Ascii.eqb Bool.eqb fst snd].
  unfold Rec.generate_self_care_tips.
  rewrite (self_care_loop_severe (pred :: rest) [] Hsev). reflexivity.
Qed.

Lemma severe_candidate_single_self_care_tip_witness :
  exists bundle,
    Rec.generate_comprehensive_recommendations "2024-01-01 00:00:00"
      [ mkPrediction "Flu" 40 "Moderate" "Rest" "Warm fluids" "" "";
        mkPrediction "Gastroenteritis" 35 "Severe" "Rest" "Rice" "" "";
        mkPrediction "Migraine" 20 "Mild" "Rest" "Water" "" "" ]
      "fever"
    = Ok bundle /\
    Dict.get "self_care_tips" bundle = Some (VList [Rec.seek_attention]).
Proof.
  apply (severe_candidate_single_self_care_tip "2024-01-01 00:00:00" "fever"
           [ mkPrediction "Flu" 40 "Moderate" "Rest" "Warm fluids" "" "";
             mkPrediction "Gastroenteritis" 35 "Severe" "Rest" "Rice" "" "";
             mkPrediction "Migraine" 20 "Mild" "Rest" "Water" "" "" ]).
  eexists. split; [right; left; reflexivity | reflexivity].
Defined.

(** C7. With an empty candidate list [recommend] returns, for every symptom
    text, a bundle with an [error] key and without a [severity_assessment]
    key. *)
Theorem empty_candidates_error_bundle (timestamp user_symptoms : string) :
  exists bundle,
    Rec.generate_comprehensive_recommendations timestamp [] user_symptoms
    = Ok bundle /\
    Dict.mem "error" bundle = true /\
    Dict.mem "severity_assessment" bundle = false /\
    Dict.keys bundle = ["error"; "general_advice"].
Proof. eexists. repeat split. Qed.

(** ** Lifestyle recommendations *)

(** C8, on the code: the membership test of
    [generate_lifestyle_recommendations] looks for the bare phrase in a list
    that holds the marked phrases, so a precaution shared by two candidates is
    listed twice. *)
Theorem lifestyle_shared_precaution_listed_twice
    (timestamp user_symptoms : string) :
  exists bundle,
    Rec.generate_comprehensive_recommendations timestamp [flu_rest; cold_rest]
      user_symptoms = Ok bundle /\
    Dict.get "lifestyle_recommendations" bundle
    = Some (VList ("⚠️ Rest" :: "⚠️ Rest" :: firstn 4 Rec.general_health_tips)).
Proof. eexists. split; reflexivity. Qed.

(** ** Warning signs *)

Lemma add_specific_warning_app (acc : list string) (p : Prediction) :
  Rec.add_specific_warning acc p = acc ++ Rec.add_specific_warning [] p.
Proof.
  unfold Rec.add_specific_warning.
  repeat match goal with
         | |- context [if ?b then _ else _] => destruct b
         end; simpl; auto using app_nil_r.
Qed.

Lemma specific_warnings_flat_map (predictions : list Prediction) (acc : list string) :
  fold_left Rec.add_specific_warning predictions acc
  = acc ++ flat_map (Rec.add_specific_warning []) predictions.
Proof.
  revert acc; induction predictions as [|p r IH]; intros acc; simpl.
  - now rewrite app_nil_r.
  - rewrite IH, (add_specific_warning_app acc p). now rewrite app_assoc.
Qed.

Lemma cardiac_contribution (acc : list string) (p : Prediction) :
  is_cardiac p = true ->
  Rec.add_specific_warning acc p = acc ++ [Rec.cardiac_warning].
Proof.
  unfold is_cardiac, Rec.add_specific_warning. intros ->. reflexivity.
Qed.

Lemma stroke_contribution (p : Prediction) :
  In Rec.stroke_warning (Rec.add_specific_warning [] p) ->
  is_stroke p = true /\ is_cardiac p = false.
Proof.
  unfold is_cardiac, is_stroke, Rec.add_specific_warning.
  destruct (Text.contains "heart" (Text.lower (disease p))
            || Text.contains "cardiac" (Text.lower (disease p))).
  { intros [H|[]]. discriminate H. }
  destruct (Text.contains "stroke" (Text.lower (disease p))); auto.
  destruct (Text.contains "asthma" (Text.lower (disease p))).
  { intros [H|[]]. discriminate H. }
  destruct (Text.contains "diabetes" (Text.lower (disease p))).
  { intros [H|[]]. discriminate H. }
  intros [].
Qed.

(** C9, on the code: for the candidate "Cardiac Stroke" the warning signs
    hold the cardiac warning and not the stroke warning. *)
Lemma cardiac_stroke_not_both :
  is_cardiac cardiac_stroke = true /\ is_stroke cardiac_stroke = true /\
  Rec.generate_warning_signs [cardiac_stroke]
  = Rec.cardiac_warning :: firstn 5 Rec.general_warning_signs /\
  ~ (In Rec.cardiac_warning (Rec.generate_warning_signs [cardiac_stroke]) /\
     In Rec.stroke_warning (Rec.generate_warning_signs [cardiac_stroke])).
Proof.
  repeat split; try reflexivity.
  intros [_ H]. vm_compute in H.
  repeat (destruct H as [H|H]; [discriminate H|]). exact H.
Qed.

(** C9 as amended.  The keyword rules are one [if]/[elif] chain: a candidate
    whose lowercased name contains "heart" or "cardiac" and also "stroke"
    contributes the cardiac warning alone; the cardiac warning is among the
    warning signs, and the stroke warning is there only when some other
    candidate matches "stroke" without matching "heart" or "cardiac". *)
Theorem cardiac_rule_shadows_stroke_rule
    (predictions : list Prediction) (p : Prediction) :
  In p predictions ->
  is_cardiac p = true ->
  is_stroke p = true ->
  (forall acc, Rec.add_specific_warning acc p = acc ++ [Rec.cardiac_warning]) /\
  In Rec.cardiac_warning (Rec.generate_warning_signs predictions) /\
  (In Rec.stroke_warning (Rec.generate_warning_signs predictions) ->
   exists q, In q predictions /\ is_stroke q = true /\ is_cardiac q = false).
Proof.
  intros Hin Hc _. split; [intros acc; now apply cardiac_contribution|].
  destruct predictions as [|p0 rest]; [contradiction|].
  unfold Rec.generate_warning_signs.
  rewrite specific_warnings_flat_map. cbn [app].
  split.
  - apply unique_In, in_or_app. left.
    apply in_flat_map. exists p. split; auto.
    rewrite (cardiac_contribution [] p Hc). now left.
  - intros H. apply unique_In, in_app_or in H. destruct H as [H|H].
    + apply in_flat_map in H. destruct H as (q & Hq & Hw).
      exists q. split; auto. now apply stroke_contribution.
    + exfalso. vm_compute in H.
      repeat (destruct H as [H|H]; [discriminate H|]). exact H.
Qed.

Lemma cardiac_rule_shadows_stroke_rule_witness :
  In Rec.cardiac_warning (Rec.generate_warning_signs [cardiac_stroke]) /\
  ~ In Rec.stroke_warning (Rec.generate_warning_signs [cardiac_stroke]).
Proof.
  destruct (cardiac_rule_shadows_stroke_rule [cardiac_stroke] cardiac_stroke)
    as (_ & Hc & Hs).
  - left; reflexivity.
  - reflexivity.
  - reflexivity.
  - split; [exact Hc|]. intros H. destruct (Hs H) as (q & [<-|[]] & _ & Hq).
    discriminate Hq.
Defined.

(** ** The normalizer *)

Import Text.

Lemma chars_text (l : list ascii) : chars (text l) = l.
Proof. apply list_ascii_of_string_of_list_ascii. Qed.

Lemma text_chars (s : string) : text (chars s) = s.
Proof. apply string_of_list_ascii_of_string. Qed.

Lemma preprocess_normalize (s : string) :
  preprocess_symptoms s = text (normalize (chars s)).
Proof.
  unfold preprocess_symptoms, drop_special, strip, lower, replace_char, normalize.
  now rewrite !chars_text.
Qed.

Lemma lower_char_idempotent (c : ascii) : lower_char (lower_char c) = lower_char c.
Proof. destruct c as [[] [] [] [] [] [] [] []]; reflexivity. Qed.

Lemma keep_not_semicolon (c : ascii) : keep c = true -> semicolon_to_space c = c.
Proof.
  unfold semicolon_to_space. destruct (Ascii.eqb_spec c ";") as [->|]; auto.
  discriminate.
Qed.

Lemma lstrip_incl (l : list ascii) (c : ascii) : In c (lstrip l) -> In c l.
Proof.
  induction l as [|x r IH]; simpl; auto.
  destruct (is_space x); simpl; auto.
Qed.

Lemma strip_chars_incl (l : list ascii) (c : ascii) : In c (strip_chars l) -> In c l.
Proof.
  unfold strip_chars, rstrip. intros H.
  apply in_rev, lstrip_incl in H. apply in_rev in H. now apply lstrip_incl.
Qed.

Lemma lstrip_length (l : list ascii) : length (lstrip l) <= length l.
Proof.
  induction l as [|x r IH]; simpl; auto.
  destruct (is_space x); simpl; lia.
Qed.

Lemma lstrip_idempotent (l : list ascii) : lstrip (lstrip l) = lstrip l.
Proof.
  induction l as [|x r IH]; simpl; auto.
  destruct (is_space x) eqn:E; auto. simpl. now rewrite E.
Qed.

Lemma lstrip_app_nonspace (a b : list ascii) (c : ascii) :
  is_space c = false -> lstrip (a ++ c :: b) = lstrip a ++ c :: b.
Proof.
  intros Hc. induction a as [|x r IH]; simpl.
  - now rewrite Hc.
  - destruct (is_space x); auto.
Qed.

Lemma rstrip_cons_nonspace (c : ascii) (l : list ascii) :
  is_space c = false -> rstrip (c :: l) = c :: rstrip l.
Proof.
  intros Hc. unfold rstrip. simpl rev.
  rewrite (lstrip_app_nonspace _ [] _ Hc), rev_app_distr. reflexivity.
Qed.

Lemma rstrip_idempotent (l : list ascii) : rstrip (rstrip l) = rstrip l.
Proof. unfold rstrip. now rewrite rev_involutive, lstrip_idempotent. Qed.

Lemma strip_chars_idempotent (l : list ascii) :
  strip_chars (strip_chars l) = strip_chars l.
Proof.
  unfold strip_chars.
  assert (H : lstrip (rstrip (lstrip l)) = rstrip (lstrip l)).
  { pose proof (lstrip_idempotent l) as Hi.
    destruct (lstrip l) as [|c m]; [reflexivity|].
    simpl in Hi. destruct (is_space c) eqn:E.
    - exfalso. apply (f_equal (@length ascii)) in Hi.
      pose proof (lstrip_length m). simpl in Hi. lia.
    - rewrite (rstrip_cons_nonspace _ _ E). simpl. now rewrite E. }
  rewrite H. apply rstrip_idempotent.
Qed.

Lemma filter_all {A : Type} (f : A -> bool) (l : list A) :
  (forall x, In x l -> f x = true) -> filter f l = l.
Proof.
  induction l as [|x r IH]; simpl; intros H; auto.
  rewrite (H x (or_introl eq_refl)). f_equal. apply IH. auto.
Qed.

Lemma map_fixed {A : Type} (f : A -> A) (l : list A) :
  (forall x, In x l -> f x = x) -> map f l = l.
Proof.
  induction l as [|x r IH]; simpl; intros H; auto.
  rewrite (H x (or_introl eq_refl)). f_equal. apply IH. auto.
Qed.

(** What survives a first pass: kept characters, already lowered. *)
Lemma normalize_chars (l : list ascii) (c : ascii) :
  In c (normalize l) -> keep c = true /\ lower_char c = c.
Proof.
  unfold normalize. intros H. apply filter_In in H. destruct H as [H Hk].
  split; auto.
  apply strip_chars_incl, in_map_iff in H. destruct H as (x & <- & _).
  apply lower_char_idempotent.
Qed.

Lemma normalize_twice (l : list ascii) :
  normalize (normalize l) = strip_chars (normalize l).
Proof.
  unfold normalize at 1.
  rewrite (map_fixed semicolon_to_space).
  2:{ intros x Hx. apply keep_not_semicolon. now apply (normalize_chars l). }
  rewrite (map_fixed lower_char).
  2:{ intros x Hx. now apply (normalize_chars l). }
  apply filter_all. intros x Hx. apply strip_chars_incl in Hx.
  now apply (normalize_chars l).
Qed.

(** C4, on the code: punctuation at an end of the input is removed after the
    white space has been stripped, so a second pass still changes ". a". *)
Lemma preprocess_not_idempotent :
  preprocess_symptoms ". a" = " a" /\
  preprocess_symptoms (preprocess_symptoms ". a") = "a" /\
  preprocess_symptoms (preprocess_symptoms ". a") <> preprocess_symptoms ". a".
Proof. repeat split. discriminate. Qed.

(** C4 as amended.  A second pass of the normalizer only strips the white
    space at the two ends of the first result, and from then on nothing
    changes: the normalizer applied twice is idempotent. *)
Theorem preprocess_twice_strips (s : string) :
  preprocess_symptoms (preprocess_symptoms s) = Text.strip (preprocess_symptoms s) /\
  preprocess_symptoms (preprocess_symptoms (preprocess_symptoms s))
  = preprocess_symptoms (preprocess_symptoms s).
Proof.
  assert (H2 : forall t, preprocess_symptoms (preprocess_symptoms t)
                         = Text.strip (preprocess_symptoms t)).
  { intros t. rewrite (preprocess_normalize (preprocess_symptoms t)).
    rewrite (preprocess_normalize t), chars_text, normalize_twice.
    unfold Text.strip. now rewrite chars_text. }
  split; [apply H2|].
  rewrite H2, H2. unfold Text.strip. rewrite chars_text.
  now rewrite strip_chars_idempotent.
Qed.

(** ** Stable sorting *)

Lemma insert_perm {A : Type} (leb : A -> A -> bool) (x : A) (l : list A) :
  Permutation (insert leb x l) (x :: l).
Proof.
  induction l as [|y r IH]; simpl; auto.
  destruct (leb x y); auto.
  rewrite IH. apply perm_swap.
Qed.

Lemma stable_sort_perm {A : Type} (leb : A -> A -> bool) (l : list A) :
  Permutation (stable_sort leb l) l.
Proof.
  induction l as [|x r IH]; simpl; auto.
  rewrite insert_perm. now constructor.
Qed.

Lemma stable_sort_In {A : Type} (leb : A -> A -> bool) (l : list A) (x : A) :
  In x (stable_sort leb l) <-> In x l.
Proof.
  split; apply Permutation_in;
    [apply stable_sort_perm | apply Permutation_sym, stable_sort_perm].
Qed.

Lemma stable_sort_length {A : Type} (leb : A -> A -> bool) (l : list A) :
  length (stable_sort leb l) = length l.
Proof. apply Permutation_length, stable_sort_perm. Qed.

Lemma pair_before_of_le (p q : nat * Q) :
  (snd p <= snd q)%Q -> fst p < fst q -> pair_before p q.
Proof.
  intros Hle Hlt. unfold pair_before.
  apply Qle_lteq in Hle. destruct Hle; auto.
Qed.

Lemma pair_before_le (p q : nat * Q) : pair_before p q -> (snd p <= snd q)%Q.
Proof.
  intros [H|[H _]]; [now apply Qlt_le_weak | rewrite H; apply Qle_refl].
Qed.

Lemma insert_pair_sorted (p : nat * Q) (l : list (nat * Q)) :
  StronglySorted pair_before l ->
  Forall (fun q => fst p < fst q) l ->
  StronglySorted pair_before (insert value_leb p l).
Proof.
  induction l as [|y r IH]; intros Hs Hf; simpl.
  - repeat constructor.
  - inversion Hs as [|? ? Hsr Hyr]; subst.
    inversion Hf as [|? ? Hpy Hpr]; subst.
    unfold value_leb at 1. destruct (Qle_bool (snd p) (snd y)) eqn:E.
    + apply Qle_bool_iff in E. constructor; auto.
      constructor; [now apply pair_before_of_le|].
      rewrite Forall_forall in *. intros z Hz.
      apply pair_before_of_le; auto.
      apply Qle_trans with (snd y); auto. apply pair_before_le; auto.
    + constructor; auto.
      rewrite Forall_forall in *. intros z Hz.
      apply (Permutation_in _ (insert_perm value_leb p r)) in Hz.
      destruct Hz as [<-|Hz]; auto.
      left. apply Qnot_le_lt. intros Hle. apply Qle_bool_iff in Hle. congruence.
Qed.

Lemma combine_seq_In (a : list Q) (s i : nat) (x : Q) :
  In (i, x) (combine (seq s (length a)) a) ->
  s <= i < s + length a /\ nth (i - s) a 0%Q = x.
Proof.
  revert s; induction a as [|y r IH]; intros s; simpl; [tauto|].
  intros [H|H].
  - injection H as <- <-. rewrite Nat.sub_diag. split; [lia|reflexivity].
  - apply IH in H. destruct H as [Hr Hn]. split; [lia|].
    replace (i - s) with (S (i - S s)) by lia. exact Hn.
Qed.

Lemma sorted_pairs_sorted (a : list Q) (s : nat) :
  StronglySorted pair_before
    (stable_sort value_leb (combine (seq s (length a)) a)).
Proof.
  revert s; induction a as [|x r IH]; intros s; simpl.
  - constructor.
  - apply insert_pair_sorted; auto.
    rewrite Forall_forall. intros [i y] Hin. simpl.
    apply stable_sort_In, combine_seq_In in Hin. lia.
Qed.

Lemma sorted_pairs_values (a : list Q) :
  Forall (fun p => fst p < length a /\ snd p = nth (fst p) a 0%Q)
    (stable_sort value_leb (combine (seq 0 (length a)) a)).
Proof.
  rewrite Forall_forall. intros [i x] Hin. simpl.
  apply stable_sort_In, combine_seq_In in Hin.
  rewrite Nat.sub_0_r in Hin. destruct Hin as [Hr <-]. split; [lia|reflexivity].
Qed.

Lemma StronglySorted_snoc {A : Type} (R : A -> A -> Prop) (l : list A) (x : A) :
  StronglySorted R l -> Forall (fun y => R y x) l -> StronglySorted R (l ++ [x]).
Proof.
  induction l as [|y r IH]; intros Hs Hf; simpl.
  - repeat constructor.
  - inversion Hs; subst. inversion Hf; subst.
    constructor; auto. apply Forall_app. split; auto.
Qed.

Lemma StronglySorted_rev {A : Type} (R : A -> A -> Prop) (l : list A) :
  StronglySorted R l -> StronglySorted (fun x y => R y x) (rev l).
Proof.
  induction 1 as [|x l Hs IH Hf]; simpl; [constructor|].
  apply StronglySorted_snoc; auto.
  rewrite Forall_forall in *. intros y Hy. apply Hf. now apply in_rev.
Qed.

Lemma StronglySorted_app {A : Type} (R : A -> A -> Prop) (l1 l2 : list A) :
  StronglySorted R (l1 ++ l2) ->
  StronglySorted R l1 /\ StronglySorted R l2 /\
  forall x y, In x l1 -> In y l2 -> R x y.
Proof.
  induction l1 as [|a r IH]; simpl; intros Hs.
  - repeat split; auto. constructor. intros ? ? [].
  - inversion Hs as [|? ? Hsr Hf]; subst.
    destruct (IH Hsr) as (H1 & H2 & H3).
    rewrite Forall_app in Hf. destruct Hf as [Hf1 Hf2].
    repeat split; auto.
    + constructor; auto.
    + intros x y [<-|Hx] Hy; auto.
      rewrite Forall_forall in Hf2. auto.
Qed.

Lemma StronglySorted_filter {A : Type} (R : A -> A -> Prop) (f : A -> bool)
    (l : list A) :
  StronglySorted R l -> StronglySorted R (filter f l).
Proof.
  induction 1 as [|x l Hs IH Hf]; simpl; [constructor|].
  destruct (f x); auto. constructor; auto.
  rewrite Forall_forall in *. intros y Hy. apply filter_In in Hy. apply Hf, Hy.
Qed.

(** [np.argsort(a)[::-1]] lists every index once, best first. *)
Lemma ranking_perm (a : list Q) :
  Permutation (rev (argsort a)) (seq 0 (length a)).
Proof.
  rewrite <- Permutation_rev. unfold argsort.
  rewrite (Permutation_map fst (stable_sort_perm _ _)).
  replace (map fst (combine (seq 0 (length a)) a)) with (seq 0 (length a)); auto.
  generalize 0. induction a as [|x r IH]; intros s; simpl; auto.
  f_equal. apply IH.
Qed.

Lemma indices_of_sorted_pairs (a : list Q) (l : list (nat * Q)) :
  StronglySorted pair_before l ->
  Forall (fun p => fst p < length a /\ snd p = nth (fst p) a 0%Q) l ->
  StronglySorted (fun i j => ranks_before a j i) (map fst l).
Proof.
  induction 1 as [|p l Hs IH Hf]; intros Hv; simpl; [constructor|].
  inversion Hv as [|? ? [_ Hp] Hvl]; subst.
  constructor; auto.
  rewrite Forall_forall in *. intros j Hj.
  apply in_map_iff in Hj. destruct Hj as (q & <- & Hq).
  specialize (Hf q Hq). destruct (Hvl q Hq) as [_ Hqv].
  unfold pair_before in Hf. rewrite Hp, Hqv in Hf.
  unfold ranks_before. destruct Hf as [Hf|[Hf1 Hf2]]; auto.
  right. split; auto. now symmetry.
Qed.

Lemma ranking_sorted (a : list Q) :
  StronglySorted (ranks_before a) (rev (argsort a)).
Proof.
  apply (StronglySorted_rev (fun i j => ranks_before a j i)).
  apply indices_of_sorted_pairs;
    [apply sorted_pairs_sorted | apply sorted_pairs_values].
Qed.

(** ** The similarity arm *)

Lemma Qltb_lt (x y : Q) : Num.Qltb x y = true <-> (x < y)%Q.
Proof.
  unfold Num.Qltb. rewrite negb_true_iff, <- not_true_iff_false, Qle_bool_iff.
  split; [apply Qnot_le_lt | apply Qlt_not_le].
Qed.

Lemma iloc_ok (self : HealthPredictor) (i : nat) :
  i < length (df self) -> iloc (df self) i = Ok (row_at self i).
Proof.
  intros H. unfold iloc, row_at.
  now rewrite (nth_error_nth' (df self) empty_row H).
Qed.

Lemma similarity_loop_ok (self : HealthPredictor) (a : list Q) (idxs : list nat) :
  Forall (fun i => i < length (df self)) idxs ->
  similarity_loop self a idxs
  = Ok (map (similarity_candidate self a) (filter (positive_at a) idxs)).
Proof.
  induction 1 as [|i r Hi Hr IH]; simpl; auto.
  unfold positive_at at 1.
  destruct (Num.Qltb 0 (nth i a 0%Q)); auto.
  rewrite (iloc_ok self i Hi), bind_Ok, IH, bind_Ok. reflexivity.
Qed.

Lemma In_firstn {A : Type} (n : nat) (l : list A) (x : A) :
  In x (firstn n l) -> In x l.
Proof.
  intros H. rewrite <- (firstn_skipn n l). apply in_or_app. now left.
Qed.

Lemma top_indices_range (a : list Q) (n i : nat) :
  In i (top_indices a n) -> i < length a.
Proof.
  unfold top_indices. intros H. apply In_firstn in H.
  apply (Permutation_in _ (ranking_perm a)), in_seq in H. lia.
Qed.

Lemma top_indices_sorted (a : list Q) (n : nat) :
  StronglySorted (ranks_before a) (top_indices a n).
Proof.
  unfold top_indices.
  pose proof (ranking_sorted a) as H.
  rewrite <- (firstn_skipn n (rev (argsort a))) in H.
  now apply StronglySorted_app in H.
Qed.

(** An index left out of the first [n] ranks after each of them, and then
    there are [n] of them. *)
Lemma top_indices_complete (a : list Q) (n j : nat) :
  j < length a -> ~ In j (top_indices a n) ->
  length (top_indices a n) = n /\
  forall i, In i (top_indices a n) -> ranks_before a i j.
Proof.
  unfold top_indices. intros Hj Hn.
  assert (Hin : In j (rev (argsort a))).
  { apply (Permutation_in _ (Permutation_sym (ranking_perm a))), in_seq. lia. }
  pose proof (ranking_sorted a) as Hs.
  rewrite <- (firstn_skipn n (rev (argsort a))) in Hin, Hs.
  apply in_app_or in Hin. destruct Hin as [Hin|Hin]; [contradiction|].
  apply StronglySorted_app in Hs. destruct Hs as (_ & _ & Hs).
  split; [|intros i Hi; now apply Hs].
  apply firstn_length_le.
  destruct (Nat.le_gt_cases n (length (rev (argsort a)))) as [|Hlt]; auto.
  rewrite skipn_all2 in Hin by lia. contradiction.
Qed.

Lemma ranks_before_positive (a : list Q) (i j : nat) :
  ranks_before a i j -> (0 < nth j a 0)%Q -> (0 < nth i a 0)%Q.
Proof.
  intros [H|[H _]] Hj.
  - now apply Qlt_trans with (nth j a 0%Q).
  - now rewrite H.
Qed.

(** C5, on the code: two rows with the same similarity, the later row of the
    catalog comes out first. *)
Lemma equal_similarity_later_row_first :
  map Disease (df tied_predictor) = ["Flu"; "Common Cold"] /\
  calculate_similarity_scores tied_predictor "fever, cough" = [1 # 2; 1 # 2]%Q /\
  exists first second,
    predict_diseases_similarity tied_predictor "fever, cough" 2
    = Ok [first; second] /\
    disease first = "Common Cold" /\ disease second = "Flu" /\
    confidence first = confidence second.
Proof. repeat split. do 2 eexists. repeat split. Qed.

(** ** The classifier arm *)

Lemma first_match (rows : list DiseaseRecord) (name : string) :
  In name (map Disease rows) ->
  exists i r,
    nth_error (filter (fun r => String.eqb (Disease r) name) rows) 0 = Some r /\
    nth_error rows i = Some r /\ Disease r = name /\
    forall j r', j < i -> nth_error rows j = Some r' -> Disease r' <> name.
Proof.
  induction rows as [|x rest IH]; simpl; [tauto|].
  intros Hin. destruct (String.eqb_spec (Disease x) name) as [E|E].
  - exists 0, x. repeat split; auto. intros j r' Hj. lia.
  - destruct Hin as [Hin|Hin]; [contradiction|].
    destruct (IH Hin) as (i & r & H0 & Hi & Hr & Hfirst).
    exists (S i), r. repeat split; auto.
    intros [|j] r' Hj Hn; simpl in Hn.
    + injection Hn as <-. exact E.
    + apply (Hfirst j); auto. lia.
Qed.

Lemma rows_named_first (self : HealthPredictor) (name : string) :
  In name (map Disease (df self)) ->
  exists i r,
    iloc (rows_named self name) 0 = Ok r /\ first_row_named self name i r.
Proof.
  intros Hin. destruct (first_match (df self) name Hin) as (i & r & H0 & H).
  exists i, r. split; [|exact H].
  unfold iloc, rows_named. now rewrite H0.
Qed.

Lemma ml_loop_ok (self : HealthPredictor) (probabilities : list Q)
    (idxs : list nat) :
  incl (classes_ self) (map Disease (df self)) ->
  Forall (fun i => i < length (classes_ self)) idxs ->
  exists preds,
    ml_loop self probabilities idxs = Ok preds /\
    length preds <= length idxs /\
    Forall (fun p => In (disease p) (classes_ self) /\
                     exists i r, first_row_named self (disease p) i r /\
                                 carries_fields_of p r) preds.
Proof.
  intros Hincl. induction 1 as [|idx rest Hidx Hrest IH]; simpl.
  - exists []. repeat split; auto.
  - destruct IH as (preds & Hok & Hlen & Hall).
    destruct (Num.Qltb (1 # 100) (nth idx probabilities 0%Q)).
    + destruct (nth_error (classes_ self) idx) as [name|] eqn:Hname.
      2:{ apply nth_error_None in Hname. lia. }
      assert (Hin : In name (classes_ self)) by (eapply nth_error_In; eauto).
      destruct (rows_named_first self name (Hincl _ Hin)) as (i & r & Hr & Hfirst).
      unfold inverse_transform. rewrite Hname, bind_Ok, Hr, bind_Ok, Hok, bind_Ok.
      eexists. split; [reflexivity|]. split; [simpl; lia|].
      constructor; auto. simpl. split; auto.
      exists i, r. split; auto. repeat split.
    + exists preds. repeat split; auto.
Qed.

(** With two rows named "Flu", the classifier's "Flu" candidate has the
    fields of the first of them. *)
Example ml_duplicate_name_first_row :
  predict_diseases_ml duplicate_predictor "fever" 3
  = Ok [ mkPrediction "Flu" (7000 # 100) "Moderate" "Bed rest" "Light meals"
           "Viral infection" "fever;cough;chills";
         mkPrediction "Common Cold" (3000 # 100) "Mild" "Rest" "Warm fluids"
           "Upper respiratory infection" "runny nose;cough" ].
Proof. reflexivity. Qed.

(** ** Dictionaries *)

Lemma get_set {V : Type} (k k' : string) (v : V) (d : Dict.t V) :
  Dict.get k (Dict.set k' v d)
  = if String.eqb k' k then Some v else Dict.get k d.
Proof.
  induction d as [|[k0 v0] r IH]; simpl; auto.
  destruct (String.eqb_spec k0 k') as [->|Hne]; simpl.
  - destruct (String.eqb k' k); auto.
  - rewrite IH. destruct (String.eqb_spec k0 k) as [->|Hne2]; auto.
    destruct (String.eqb_spec k' k) as [->|]; auto. contradiction.
Qed.

Lemma get_update {V : Type} (k k' : string) (f : V -> V) (d : Dict.t V) :
  Dict.get k (Dict.update k' f d)
  = if String.eqb k' k then option_map f (Dict.get k d) else Dict.get k d.
Proof.
  induction d as [|[k0 v0] r IH]; simpl.
  - destruct (String.eqb k' k); auto.
  - destruct (String.eqb_spec k0 k') as [->|Hne]; simpl.
    + destruct (String.eqb k' k); auto.
    + rewrite IH. destruct (String.eqb_spec k0 k) as [->|Hne2]; auto.
      destruct (String.eqb_spec k' k) as [->|]; auto. contradiction.
Qed.

Lemma mem_get {V : Type} (k : string) (d : Dict.t V) :
  Dict.mem k d = match Dict.get k d with Some _ => true | None => false end.
Proof.
  induction d as [|[k0 v0] r IH]; simpl; auto.
  destruct (String.eqb k0 k); auto.
Qed.

Lemma mem_keys {V : Type} (k : string) (d : Dict.t V) :
  Dict.mem k d = true <-> In k (Dict.keys d).
Proof.
  unfold Dict.mem, Dict.keys. rewrite existsb_exists, in_map_iff.
  split; intros (kv & H1 & H2).
  - exists kv. split; auto. now apply String.eqb_eq.
  - exists kv. split; auto. now apply String.eqb_eq.
Qed.

Lemma keys_update {V : Type} (k : string) (f : V -> V) (d : Dict.t V) :
  Dict.keys (Dict.update k f d) = Dict.keys d.
Proof.
  induction d as [|[k0 v0] r IH]; simpl; auto.
  destruct (String.eqb k0 k); simpl; auto. now rewrite IH.
Qed.

Lemma keys_set {V : Type} (k : string) (v : V) (d : Dict.t V) :
  Dict.keys (Dict.set k v d)
  = if Dict.mem k d then Dict.keys d else Dict.keys d ++ [k].
Proof.
  induction d as [|[k0 v0] r IH]; simpl; auto.
  destruct (String.eqb k0 k); simpl; auto.
  rewrite IH. destruct (Dict.mem k r); auto.
Qed.

Lemma NoDup_keys_set {V : Type} (k : string) (v : V) (d : Dict.t V) :
  NoDup (Dict.keys d) -> NoDup (Dict.keys (Dict.set k v d)).
Proof.
  intros Hd. rewrite keys_set. destruct (Dict.mem k d) eqn:E; auto.
  apply NoDup_app; auto.
  - repeat constructor. simpl. tauto.
  - intros x Hx [<-|[]]. apply mem_keys in Hx. congruence.
Qed.

Lemma get_of_In {V : Type} (k : string) (v : V) (d : Dict.t V) :
  NoDup (Dict.keys d) -> In (k, v) d -> Dict.get k d = Some v.
Proof.
  induction d as [|[k0 v0] r IH]; simpl; [tauto|].
  intros Hd [H|H].
  - injection H as -> ->. now rewrite String.eqb_refl.
  - inversion Hd as [|? ? Hk0 Hr]; subst.
    destruct (String.eqb_spec k0 k) as [->|]; auto.
    exfalso. apply Hk0. apply in_map_iff. exists (k, v). auto.
Qed.

Lemma In_set {V : Type} (k : string) (v : V) (d : Dict.t V) (kv : string * V) :
  In kv (Dict.set k v d) -> In kv d \/ kv = (k, v).
Proof.
  induction d as [|[k0 v0] r IH]; simpl.
  - intros [<-|[]]; auto.
  - destruct (String.eqb_spec k0 k) as [->|]; simpl.
    + intros [<-|H]; auto.
    + intros [<-|H]; auto. destruct (IH H); auto.
Qed.

Lemma In_update {V : Type} (k : string) (f : V -> V) (d : Dict.t V)
    (kv : string * V) :
  In kv (Dict.update k f d) ->
  In kv d \/ exists v, In (fst kv, v) d /\ snd kv = f v.
Proof.
  induction d as [|[k0 v0] r IH]; simpl; [tauto|].
  destruct (String.eqb k0 k); simpl.
  - intros [<-|H]; auto. right. exists v0. auto.
  - intros [<-|H]; auto. destruct (IH H) as [|(v & Hv & E)]; auto.
    right. exists v. auto.
Qed.

(** ** The hybrid ranker *)

Lemma Qmult_comm_eq (x y : Q) : (x * y)%Q = (y * x)%Q.
Proof.
  unfold Qmult. f_equal; [apply Z.mul_comm | apply Pos.mul_comm].
Qed.

Lemma get_add_similarity (d : Dict.t Combined) (pred : Prediction) (k : string) :
  Dict.get k (add_similarity d pred)
  = if named k pred
    then Some (mkCombined pred (confidence pred * (6 # 10)))
    else Dict.get k d.
Proof. unfold add_similarity, named. apply get_set. Qed.

Lemma get_add_ml (d : Dict.t Combined) (pred : Prediction) (k : string) :
  Dict.get k (add_ml d pred)
  = if named k pred
    then Some match Dict.get k d with
              | Some c => add_score (confidence pred * (4 # 10)) c
              | None => mkCombined pred (confidence pred * (4 # 10))
              end
    else Dict.get k d.
Proof.
  unfold add_ml, named. rewrite mem_get.
  destruct (Dict.get (disease pred) d) as [c|] eqn:E.
  - rewrite get_update. destruct (String.eqb_spec (disease pred) k) as [<-|]; auto.
    now rewrite E.
  - rewrite get_set. destruct (String.eqb_spec (disease pred) k) as [<-|]; auto.
    now rewrite E.
Qed.

Lemma find_none_of_fresh (k : string) (preds : list Prediction) :
  ~ In k (map disease preds) -> find (named k) preds = None.
Proof.
  induction preds as [|p r IH]; simpl; auto.
  intros H. unfold named at 1.
  destruct (String.eqb_spec (disease p) k) as [E|E]; [tauto|].
  apply IH. tauto.
Qed.

Lemma find_named (k : string) (preds : list Prediction) (p : Prediction) :
  NoDup (map disease preds) -> In p preds -> disease p = k ->
  find (named k) preds = Some p.
Proof.
  induction preds as [|x r IH]; simpl; [tauto|].
  intros Hd Hin Hk. inversion Hd as [|? ? Hx Hr]; subst.
  unfold named at 1. destruct Hin as [->|Hin].
  - now rewrite String.eqb_refl.
  - destruct (String.eqb_spec (disease x) (disease p)) as [E|E]; auto.
    exfalso. apply Hx. rewrite E. now apply in_map.
Qed.

Lemma find_named_none (k : string) (preds : list Prediction) :
  (forall p, In p preds -> disease p <> k) -> find (named k) preds = None.
Proof.
  intros H. apply find_none_of_fresh. intros Hin.
  apply in_map_iff in Hin. destruct Hin as (p & Hp & Hin). now apply (H p).
Qed.

Lemma get_weigh_similarity (preds : list Prediction) (d : Dict.t Combined)
    (k : string) :
  NoDup (map disease preds) ->
  Dict.get k (weigh_similarity preds d)
  = match find (named k) preds with
    | Some p => Some (mkCombined p (confidence p * (6 # 10)))
    | None => Dict.get k d
    end.
Proof.
  unfold weigh_similarity.
  revert d; induction preds as [|p r IH]; intros d Hd; simpl; auto.
  inversion Hd as [|? ? Hp Hr]; subst.
  rewrite (IH _ Hr), get_add_similarity.
  change (named k p) with (String.eqb (disease p) k).
  destruct (String.eqb_spec (disease p) k) as [E|E]; auto.
  rewrite find_none_of_fresh; auto. now rewrite <- E.
Qed.

Lemma get_weigh_ml (preds : list Prediction) (d : Dict.t Combined) (k : string) :
  NoDup (map disease preds) ->
  Dict.get k (weigh_ml preds d)
  = match find (named k) preds with
    | Some p => Some match Dict.get k d with
                     | Some c => add_score (confidence p * (4 # 10)) c
                     | None => mkCombined p (confidence p * (4 # 10))
                     end
    | None => Dict.get k d
    end.
Proof.
  unfold weigh_ml.
  revert d; induction preds as [|p r IH]; intros d Hd; simpl; auto.
  inversion Hd as [|? ? Hp Hr]; subst.
  rewrite (IH _ Hr), get_add_ml.
  change (named k p) with (String.eqb (disease p) k).
  destruct (String.eqb_spec (disease p) k) as [E|E]; auto.
  rewrite find_none_of_fresh; auto. now rewrite <- E.
Qed.

Lemma add_similarity_keys (d : Dict.t Combined) (pred : Prediction) :
  NoDup (Dict.keys d) /\ keyed_by_disease d ->
  NoDup (Dict.keys (add_similarity d pred)) /\
  keyed_by_disease (add_similarity d pred).
Proof.
  unfold add_similarity, keyed_by_disease. intros [Hd Hk]. split.
  - now apply NoDup_keys_set.
  - rewrite Forall_forall in *. intros kv Hin.
    apply In_set in Hin. destruct Hin as [Hin| ->]; auto.
Qed.

Lemma add_ml_keys (d : Dict.t Combined) (pred : Prediction) :
  NoDup (Dict.keys d) /\ keyed_by_disease d ->
  NoDup (Dict.keys (add_ml d pred)) /\ keyed_by_disease (add_ml d pred).
Proof.
  unfold add_ml, keyed_by_disease. intros [Hd Hk].
  destruct (Dict.mem (disease pred) d); split.
  - now rewrite keys_update.
  - rewrite Forall_forall in *. intros kv Hin.
    apply In_update in Hin. destruct Hin as [Hin|(c & Hc & E)]; auto.
    rewrite E. simpl. apply (Hk _ Hc).
  - now apply NoDup_keys_set.
  - rewrite Forall_forall in *. intros kv Hin.
    apply In_set in Hin. destruct Hin as [Hin| ->]; auto.
Qed.

Lemma fold_left_invariant {A B : Type} (P : A -> Prop) (f : A -> B -> A)
    (l : list B) (a : A) :
  (forall a b, P a -> P (f a b)) -> P a -> P (fold_left f l a).
Proof.
  intros Hf. revert a; induction l as [|b r IH]; intros a Ha; simpl; auto.
Qed.

Lemma combined_scores_keys (sims ml : list Prediction) :
  NoDup (Dict.keys (combined_scores sims ml)) /\
  keyed_by_disease (combined_scores sims ml).
Proof.
  unfold combined_scores, weigh_ml, weigh_similarity.
  apply (fold_left_invariant
           (fun d => NoDup (Dict.keys d) /\ keyed_by_disease d)).
  - intros d p. apply add_ml_keys.
  - apply (fold_left_invariant
             (fun d => NoDup (Dict.keys d) /\ keyed_by_disease d)).
    + intros d p. apply add_similarity_keys.
    + split; constructor.
Qed.

(** Where an emitted candidate comes from. *)
Lemma combine_predictions_In (sims ml : list Prediction) (top_n : nat)
    (p : Prediction) :
  In p (combine_predictions sims ml top_n) ->
  exists c,
    Dict.get (disease p) (combined_scores sims ml) = Some c /\
    p = with_confidence (info c) (Num.round2 (score c)).
Proof.
  unfold combine_predictions. fold (combined_scores sims ml).
  intros Hin. apply in_map_iff in Hin. destruct Hin as ([k c] & <- & Hin).
  apply In_firstn in Hin. unfold sort_by_score in Hin.
  apply stable_sort_In in Hin.
  destruct (combined_scores_keys sims ml) as [Hd Hk].
  unfold keyed_by_disease in Hk. rewrite Forall_forall in Hk.
  pose proof (Hk _ Hin) as Hkey. simpl in Hkey.
  exists c. split; [|reflexivity].
  change (Dict.get (disease (info c)) (combined_scores sims ml) = Some c).
  rewrite <- Hkey. now apply get_of_In.
Qed.

(** The confidence of an emitted candidate, from the two lists the ranker
    merges. *)
Lemma combined_confidence (sims ml : list Prediction) (top_n : nat) (p : Prediction) :
  NoDup (map disease sims) ->
  NoDup (map disease ml) ->
  In p (combine_predictions sims ml top_n) ->
  (forall ps pm,
      In ps sims -> In pm ml ->
      disease ps = disease p -> disease pm = disease p ->
      confidence p
      = Num.round2 ((6 # 10) * confidence ps + (4 # 10) * confidence pm)) /\
  (forall ps,
      In ps sims -> disease ps = disease p ->
      (forall pm, In pm ml -> disease pm <> disease p) ->
      confidence p = Num.round2 ((6 # 10) * confidence ps)) /\
  (forall pm,
      In pm ml -> disease pm = disease p ->
      (forall ps, In ps sims -> disease ps <> disease p) ->
      confidence p = Num.round2 ((4 # 10) * confidence pm)).
Proof.
  intros Hds Hdm Hp. apply combine_predictions_In in Hp.
  destruct Hp as (c & Hget & Hpc).
  unfold combined_scores in Hget.
  rewrite (get_weigh_ml ml _ (disease p) Hdm) in Hget.
  rewrite (get_weigh_similarity sims [] (disease p) Hds) in Hget.
  assert (Hconf : confidence p = Num.round2 (score c)) by (now rewrite Hpc).
  split; [|split].
  - intros ps pm Hps Hpm Es Em.
    rewrite (find_named (disease p) ml pm Hdm Hpm Em) in Hget.
    rewrite (find_named (disease p) sims ps Hds Hps Es) in Hget.
    injection Hget as <-. rewrite Hconf. simpl.
    now rewrite (Qmult_comm_eq (6 # 10)), (Qmult_comm_eq (4 # 10)).
  - intros ps Hps Es Hnone.
    rewrite (find_named_none (disease p) ml Hnone) in Hget.
    rewrite (find_named (disease p) sims ps Hds Hps Es) in Hget.
    injection Hget as <-. rewrite Hconf. simpl.
    now rewrite (Qmult_comm_eq (6 # 10)).
  - intros pm Hpm Em Hnone.
    rewrite (find_named (disease p) ml pm Hdm Hpm Em) in Hget.
    rewrite (find_named_none (disease p) sims Hnone) in Hget.
    injection Hget as <-. rewrite Hconf. simpl.
    now rewrite (Qmult_comm_eq (4 # 10)).
Qed.

(** On the sample catalog: Flu is in both outputs (80 and 70), Common Cold
    too (30 and 20), Migraine in the classifier's alone (10). *)
Example hybrid_sample :
  option_map (map (fun p => (disease p, confidence p)))
    match hybrid_prediction sample_predictor "fever, cough, chills" 3 with
    | Ok out => Some out
    | Raise _ => None
    end
  = Some [ ("Flu", 7600 # 100); ("Common Cold", 2600 # 100);
           ("Migraine", 400 # 100) ]%Q.
Proof. reflexivity. Qed.

(** ** No lexical overlap *)

Lemma nth_all_zero (a : list Q) (i : nat) :
  Forall (fun x => (x == 0)%Q) a -> (nth i a 0 == 0)%Q.
Proof.
  intros H. revert i; induction H as [|x r Hx Hr IH]; intros [|i]; simpl;
    auto; reflexivity.
Qed.

Lemma similarity_loop_no_overlap (self : HealthPredictor) (a : list Q)
    (idxs : list nat) :
  Forall (fun x => (x == 0)%Q) a -> similarity_loop self a idxs = Ok [].
Proof.
  intros Hz. induction idxs as [|i r IH]; simpl; auto.
  destruct (Num.Qltb 0 (nth i a 0%Q)) eqn:E; auto.
  apply Qltb_lt in E. rewrite (nth_all_zero a i Hz) in E.
  now apply Qlt_irrefl in E.
Qed.

Lemma ml_loop_length (self : HealthPredictor) (probabilities : list Q)
    (idxs : list nat) (preds : list Prediction) :
  ml_loop self probabilities idxs = Ok preds -> length preds <= length idxs.
Proof.
  revert preds; induction idxs as [|i r IH]; intros preds; simpl.
  - intros H. injection H as <-. auto.
  - destruct (Num.Qltb (1 # 100) (nth i probabilities 0%Q)).
    + intros H. apply bind_ok in H. destruct H as (name & _ & H).
      apply bind_ok in H. destruct H as (row & _ & H).
      apply bind_ok in H. destruct H as (rest & Hrest & H).
      injection H as <-. simpl. specialize (IH _ Hrest). lia.
    + intros H. specialize (IH _ H). lia.
Qed.

Lemma add_ml_nonempty (d : Dict.t Combined) (pred : Prediction) :
  add_ml d pred <> [].
Proof.
  unfold add_ml. destruct (Dict.mem (disease pred) d) eqn:E.
  - destruct d as [|[k c] r]; [discriminate E|]. simpl.
    destruct (String.eqb k (disease pred)); discriminate.
  - destruct d as [|[k c] r]; simpl; [discriminate|].
    destruct (String.eqb k (disease pred)); discriminate.
Qed.

Lemma weigh_ml_nonempty (preds : list Prediction) (d : Dict.t Combined) :
  preds <> [] \/ d <> [] -> weigh_ml preds d <> [].
Proof.
  unfold weigh_ml. revert d; induction preds as [|p r IH]; intros d; simpl.
  - intros [H|H]; auto.
  - intros _. apply IH. right. apply add_ml_nonempty.
Qed.

Lemma weigh_ml_infos (P : Prediction -> Prop) (preds : list Prediction)
    (d : Dict.t Combined) :
  Forall P preds ->
  Forall (fun kv => P (info (snd kv))) d ->
  Forall (fun kv => P (info (snd kv))) (weigh_ml preds d).
Proof.
  unfold weigh_ml. intros Hp. revert d; induction Hp as [|p r Hp Hr IH];
    intros d Hd; simpl; auto.
  apply IH. unfold add_ml. rewrite Forall_forall in *.
  destruct (Dict.mem (disease p) d); intros kv Hin.
  - apply In_update in Hin. destruct Hin as [Hin|(c & Hc & E)]; auto.
    rewrite E. simpl. apply (Hd _ Hc).
  - apply In_set in Hin. destruct Hin as [Hin| ->]; auto.
Qed.

(** With an empty similarity output the ranker emits classifier candidates,
    and some whenever the classifier arm has some. *)
Lemma combine_classifier_only (ml : list Prediction) (top_n : nat) :
  length ml <= top_n ->
  (combine_predictions [] ml top_n = [] <-> ml = []) /\
  forall p, In p (combine_predictions [] ml top_n) ->
    exists pm c, In pm ml /\ p = with_confidence pm c.
Proof.
  intros Hlen. unfold combine_predictions, weigh_similarity. simpl fold_left.
  split; [split|].
  - intros H. destruct ml as [|pm r]; auto. exfalso.
    assert (Hne : weigh_ml (pm :: r) [] <> [])
      by (apply weigh_ml_nonempty; left; discriminate).
    pose proof (stable_sort_length
                  (fun x y : string * Combined =>
                     Qle_bool (score (snd y)) (score (snd x)))
                  (weigh_ml (pm :: r) [])) as Hl.
    unfold sort_by_score in H.
    destruct (stable_sort _ (weigh_ml (pm :: r) [])) as [|x xs].
    + destruct (weigh_ml (pm :: r) []); [congruence | simpl in Hl; lia].
    + destruct top_n; [simpl in Hlen; lia | simpl in H; discriminate H].
  - intros ->. destruct top_n; reflexivity.
  - intros p Hin. apply in_map_iff in Hin. destruct Hin as ([k c] & <- & Hin).
    apply In_firstn in Hin. unfold sort_by_score in Hin.
    apply stable_sort_In in Hin.
    assert (Hinfo : Forall (fun kv : string * Combined => In (info (snd kv)) ml)
                      (weigh_ml ml [])).
    { apply (weigh_ml_infos (fun x => In x ml)); [|constructor].
      apply Forall_forall. auto. }
    rewrite Forall_forall in Hinfo.
    exists (info c), (Num.round2 (score c)). split; [|reflexivity].
    apply (Hinfo _ Hin).
Qed.

(** C1, on the code: with every cosine score at 0 the classifier arm still
    proposes its labels, and [predict] returns them. *)
Lemma no_overlap_still_predicts :
  calculate_similarity_scores no_overlap_predictor "xyzzy" = [0; 0; 0]%Q /\
  predict_diseases_similarity no_overlap_predictor "xyzzy" 3 = Ok [] /\
  (exists out,
      hybrid_prediction no_overlap_predictor "xyzzy" 3 = Ok out /\
      map disease out = ["Flu"; "Common Cold"; "Migraine"]) /\
  hybrid_prediction no_overlap_predictor "xyzzy" 3 <> Ok [].
Proof.
  repeat split.
  - eexists. split; reflexivity.
  - discriminate.
Qed.

(** ** The two arms on a fitted predictor *)

Lemma ml_loop_eq (self : HealthPredictor) (probabilities : list Q)
    (idxs : list nat) :
  incl (classes_ self) (map Disease (df self)) ->
  Forall (fun i => i < length (classes_ self)) idxs ->
  ml_loop self probabilities idxs
  = Ok (map (ml_candidate self probabilities)
          (filter (likely_at probabilities) idxs)).
Proof.
  intros Hincl. induction 1 as [|idx rest Hidx Hrest IH]; simpl; auto.
  unfold likely_at at 1.
  destruct (Num.Qltb (1 # 100) (nth idx probabilities 0%Q)); auto.
  assert (Hname : nth_error (classes_ self) idx = Some (class_at self idx))
    by (now apply nth_error_nth').
  assert (Hin : In (class_at self idx) (classes_ self))
    by (eapply nth_error_In; eauto).
  destruct (rows_named_first self _ (Hincl _ Hin)) as (i & r & Hr & _).
  unfold inverse_transform. rewrite Hname, bind_Ok, Hr, bind_Ok, IH, bind_Ok.
  simpl. unfold ml_candidate at 2. do 3 f_equal.
  unfold iloc in Hr.
  destruct (rows_named self (class_at self idx)) as [|x xs]; simpl in *;
    congruence.
Qed.

Lemma NoDup_firstn {A : Type} (n : nat) (l : list A) :
  NoDup l -> NoDup (firstn n l).
Proof.
  intros H. rewrite <- (firstn_skipn n l) in H. now apply NoDup_app_remove_r in H.
Qed.

Lemma top_indices_NoDup (a : list Q) (n : nat) : NoDup (top_indices a n).
Proof.
  unfold top_indices. apply NoDup_firstn.
  apply (Permutation_NoDup (Permutation_sym (ranking_perm a))), seq_NoDup.
Qed.

Lemma NoDup_map_nth {A : Type} (l : list A) (d : A) (idxs : list nat) :
  NoDup l -> NoDup idxs -> Forall (fun i => i < length l) idxs ->
  NoDup (map (fun i => nth i l d) idxs).
Proof.
  intros Hl Hi Hr. induction Hi as [|i r Hnin Hr' IH]; simpl; [constructor|].
  inversion Hr as [|? ? Hlt Hrest]; subst.
  constructor; auto.
  intros Hin. apply in_map_iff in Hin. destruct Hin as (j & Hj & Hjr).
  rewrite Forall_forall in Hrest.
  apply (proj1 (NoDup_nth l d) Hl) in Hj; auto. now subst.
Qed.

Lemma similarity_names_NoDup (self : HealthPredictor) (a : list Q)
    (idxs : list nat) :
  NoDup (map Disease (df self)) -> NoDup idxs ->
  Forall (fun i => i < length (df self)) idxs ->
  NoDup (map disease (map (similarity_candidate self a) idxs)).
Proof.
  intros Hn Hi Hr. rewrite map_map.
  rewrite (map_ext _ (fun i => nth i (map Disease (df self)) (Disease empty_row))).
  - apply NoDup_map_nth; auto. now rewrite length_map.
  - intros i. unfold similarity_candidate, prediction_of, row_at.
    cbn [disease]. symmetry. apply (map_nth Disease).
Qed.

Lemma ml_names_NoDup (self : HealthPredictor) (probabilities : list Q)
    (idxs : list nat) :
  NoDup (classes_ self) -> NoDup idxs ->
  Forall (fun i => i < length (classes_ self)) idxs ->
  NoDup (map disease (map (ml_candidate self probabilities) idxs)).
Proof.
  intros Hn Hi Hr. rewrite map_map.
  rewrite (map_ext _ (fun i => nth i (classes_ self) "")).
  - now apply NoDup_map_nth.
  - intros i. reflexivity.
Qed.

Lemma NoDup_filter {A : Type} (f : A -> bool) (l : list A) :
  NoDup l -> NoDup (filter f l).
Proof.
  induction 1 as [|x r Hx Hr IH]; simpl; [constructor|].
  destruct (f x); auto. constructor; auto.
  intros Hin. apply filter_In in Hin. tauto.
Qed.

(** On a fitted predictor neither arm raises and neither names a disease
    twice. *)
Lemma fitted_arms (self : HealthPredictor) (user_symptoms : string) (top_n : nat) :
  fitted self ->
  exists sims ml,
    predict_diseases_similarity self user_symptoms top_n = Ok sims /\
    predict_diseases_ml self user_symptoms top_n = Ok ml /\
    NoDup (map disease sims) /\ NoDup (map disease ml).
Proof.
  intros [Hn Hc Hl Hs Hp].
  set (a := calculate_similarity_scores self user_symptoms).
  set (b := predict_proba self (preprocess_symptoms user_symptoms)).
  assert (Ha : Forall (fun i => i < length (df self)) (top_indices a top_n)).
  { rewrite Forall_forall. intros i Hi. apply top_indices_range in Hi.
    unfold a, calculate_similarity_scores in Hi. now rewrite Hs in Hi. }
  assert (Hb : Forall (fun i => i < length (classes_ self)) (top_indices b top_n)).
  { rewrite Forall_forall. intros i Hi. apply top_indices_range in Hi.
    unfold b in Hi. now rewrite Hp in Hi. }
  exists (map (similarity_candidate self a)
            (filter (positive_at a) (top_indices a top_n))),
         (map (ml_candidate self b) (filter (likely_at b) (top_indices b top_n))).
  split; [|split; [|split]].
  - unfold predict_diseases_similarity. fold a. now apply similarity_loop_ok.
  - unfold predict_diseases_ml. fold b. now apply ml_loop_eq.
  - apply similarity_names_NoDup; auto.
    + apply NoDup_filter, top_indices_NoDup.
    + rewrite Forall_forall in *. intros i Hi. apply filter_In in Hi. apply Ha, Hi.
  - apply ml_names_NoDup; auto.
    + apply NoDup_filter, top_indices_NoDup.
    + rewrite Forall_forall in *. intros i Hi. apply filter_In in Hi. apply Hb, Hi.
Qed.

(** ** A forest always proposes a label *)

Lemma total_le (a : list Q) (m : Q) :
  (forall x, In x a -> (x <= m)%Q) ->
  (total a <= inject_Z (Z.of_nat (length a)) * m)%Q.
Proof.
  induction a as [|x r IH]; intros H.
  - change (0 <= 0 * m)%Q. lra.
  - assert (Hx : (x <= m)%Q) by (apply H; now left).
    assert (Hr : (total r <= inject_Z (Z.of_nat (length r)) * m)%Q)
      by (apply IH; intros y Hy; apply H; now right).
    change (total (x :: r)) with (x + total r)%Q.
    change (length (x :: r)) with (S (length r)).
    rewrite Nat2Z.inj_succ, <- Z.add_1_r, inject_Z_plus.
    change (inject_Z 1) with 1%Q. lra.
Qed.

Lemma ranking_head_max (a : list Q) (i0 : nat) (rest : list nat) (j : nat) :
  rev (argsort a) = i0 :: rest -> j < length a ->
  (nth j a 0 <= nth i0 a 0)%Q.
Proof.
  intros Hr Hj.
  assert (Hin : In j (rev (argsort a))).
  { apply (Permutation_in _ (Permutation_sym (ranking_perm a))), in_seq. lia. }
  pose proof (ranking_sorted a) as Hs. rewrite Hr in Hin, Hs.
  destruct Hin as [<-|Hin]; [apply Qle_refl|].
  inversion Hs as [|? ? _ Hall]; subst. rewrite Forall_forall in Hall.
  destruct (Hall j Hin) as [H|[H _]]; [now apply Qlt_le_weak|].
  rewrite H. apply Qle_refl.
Qed.

(** A probability vector over at most 99 classes has an entry above 0.01, and
    the first index of the ranking holds it. *)
Lemma distribution_head_likely (a : list Q) :
  0 < length a <= 99 -> (total a == 1)%Q ->
  exists i0 rest, rev (argsort a) = i0 :: rest /\ likely_at a i0 = true.
Proof.
  intros Hlen Hsum.
  destruct (rev (argsort a)) as [|i0 rest] eqn:Hr.
  { pose proof (Permutation_length (ranking_perm a)) as Hl.
    rewrite Hr, length_seq in Hl. simpl in Hl. lia. }
  exists i0, rest. split; auto.
  unfold likely_at. apply Qltb_lt.
  assert (Hmax : forall x, In x a -> (x <= nth i0 a 0)%Q).
  { intros x Hx. destruct (In_nth a x 0%Q Hx) as (j & Hj & <-).
    now apply ranking_head_max with rest. }
  pose proof (total_le a _ Hmax) as Ht. rewrite Hsum in Ht.
  assert (H1 : (1 <= inject_Z (Z.of_nat (length a)))%Q).
  { change 1%Q with (inject_Z 1). rewrite <- Zle_Qle. lia. }
  assert (H2 : (inject_Z (Z.of_nat (length a)) <= 99)%Q).
  { change 99%Q with (inject_Z 99). rewrite <- Zle_Qle. lia. }
  apply Qnot_le_lt. intros Hle.
  assert (H3 : (0 <= inject_Z (Z.of_nat (length a)) * ((1 # 100) - nth i0 a 0))%Q).
  { apply Qmult_le_0_compat; lra. }
  lra.
Qed.

(** Whatever the query, a fitted predictor whose forest returns a probability
    distribution over at most 99 classes has a classifier candidate, and so
    [predict] returns one also when no cosine score is positive. *)
Lemma fitted_forest_always_predicts
    (self : HealthPredictor) (user_symptoms : string) (top_n : nat) :
  fitted self ->
  1 <= top_n ->
  0 < length (classes_ self) <= 99 ->
  (total (predict_proba self (preprocess_symptoms user_symptoms)) == 1)%Q ->
  Forall (fun x => (x == 0)%Q) (calculate_similarity_scores self user_symptoms) ->
  exists p out, hybrid_prediction self user_symptoms top_n = Ok (p :: out).
Proof.
  intros Hf Hn Hc Hsum Hz.
  set (b := predict_proba self (preprocess_symptoms user_symptoms)) in *.
  assert (Hlen : length b = length (classes_ self)) by apply (fitted_proba Hf).
  destruct (distribution_head_likely b) as (i0 & rest & Hr & Hi0); auto.
  { now rewrite Hlen. }
  assert (Hml : exists pm ml,
             predict_diseases_ml self user_symptoms top_n = Ok (pm :: ml)).
  { unfold predict_diseases_ml. fold b. rewrite ml_loop_eq.
    - unfold top_indices. rewrite Hr.
      destruct top_n as [|n]; [lia|]. simpl. rewrite Hi0. simpl. eauto.
    - apply (fitted_labels Hf).
    - rewrite Forall_forall. intros i Hi. apply top_indices_range in Hi. lia. }
  destruct Hml as (pm & ml & Hml).
  assert (Hs : predict_diseases_similarity self user_symptoms top_n = Ok []).
  { unfold predict_diseases_similarity. now apply similarity_loop_no_overlap. }
  unfold hybrid_prediction. rewrite Hs, bind_Ok, Hml, bind_Ok.
  assert (Hl : length (pm :: ml) <= top_n).
  { unfold predict_diseases_ml in Hml. apply ml_loop_length in Hml.
    etransitivity; [exact Hml|]. unfold top_indices. apply firstn_le_length. }
  destruct (combine_classifier_only (pm :: ml) top_n Hl) as [[Hne _] _].
  destruct (combine_predictions [] (pm :: ml) top_n) as [|p out]; eauto.
  discriminate (Hne eq_refl).
Qed.

(** On a fitted predictor the weighted-sum rule needs no side condition. *)
Lemma fitted_hybrid_confidence
    (self : HealthPredictor) (user_symptoms : string) (top_n : nat) :
  fitted self ->
  exists sims ml out,
    predict_diseases_similarity self user_symptoms top_n = Ok sims /\
    predict_diseases_ml self user_symptoms top_n = Ok ml /\
    hybrid_prediction self user_symptoms top_n = Ok out /\
    forall p, In p out ->
      (forall ps pm,
          In ps sims -> In pm ml ->
          disease ps = disease p -> disease pm = disease p ->
          confidence p
          = Num.round2 ((6 # 10) * confidence ps + (4 # 10) * confidence pm)) /\
      (forall ps,
          In ps sims -> disease ps = disease p ->
          (forall pm, In pm ml -> disease pm <> disease p) ->
          confidence p = Num.round2 ((6 # 10) * confidence ps)) /\
      (forall pm,
          In pm ml -> disease pm = disease p ->
          (forall ps, In ps sims -> disease ps <> disease p) ->
          confidence p = Num.round2 ((4 # 10) * confidence pm)).
Proof.
  intros Hf.
  destruct (fitted_arms self user_symptoms top_n Hf)
    as (sims & ml & Hs & Hm & Hds & Hdm).
  exists sims, ml, (combine_predictions sims ml top_n).
  repeat split; auto.
  - unfold hybrid_prediction. now rewrite Hs, bind_Ok, Hm, bind_Ok.
  - now apply (combined_confidence sims ml top_n p Hds Hdm).
  - now apply (combined_confidence sims ml top_n p Hds Hdm).
  - now apply (combined_confidence sims ml top_n p Hds Hdm).
Qed.

Lemma sample_predictor_fitted : fitted sample_predictor.
Proof.
  constructor; simpl; auto.
  - repeat constructor; simpl; intuition discriminate.
  - repeat constructor; simpl; intuition discriminate.
  - intros name [<-|[<-|[<-|[]]]]; simpl; auto.
Qed.
(** * Further properties *)

(** ** When the severity assessment raises *)

Lemma tier_dec (s : string) : {is_tier s} + {~ is_tier s}.
Proof.
  unfold is_tier.
  destruct (String.string_dec s "Severe"); [left; auto|].
  destruct (String.string_dec s "Moderate"); [left; auto|].
  destruct (String.string_dec s "Mild"); [left; auto|].
  right. tauto.
Defined.

Lemma get_cons {V : Type} (k k' : string) (v : V) (d : Dict.t V) :
  Dict.get k ((k', v) :: d) = if String.eqb k' k then Some v else Dict.get k d.
Proof. reflexivity. Qed.

Lemma item_untiered (s : string) :
  ~ is_tier s -> Rec.item s Rec.severity_actions = Raise KeyError.
Proof.
  unfold is_tier. intros H. unfold Rec.item, Rec.severity_actions.
  rewrite !get_cons.
  destruct (String.eqb_spec "Mild" s) as [<-|]; [tauto|].
  destruct (String.eqb_spec "Moderate" s) as [<-|]; [tauto|].
  destruct (String.eqb_spec "Severe" s) as [<-|]; [tauto|].
  reflexivity.
Qed.

Lemma highest_tier_iff (pred : Prediction) (rest : list Prediction) :
  is_tier (highest_severity pred rest) <->
  exists p, In p (pred :: rest) /\ is_tier (severity p).
Proof.
  destruct (highest_severity_spec pred rest) as [Hin Hmax]. split.
  - intros Ht. apply in_map_iff in Hin. destruct Hin as (p & Hp & Hin).
    exists p. split; auto. now rewrite Hp.
  - intros (p & Hin' & Ht). apply priority_tier.
    apply tier_priority in Ht. specialize (Hmax p Hin'). lia.
Qed.

Lemma assessment_raises (pred : Prediction) (rest : list Prediction) :
  ~ is_tier (highest_severity pred rest) ->
  Rec.generate_severity_assessment (pred :: rest) = Raise KeyError.
Proof.
  intros Hn. unfold Rec.generate_severity_assessment.
  fold (highest_severity pred rest). now rewrite (item_untiered _ Hn).
Qed.

(** X2. [generate_comprehensive_recommendations] raises under the same
    condition, with the same [KeyError]: a non-empty list without a candidate
    of a known tier. *)
Theorem comprehensive_raises_iff
    (timestamp user_symptoms : string) (predictions : list Prediction) (e : exn) :
  Rec.generate_comprehensive_recommendations timestamp predictions user_symptoms
  = Raise e <->
  e = KeyError /\ predictions <> [] /\ untiered predictions.
Proof.
  destruct predictions as [|pred rest].
  { split; [discriminate|]. intros (_ & H & _). now elim H. }
  destruct (tier_dec (highest_severity pred rest)) as [Ht|Hn].
  - destruct (comprehensive_ok timestamp user_symptoms pred rest Ht)
      as (a & l & f & Hb & _). rewrite Hb.
    split; [discriminate|]. intros (_ & _ & Hu). exfalso.
    apply highest_tier_iff in Ht. destruct Ht as (p & Hin & Hp).
    now apply (Hu p Hin).
  - unfold Rec.generate_comprehensive_recommendations.
    rewrite (assessment_raises pred rest Hn). simpl bind. split.
    + intros H. injection H as <-. repeat split; [discriminate|].
      intros p Hin Hp. apply Hn, highest_tier_iff. eauto.
    + now intros (-> & _).
Qed.

(** X3. A bundle that [generate_comprehensive_recommendations] returns has
    an [error] key exactly when the candidate list was empty; otherwise its
    keys are the nine of the full bundle, in their order. *)
Theorem bundle_error_key_iff_empty
    (timestamp user_symptoms : string) (predictions : list Prediction)
    (bundle : Dict.t value) :
  Rec.generate_comprehensive_recommendations timestamp predictions user_symptoms
  = Ok bundle ->
  (Dict.mem "error" bundle = true <-> predictions = []) /\
  (predictions <> [] -> Dict.keys bundle = success_keys).
Proof.
  destruct predictions as [|pred rest].
  - intros H. injection H as <-. split; [split; auto|]. intros H; now elim H.
  - intros Hb.
    destruct (tier_dec (highest_severity pred rest)) as [Ht|Hn].
    + destruct (comprehensive_ok timestamp user_symptoms pred rest Ht)
        as (a & l & f & Hb' & _). rewrite Hb' in Hb. injection Hb as <-.
      split; [split; discriminate|]. reflexivity.
    + exfalso.
      assert (Hr : Rec.generate_comprehensive_recommendations timestamp
                     (pred :: rest) user_symptoms = Raise KeyError).
      { unfold Rec.generate_comprehensive_recommendations.
        now rewrite (assessment_raises pred rest Hn). }
      congruence.
Qed.

Lemma bundle_error_key_iff_empty_witness :
  exists bundle,
    Rec.generate_comprehensive_recommendations "2024-01-01 00:00:00"
      flu_and_cold "fever, cough, chills" = Ok bundle /\
    (Dict.mem "error" bundle = true <-> flu_and_cold = []) /\
    (flu_and_cold <> [] -> Dict.keys bundle = success_keys).
Proof.
  eexists. split; [reflexivity|].
  apply (bundle_error_key_iff_empty "2024-01-01 00:00:00" "fever, cough, chills"
           flu_and_cold).
  reflexivity.
Defined.

(** ** Displaying a bundle *)

(** X4. [format_recommendations_for_display] never raises on a bundle that
    [generate_comprehensive_recommendations] returned: the error bundle of an
    empty candidate list comes back unchanged, and every other bundle has all
    the keys the formatter reads and is turned into text. *)
Theorem display_of_returned_bundle
    (timestamp user_symptoms : string) (predictions : list Prediction)
    (bundle : Dict.t value) :
  Rec.generate_comprehensive_recommendations timestamp predictions user_symptoms
  = Ok bundle ->
  (predictions = [] /\
   Display.format_recommendations_for_display bundle = Ok (Unchanged bundle)) \/
  (predictions <> [] /\
   exists text,
     Display.format_recommendations_for_display bundle = Ok (Formatted text)).
Proof.
  destruct predictions as [|pred rest].
  - intros H. injection H as <-. left. split; reflexivity.
  - intros Hb. right. split; [discriminate|].
    destruct (tier_dec (highest_severity pred rest)) as [Ht|Hn].
    + destruct (comprehensive_ok timestamp user_symptoms pred rest Ht)
        as (a & l & f & Hb' & _). rewrite Hb' in Hb. injection Hb as <-.
      eexists. reflexivity.
    + exfalso.
      assert (Hr : Rec.generate_comprehensive_recommendations timestamp
                     (pred :: rest) user_symptoms = Raise KeyError).
      { unfold Rec.generate_comprehensive_recommendations.
        now rewrite (assessment_raises pred rest Hn). }
      congruence.
Qed.

Lemma display_of_returned_bundle_witness :
  exists bundle,
    Rec.generate_comprehensive_recommendations "2024-01-01 00:00:00"
      flu_and_cold "fever, cough, chills" = Ok bundle /\
    ((flu_and_cold = [] /\
      Display.format_recommendations_for_display bundle = Ok (Unchanged bundle)) \/
     (flu_and_cold <> [] /\
      exists text,
        Display.format_recommendations_for_display bundle = Ok (Formatted text))).
Proof.
  eexists. split; [reflexivity|].
  apply (display_of_returned_bundle "2024-01-01 00:00:00" "fever, cough, chills"
           flu_and_cold).
  reflexivity.
Defined.

(** ** The severity warning *)

Lemma severity_warning_of_first (p : Prediction) (rest : list Prediction) :
  (severity p = "Mild" /\
   get_severity_warning (p :: rest)
   = "💚 Low concern - Monitor symptoms and consider self-care measures.") \/
  (severity p = "Moderate" /\
   get_severity_warning (p :: rest)
   = "🟡 Moderate concern - Consider consulting a healthcare provider if symptoms persist or worsen.") \/
  (severity p = "Severe" /\
   get_severity_warning (p :: rest) = high_concern_warning) \/
  (~ is_tier (severity p) /\ get_severity_warning (p :: rest) = default_warning).
Proof.
  unfold get_severity_warning, severity_warnings. rewrite !get_cons.
  destruct (String.eqb_spec "Mild" (severity p)) as [E|E1]; [left; auto|].
  destruct (String.eqb_spec "Moderate" (severity p)) as [E|E2]; [right; left; auto|].
  destruct (String.eqb_spec "Severe" (severity p)) as [E|E3];
    [right; right; left; auto|].
  right; right; right. split; [|reflexivity].
  unfold is_tier. intros [H|[H|H]]; congruence.
Qed.

(** X5. [get_severity_warning] answers "No matching conditions found."
    exactly for the empty list, and the high-concern warning exactly when the
    first candidate of the list is Severe: it reads the top-ranked candidate
    alone. *)
Theorem severity_warning_reads_first (predictions : list Prediction) :
  (get_severity_warning predictions = no_match_warning <-> predictions = []) /\
  (get_severity_warning predictions = high_concern_warning <->
   exists p rest, predictions = p :: rest /\ severity p = "Severe").
Proof.
  destruct predictions as [|p rest].
  - split; split; auto; try discriminate. intros (? & ? & H & _). discriminate H.
  - assert (Hfirst : (exists p' rest', p :: rest = p' :: rest' /\
                                       severity p' = "Severe")
                     <-> severity p = "Severe").
    { split; [|eauto]. intros (p' & r' & H & Hsev). injection H as -> ->. auto. }
    rewrite Hfirst.
    destruct (severity_warning_of_first p rest)
      as [[Hs Hw]|[[Hs Hw]|[[Hs Hw]|[Hs Hw]]]]; rewrite Hw, ?Hs;
      (split; split; intros H; try discriminate H; auto).
    exfalso. apply Hs. left. exact H.
Qed.

(** X6. The warning never says more than the assessment: when
    [get_severity_warning] gives the high-concern warning, the bundle of
    [generate_comprehensive_recommendations] for the same list has overall
    severity "Severe". *)
Theorem high_concern_warning_implies_severe_assessment
    (timestamp user_symptoms : string) (predictions : list Prediction) :
  get_severity_warning predictions = high_concern_warning ->
  exists bundle assessment,
    Rec.generate_comprehensive_recommendations timestamp predictions user_symptoms
    = Ok bundle /\
    Dict.get "severity_assessment" bundle = Some (VDict assessment) /\
    Dict.get "overall_severity" assessment = Some (VStr "Severe").
Proof.
  intros Hw. destruct predictions as [|p rest]; [discriminate Hw|].
  assert (Hs : severity p = "Severe").
  { destruct (severity_warning_of_first p rest)
      as [[Hs H]|[[Hs H]|[[Hs H]|[Hs H]]]]; auto; rewrite H in Hw;
      discriminate Hw. }
  assert (Hh : highest_severity p rest = "Severe").
  { apply severe_is_highest. exists p. split; auto. now left. }
  assert (Ht : is_tier (highest_severity p rest)) by (rewrite Hh; now left).
  destruct (comprehensive_ok timestamp user_symptoms p rest Ht)
    as (a & l & f & Hb & _).
  rewrite Hh in Hb. eexists. exists (assessment_of "Severe" a).
  split; [exact Hb|]. split; reflexivity.
Qed.

Lemma high_concern_warning_implies_severe_assessment_witness :
  exists bundle assessment,
    Rec.generate_comprehensive_recommendations "2024-01-01 00:00:00"
      [cardiac_stroke; flu_rest] "chest pain" = Ok bundle /\
    Dict.get "severity_assessment" bundle = Some (VDict assessment) /\
    Dict.get "overall_severity" assessment = Some (VStr "Severe").
Proof.
  apply (high_concern_warning_implies_severe_assessment "2024-01-01 00:00:00"
           "chest pain" [cardiac_stroke; flu_rest]).
  reflexivity.
Defined.

(** ** Follow-up, warning signs, self-care *)

Lemma has_severe_dec (predictions : list Prediction) :
  {has_severe predictions} + {~ has_severe predictions}.
Proof.
  unfold has_severe.
  destruct (existsb (fun p => String.eqb (severity p) "Severe") predictions) eqn:E.
  - left. apply existsb_exists in E. destruct E as (p & Hin & Hp).
    exists p. split; auto. now apply String.eqb_eq.
  - right. intros (p & Hin & Hp).
    apply Bool.not_true_iff_false in E. apply E, existsb_exists.
    exists p. split; auto. now apply String.eqb_eq.
Defined.

Lemma highest_severe_iff (pred : Prediction) (rest : list Prediction) :
  highest_severity pred rest = "Severe" <-> has_severe (pred :: rest).
Proof.
  split; [|apply severe_is_highest].
  intros H. destruct (highest_severity_spec pred rest) as [Hin _].
  apply in_map_iff in Hin. destruct Hin as (p & Hp & Hin).
  exists p. split; auto. congruence.
Qed.

(** X7. [generate_followup_recommendations] returns three entries when a
    candidate is Severe and four otherwise (also for the empty list, which it
    treats like a mild case). *)
Theorem followup_three_iff_severe
    (predictions : list Prediction) (followup : list string) :
  Rec.generate_followup_recommendations predictions = Ok followup ->
  (length followup = 3 <-> has_severe predictions) /\
  (length followup = 4 <-> ~ has_severe predictions).
Proof.
  destruct predictions as [|pred rest].
  - intros H. injection H as <-.
    assert (Hn : ~ has_severe []) by (intros (? & [] & _)).
    simpl. split; split; auto; try discriminate; tauto.
  - intros H. unfold Rec.generate_followup_recommendations in H.
    destruct (tier_dec (highest_severity pred rest)) as [Ht|Hn].
    2:{ rewrite (assessment_raises pred rest Hn) in H. discriminate H. }
    destruct (assessment_ok pred rest Ht) as [a Ha].
    rewrite Ha, bind_Ok, overall_of_assessment, bind_Ok in H.
    rewrite <- highest_severe_iff.
    destruct (String.eqb_spec (highest_severity pred rest) "Severe") as [E|E].
    + injection H as <-. simpl. split; split; auto; try discriminate; tauto.
    + destruct (String.eqb (highest_severity pred rest) "Moderate");
        injection H as <-; simpl; split; split; auto; try discriminate; tauto.
Qed.

Lemma followup_three_iff_severe_witness :
  exists followup,
    Rec.generate_followup_recommendations [cardiac_stroke; flu_rest] = Ok followup /\
    (length followup = 3 <-> has_severe [cardiac_stroke; flu_rest]) /\
    (length followup = 4 <-> ~ has_severe [cardiac_stroke; flu_rest]).
Proof.
  eexists. split; [reflexivity|].
  apply (followup_three_iff_severe [cardiac_stroke; flu_rest]). reflexivity.
Defined.

Lemma fromkeys_NoDup (l seen : list string) : NoDup (fromkeys seen l).
Proof.
  revert seen; induction l as [|x r IH]; intros seen; simpl; [constructor|].
  destruct (existsb (String.eqb x) seen); auto.
  constructor; auto. rewrite fromkeys_In. simpl. tauto.
Qed.

Lemma unique_NoDup (l : list string) : NoDup (unique l).
Proof. apply fromkeys_NoDup. Qed.

Lemma specific_warning_known (p : Prediction) (w : string) :
  In w (Rec.add_specific_warning [] p) -> In w specific_warnings.
Proof.
  unfold Rec.add_specific_warning, specific_warnings.
  repeat match goal with
         | |- context [if ?b then _ else _] => destruct b
         end; simpl; tauto.
Qed.

Lemma closed_strings_NoDup_5 :
  NoDup (firstn 5 Rec.general_warning_signs).
Proof.
  apply (NoDup_map_inv String.length). vm_compute.
  repeat constructor; simpl; intuition discriminate.
Qed.

(** X8. The warning signs never repeat an entry, hold nothing but the four
    condition warnings and the first five general ones, and for a non-empty
    list always include those five: between 5 and 9 entries. *)
Theorem warning_signs_invariants (predictions : list Prediction) :
  NoDup (Rec.generate_warning_signs predictions) /\
  incl (Rec.generate_warning_signs predictions)
       (specific_warnings ++ firstn 5 Rec.general_warning_signs) /\
  length (Rec.generate_warning_signs predictions) <= 9 /\
  (predictions = [] -> Rec.generate_warning_signs predictions = []) /\
  (predictions <> [] ->
   incl (firstn 5 Rec.general_warning_signs)
        (Rec.generate_warning_signs predictions) /\
   5 <= length (Rec.generate_warning_signs predictions)).
Proof.
  assert (Hincl : incl (Rec.generate_warning_signs predictions)
                       (specific_warnings ++ firstn 5 Rec.general_warning_signs)).
  { destruct predictions as [|p rest]; [intros x []|].
    unfold Rec.generate_warning_signs. rewrite specific_warnings_flat_map.
    cbn [app]. intros x Hx. apply unique_In, in_app_or in Hx.
    apply in_or_app. destruct Hx as [Hx|Hx]; auto. left.
    apply in_flat_map in Hx. destruct Hx as (q & _ & Hq).
    now apply specific_warning_known with q. }
  assert (Hnd : NoDup (Rec.generate_warning_signs predictions)).
  { destruct predictions as [|p rest]; [constructor|]. apply unique_NoDup. }
  split; auto. split; auto. split.
  { apply (NoDup_incl_length Hnd) in Hincl. exact Hincl. }
  split.
  - intros ->. reflexivity.
  - intros Hne. destruct predictions as [|p rest]; [now elim Hne|].
    assert (Hg : incl (firstn 5 Rec.general_warning_signs)
                      (Rec.generate_warning_signs (p :: rest))).
    { unfold Rec.generate_warning_signs. intros x Hx.
      apply unique_In, in_or_app. now right. }
    split; auto.
    apply (NoDup_incl_length closed_strings_NoDup_5) in Hg. exact Hg.
Qed.

Lemma self_care_loop_no_severe (predictions : list Prediction) (tips : list string) :
  ~ has_severe predictions ->
  Rec.self_care_loop tips predictions
  = tips ++ flat_map (fun p => Rec.condition_tips (Text.lower (disease p)))
                     predictions.
Proof.
  revert tips; induction predictions as [|pred rest IH]; intros tips Hn; simpl.
  - now rewrite app_nil_r.
  - destruct (String.eqb_spec (severity pred) "Severe") as [E|E].
    + exfalso. apply Hn. exists pred. split; auto. now left.
    + rewrite IH, app_assoc; auto.
      intros (p & Hin & Hp). apply Hn. exists p. split; auto. now right.
Qed.

Lemma condition_tip_known (name tip : string) :
  In tip (Rec.condition_tips name) -> In tip condition_specific_tips.
Proof.
  unfold Rec.condition_tips, condition_specific_tips.
  repeat match goal with
         | |- context [if ?b then _ else _] => destruct b
         end; intros H; try contradiction;
    repeat (apply in_or_app; (now left) || right); auto.
Qed.

Lemma seek_attention_not_condition_tip :
  ~ In Rec.seek_attention condition_specific_tips.
Proof.
  intros H. apply (in_map String.length) in H. vm_compute in H.
  repeat (destruct H as [H|H]; [discriminate H|]). exact H.
Qed.

(** X9. The self-care tips never repeat an entry and number at most nine;
    the seek-immediate-medical-attention entry is among them exactly when a
    candidate is Severe, and without a Severe candidate every tip is one of
    the nine condition tips. *)
Theorem self_care_invariants (predictions : list Prediction) :
  NoDup (Rec.generate_self_care_tips predictions) /\
  (In Rec.seek_attention (Rec.generate_self_care_tips predictions)
   <-> has_severe predictions) /\
  (~ has_severe predictions ->
   incl (Rec.generate_self_care_tips predictions) condition_specific_tips) /\
  length (Rec.generate_self_care_tips predictions) <= 9.
Proof.
  assert (Hnd : NoDup (Rec.generate_self_care_tips predictions)).
  { destruct predictions as [|p rest]; [constructor|]. apply unique_NoDup. }
  assert (Hno : ~ has_severe predictions ->
                incl (Rec.generate_self_care_tips predictions)
                     condition_specific_tips).
  { intros Hn. destruct predictions as [|p rest]; [intros x []|].
    unfold Rec.generate_self_care_tips.
    rewrite (self_care_loop_no_severe (p :: rest) [] Hn). cbn [app].
    intros x Hx. apply unique_In, in_flat_map in Hx.
    destruct Hx as (q & _ & Hq). now apply condition_tip_known in Hq. }
  assert (Hsev : has_severe predictions ->
                 Rec.generate_self_care_tips predictions = [Rec.seek_attention]).
  { intros Hs. destruct predictions as [|p rest].
    - destruct Hs as (? & [] & _).
    - unfold Rec.generate_self_care_tips.
      now rewrite (self_care_loop_severe (p :: rest) [] Hs). }
  split; auto. split; [|split; auto].
  - split.
    + intros Hin. destruct (has_severe_dec predictions) as [|Hn]; auto.
      exfalso. apply seek_attention_not_condition_tip. now apply (Hno Hn).
    + intros Hs. rewrite (Hsev Hs). now left.
  - destruct (has_severe_dec predictions) as [Hs|Hn].
    + rewrite (Hsev Hs). simpl. lia.
    + apply (NoDup_incl_length Hnd) in Hno; auto.
Qed.

(** ** Parsing the comma-separated fields *)

Lemma split_chars_no_sep (sep : ascii) (l : list ascii) :
  Forall (fun w => ~ In sep w) (Text.split_chars sep l).
Proof.
  induction l as [|c r IH]; simpl.
  - repeat constructor. intros [].
  - destruct (Ascii.eqb_spec c sep) as [->|Hne].
    + constructor; auto.
    + destruct (Text.split_chars sep r) as [|w ws].
      * repeat constructor. intros [H|[]]. now apply Hne.
      * inversion IH as [|? ? Hw Hws]; subst. constructor; auto.
        intros [H|H]; [now apply Hne | now apply Hw].
Qed.

Lemma strip_idempotent (s : string) : Text.strip (Text.strip s) = Text.strip s.
Proof.
  unfold Text.strip. now rewrite chars_text, strip_chars_idempotent.
Qed.

Lemma not_empty (s : string) : Text.is_empty s = false <-> s <> "".
Proof. destruct s; simpl; split; congruence. Qed.

(** X10. Every phrase [parse_recommendations] returns is non-empty, has no
    white space at either end and contains no comma. *)
Theorem parsed_phrases_clean (recommendation_text phrase : string) :
  In phrase (Rec.parse_recommendations recommendation_text) ->
  clean_phrase phrase.
Proof.
  unfold Rec.parse_recommendations.
  destruct (Text.is_empty recommendation_text); [intros []|].
  intros H. apply filter_In in H. destruct H as [H Hne].
  apply in_map_iff in H. destruct H as (w & <- & Hw).
  unfold Text.split in Hw. apply in_map_iff in Hw. destruct Hw as (l & <- & Hl).
  split; [|split].
  - apply not_empty. now apply negb_true_iff in Hne.
  - apply strip_idempotent.
  - unfold Text.strip. rewrite !chars_text. intros Hin.
    apply strip_chars_incl in Hin.
    pose proof (split_chars_no_sep ","%char (Text.chars recommendation_text)) as Hs.
    rewrite Forall_forall in Hs. now apply (Hs l Hl).
Qed.

Lemma parsed_phrases_clean_witness :
  clean_phrase "stay hydrated".
Proof.
  apply (parsed_phrases_clean "Rest, stay hydrated ,, avoid cold exposure").
  right; left; reflexivity.
Defined.

Lemma chars_app (a b : string) :
  Text.chars (a ++ b) = Text.chars a ++ Text.chars b.
Proof.
  induction a as [|c a IH]; simpl; auto. unfold Text.chars in *. simpl.
  now rewrite IH.
Qed.

Lemma split_chars_app (sep : ascii) (a b : list ascii) :
  ~ In sep a ->
  Text.split_chars sep (a ++ sep :: b) = a :: Text.split_chars sep b.
Proof.
  induction a as [|c a IH]; intros Hn; simpl.
  - now rewrite Ascii.eqb_refl.
  - destruct (Ascii.eqb_spec c sep) as [->|Hne].
    + exfalso. apply Hn. now left.
    + rewrite IH; auto. intros H. apply Hn. now right.
Qed.

Lemma split_chars_whole (sep : ascii) (a : list ascii) :
  ~ In sep a -> Text.split_chars sep a = [a].
Proof.
  induction a as [|c a IH]; intros Hn; simpl; auto.
  destruct (Ascii.eqb_spec c sep) as [->|Hne].
  - exfalso. apply Hn. now left.
  - rewrite IH; auto. intros H. apply Hn. now right.
Qed.

Lemma split_joined (p : string) (r : list string) :
  Forall clean_phrase (p :: r) ->
  Text.split_chars ","%char (Text.chars (Str.join ", " (p :: r)))
  = Text.chars p :: map (fun q => " "%char :: Text.chars q) r.
Proof.
  revert p; induction r as [|q r IH]; intros p Hc.
  - simpl. apply split_chars_whole. inversion Hc as [|? ? Hp _]; subst. apply Hp.
  - inversion Hc as [|? ? Hp Hr]; subst.
    change (Str.join ", " (p :: q :: r))
      with (p ++ ", " ++ Str.join ", " (q :: r))%string.
    rewrite !chars_app.
    change (Text.chars ", ") with [","%char; " "%char].
    cbn [app]. rewrite split_chars_app by apply Hp.
    change (Text.split_chars "," (" "%char :: Text.chars (Str.join ", " (q :: r))))
      with (match Text.split_chars "," (Text.chars (Str.join ", " (q :: r))) with
            | [] => [[" "%char]]
            | w :: ws => (" "%char :: w) :: ws
            end).
    now rewrite (IH q Hr).
Qed.

Lemma strip_led_by_space (q : string) :
  Text.strip (Text.text (" "%char :: Text.chars q)) = Text.strip q.
Proof. unfold Text.strip. now rewrite chars_text. Qed.

(** X11. Round trip: phrases that are non-empty, comma-free and without
    white space at their ends, joined with ", " as the catalog writes them,
    are parsed back to the same list. *)
Theorem parse_joined_phrases (phrases : list string) :
  Forall clean_phrase phrases ->
  Rec.parse_recommendations (Str.join ", " phrases) = phrases.
Proof.
  intros Hc. destruct phrases as [|p r]; [reflexivity|].
  unfold Rec.parse_recommendations.
  assert (Hne : Text.is_empty (Str.join ", " (p :: r)) = false).
  { inversion Hc as [|? ? [Hp _] _]; subst.
    destruct p as [|c p]; [now elim Hp|]. destruct r; reflexivity. }
  rewrite Hne. unfold Text.split. rewrite (split_joined p r Hc).
  cbn [map]. rewrite !map_map.
  rewrite (map_ext_in _ (fun q => q)).
  - rewrite map_id. rewrite text_chars.
    inversion Hc as [|? ? [Hp [Hs _]] Hr]; subst. rewrite Hs.
    cbn [filter]. rewrite (proj2 (not_empty p) Hp). cbn [negb]. f_equal.
    apply filter_all. intros q Hq. rewrite Forall_forall in Hr.
    destruct (Hr q Hq) as [Hq' _]. now rewrite (proj2 (not_empty q) Hq').
  - intros q Hq. rewrite strip_led_by_space.
    inversion Hc as [|? ? _ Hr]; subst. rewrite Forall_forall in Hr.
    now destruct (Hr q Hq) as (_ & Hs & _).
Qed.

Lemma parse_joined_phrases_witness :
  Rec.parse_recommendations
    (Str.join ", " ["Bed rest"; "antiviral medication if severe";
                    "avoid contact with others"])
  = ["Bed rest"; "antiviral medication if severe"; "avoid contact with others"].
Proof.
  apply (parse_joined_phrases
           ["Bed rest"; "antiviral medication if severe";
            "avoid contact with others"]).
  repeat constructor; try discriminate;
    vm_compute; intuition discriminate.
Defined.

(** ** What the two phrase lists hold *)

Lemma prefix_app (m x : string) : String.prefix m (m ++ x) = true.
Proof.
  induction m as [|c m IH]; simpl; [now destruct x|].
  destruct (ascii_dec c c); [exact IH | congruence].
Qed.

Lemma fold_append_marked (marker : string) (phrases recs : list string) :
  Forall (fun r => String.prefix marker r = true) recs ->
  Forall (fun q => String.prefix marker q = false) phrases ->
  fold_left (Rec.append_marked marker) phrases recs
  = recs ++ map (marked marker) phrases.
Proof.
  revert recs; induction phrases as [|q qs IH]; intros recs Hr Hq; simpl.
  - now rewrite app_nil_r.
  - inversion Hq as [|? ? Hq1 Hqs]; subst.
    assert (Hfresh : existsb (String.eqb q) recs = false).
    { apply Bool.not_true_iff_false. intros H. apply existsb_exists in H.
      destruct H as (r & Hin & E). apply String.eqb_eq in E. subst r.
      rewrite Forall_forall in Hr. rewrite (Hr q Hin) in Hq1. discriminate. }
    unfold Rec.append_marked at 2. rewrite Hfresh.
    rewrite IH; auto.
    + now rewrite <- app_assoc.
    + apply Forall_app. split; auto. repeat constructor. apply prefix_app.
Qed.

Lemma collect_lists_all (marker : string) (field : Prediction -> string)
    (predictions : list Prediction) :
  Forall (fun q => String.prefix marker q = false) (phrases_of field predictions) ->
  Rec.collect marker field predictions
  = map (marked marker) (phrases_of field predictions).
Proof.
  unfold Rec.collect, phrases_of.
  change (map (marked marker)
            (flat_map (fun pred => Rec.parse_recommendations (field pred))
               predictions))
    with ([] ++ map (marked marker)
            (flat_map (fun pred => Rec.parse_recommendations (field pred))
               predictions)).
  assert (Hnil : Forall (fun r => String.prefix marker r = true) [])
    by constructor.
  revert Hnil. generalize (@nil string).
  induction predictions as [|p rest IH]; intros recs Hr Hq; simpl.
  - now rewrite app_nil_r.
  - simpl in Hq. apply Forall_app in Hq. destruct Hq as [Hq1 Hq2].
    rewrite fold_append_marked; auto. rewrite IH; auto.
    + now rewrite map_app, app_assoc.
    + apply Forall_app. split; auto.
      rewrite Forall_forall. intros x Hx. apply in_map_iff in Hx.
      destruct Hx as (q & <- & _). apply prefix_app.
Qed.

Lemma any_severe_iff (predictions : list Prediction) :
  any_severe predictions = true <-> has_severe predictions.
Proof.
  unfold any_severe, has_severe. rewrite existsb_exists.
  split; intros (p & Hin & Hp); exists p; split; auto; now apply String.eqb_eq.
Qed.

(** X12. When no precaution phrase begins with the warning marker and some
    candidate has a known tier, [generate_lifestyle_recommendations] lists
    every precaution phrase of every candidate behind the marker, in order
    and as often as it occurs, followed by the first two general tips if a
    candidate is Severe and the first four otherwise. *)
Theorem lifestyle_lists_every_phrase (predictions : list Prediction) :
  (exists p, In p predictions /\ is_tier (severity p)) ->
  Forall (fun q => String.prefix "⚠️" q = false)
         (phrases_of precautions predictions) ->
  Rec.generate_lifestyle_recommendations predictions
  = Ok (map (marked "⚠️") (phrases_of precautions predictions)
        ++ firstn (if any_severe predictions then 2 else 4)
                  Rec.general_health_tips).
Proof.
  intros Ht Hq. destruct predictions as [|pred rest];
    [destruct Ht as (? & [] & _)|].
  apply highest_tier_iff in Ht.
  destruct (assessment_ok pred rest Ht) as [a Ha].
  rewrite (lifestyle_ok pred rest a Ha), (collect_lists_all _ _ _ Hq).
  do 3 f_equal.
  destruct (any_severe (pred :: rest)) eqn:E.
  - apply any_severe_iff, highest_severe_iff in E. now rewrite E.
  - destruct Ht as [H|[H|H]]; rewrite H; try reflexivity.
    apply highest_severe_iff, any_severe_iff in H. congruence.
Qed.

Lemma lifestyle_lists_every_phrase_witness :
  Rec.generate_lifestyle_recommendations flu_and_cold
  = Ok (map (marked "⚠️") (phrases_of precautions flu_and_cold)
        ++ firstn (if any_severe flu_and_cold then 2 else 4)
                  Rec.general_health_tips).
Proof.
  apply (lifestyle_lists_every_phrase flu_and_cold).
  - eexists. split; [left; reflexivity|]. right; left; reflexivity.
  - vm_compute. repeat constructor.
Defined.

(** X13. When no diet phrase begins with the plate marker,
    [generate_dietary_recommendations] on a non-empty list holds every diet
    phrase of every candidate behind the marker, in order and as often as it
    occurs; the first two general dietary tips follow exactly when fewer than
    three phrases were collected. *)
Theorem dietary_lists_every_phrase (pred : Prediction) (rest : list Prediction) :
  Forall (fun q => String.prefix "🍽️" q = false)
         (phrases_of diet_recommendations (pred :: rest)) ->
  Rec.generate_dietary_recommendations (pred :: rest)
  = map (marked "🍽️") (phrases_of diet_recommendations (pred :: rest))
    ++ (if length (phrases_of diet_recommendations (pred :: rest)) <? 3
        then firstn 2 Rec.general_dietary_tips else []).
Proof.
  intros Hq. unfold Rec.generate_dietary_recommendations.
  rewrite (collect_lists_all _ _ _ Hq), length_map.
  destruct (length (phrases_of diet_recommendations (pred :: rest)) <? 3); auto.
  now rewrite app_nil_r.
Qed.

Lemma dietary_lists_every_phrase_witness :
  Rec.generate_dietary_recommendations [flu_rest; cold_rest]
  = map (marked "🍽️") (phrases_of diet_recommendations [flu_rest; cold_rest])
    ++ (if length (phrases_of diet_recommendations [flu_rest; cold_rest]) <? 3
        then firstn 2 Rec.general_dietary_tips else []).
Proof.
  apply (dietary_lists_every_phrase flu_rest [cold_rest]).
  vm_compute. repeat constructor.
Defined.

(** ** The normalizer, further *)

Lemma lowered_not_upper (c : ascii) :
  Text.lower_char c = c -> Text.between 65 90 (Text.code c) = false.
Proof.
  destruct c as [[] [] [] [] [] [] [] []]; vm_compute; intros H; congruence.
Qed.

(** X14. The normalized text holds only letters, digits, underscores and
    white space, none of the letters upper-case, and no semicolon. *)
Theorem preprocess_output_alphabet (symptoms : string) (c : ascii) :
  In c (Text.chars (preprocess_symptoms symptoms)) ->
  (Text.is_word c || Text.is_space c) = true /\
  Text.between 65 90 (Text.code c) = false /\
  c <> ";"%char.
Proof.
  rewrite preprocess_normalize, chars_text. intros H.
  apply normalize_chars in H. destruct H as [Hk Hl].
  split; [exact Hk|]. split; [now apply lowered_not_upper|].
  intros ->. discriminate Hk.
Qed.

Lemma preprocess_output_alphabet_witness :
  (Text.is_word "f" || Text.is_space "f") = true /\
  Text.between 65 90 (Text.code "f") = false /\
  "f"%char <> ";"%char.
Proof.
  apply (preprocess_output_alphabet "Fever; Cough!"). left. reflexivity.
Defined.

Lemma blank_char (c : ascii) :
  Text.is_space c = true \/ c = ";"%char ->
  Text.is_space (Text.lower_char (semicolon_to_space c)) = true.
Proof.
  intros [H| ->]; [|reflexivity]. revert H.
  destruct c as [[] [] [] [] [] [] [] []]; vm_compute; congruence.
Qed.

Lemma lstrip_blank (l : list ascii) :
  Forall (fun c => Text.is_space c = true) l -> Text.lstrip l = [].
Proof.
  induction 1 as [|c r Hc Hr IH]; simpl; auto. now rewrite Hc.
Qed.

(** X15. An input made of white space and semicolons only (the empty string
    included) is normalized to the empty string. *)
Theorem preprocess_blank (symptoms : string) :
  Forall (fun c => Text.is_space c = true \/ c = ";"%char) (Text.chars symptoms) ->
  preprocess_symptoms symptoms = "".
Proof.
  intros H. rewrite preprocess_normalize. unfold normalize, Text.strip_chars.
  rewrite lstrip_blank; [reflexivity|].
  rewrite map_map, Forall_map. rewrite Forall_forall in *.
  intros c Hc. apply blank_char. now apply H.
Qed.

Lemma preprocess_blank_witness : preprocess_symptoms " ; ;  " = "".
Proof.
  apply (preprocess_blank " ; ;  ").
  repeat constructor; (left; reflexivity) || (right; reflexivity).
Defined.

Lemma lower_upper_char (c : ascii) :
  Text.lower_char (semicolon_to_space (Str.upper_char c))
  = Text.lower_char (semicolon_to_space c).
Proof. destruct c as [[] [] [] [] [] [] [] []]; reflexivity. Qed.

Lemma preprocess_upper (symptoms : string) :
  preprocess_symptoms (Str.upper symptoms) = preprocess_symptoms symptoms.
Proof.
  rewrite !preprocess_normalize. unfold normalize, Str.upper.
  rewrite chars_text, !map_map. do 3 f_equal.
  apply map_ext. intros c. apply lower_upper_char.
Qed.

(** ** The classifier arm's ranking *)

Lemma likely_lt (a : list Q) (i : nat) :
  likely_at a i = true <-> (1 # 100 < nth i a 0)%Q.
Proof. unfold likely_at. apply Qltb_lt. Qed.

Lemma ranks_before_likely (a : list Q) (i j : nat) :
  ranks_before a i j -> (1 # 100 < nth j a 0)%Q -> (1 # 100 < nth i a 0)%Q.
Proof.
  intros [H|[H _]] Hj.
  - now apply Qlt_trans with (nth j a 0%Q).
  - now rewrite H.
Qed.

(** ** Rounding and sorting by score *)

Lemma round_half_even_range (x : Q) :
  (Qfloor x <= Num.round_half_even x <= Qfloor x + 1)%Z.
Proof.
  unfold Num.round_half_even.
  destruct (Qcompare (x - inject_Z (Qfloor x)) (1 # 2)); try lia.
  destruct (Z.even (Qfloor x)); lia.
Qed.

Lemma round_half_even_mono (x y : Q) :
  (x <= y)%Q -> (Num.round_half_even x <= Num.round_half_even y)%Z.
Proof.
  intros Hxy. pose proof (Qfloor_resp_le x y Hxy) as Hf.
  pose proof (round_half_even_range x) as Hx.
  pose proof (round_half_even_range y) as Hy.
  destruct (Z.eq_dec (Qfloor x) (Qfloor y)) as [E|E]; [|lia].
  unfold Num.round_half_even. rewrite E.
  assert (Hfrac : (x - inject_Z (Qfloor y) <= y - inject_Z (Qfloor y))%Q) by lra.
  destruct (Qcompare_spec (x - inject_Z (Qfloor y)) (1 # 2)) as [H1|H1|H1];
    destruct (Qcompare_spec (y - inject_Z (Qfloor y)) (1 # 2)) as [H2|H2|H2];
    try lia; try (destruct (Z.even (Qfloor y)); lia); exfalso; lra.
Qed.

Lemma round2_mono (x y : Q) : (x <= y)%Q -> (Num.round2 x <= Num.round2 y)%Q.
Proof.
  intros H. unfold Num.round2, Qle. simpl.
  apply Z.mul_le_mono_nonneg_r; [lia|].
  apply round_half_even_mono. lra.
Qed.

Lemma insert_sorted {A : Type} (leb : A -> A -> bool) (x : A) (l : list A) :
  (forall a b, leb a b = false -> leb b a = true) ->
  (forall a b c, leb a b = true -> leb b c = true -> leb a c = true) ->
  StronglySorted (fun a b => leb a b = true) l ->
  StronglySorted (fun a b => leb a b = true) (insert leb x l).
Proof.
  intros Htot Htrans. induction l as [|y r IH]; intros Hs; simpl.
  - repeat constructor.
  - inversion Hs as [|? ? Hsr Hyr]; subst.
    destruct (leb x y) eqn:E.
    + constructor; auto. constructor; auto.
      rewrite Forall_forall in *. intros z Hz. apply Htrans with y; auto.
    + constructor; auto.
      rewrite Forall_forall in *. intros z Hz.
      apply (Permutation_in _ (insert_perm leb x r)) in Hz.
      destruct Hz as [<-|Hz]; auto.
Qed.

Lemma stable_sort_sorted {A : Type} (leb : A -> A -> bool) (l : list A) :
  (forall a b, leb a b = false -> leb b a = true) ->
  (forall a b c, leb a b = true -> leb b c = true -> leb a c = true) ->
  StronglySorted (fun a b => leb a b = true) (stable_sort leb l).
Proof.
  intros Htot Htrans. induction l as [|x r IH]; simpl; [constructor|].
  now apply insert_sorted.
Qed.

Lemma sort_by_score_sorted (d : Dict.t Combined) :
  StronglySorted (fun x y => (score (snd y) <= score (snd x))%Q) (sort_by_score d).
Proof.
  pose proof (stable_sort_sorted
                (fun x y : string * Combined =>
                   Qle_bool (score (snd y)) (score (snd x))) d) as H.
  unfold sort_by_score.
  assert (Hs : StronglySorted
                 (fun a b : string * Combined =>
                    Qle_bool (score (snd b)) (score (snd a)) = true)
                 (stable_sort
                    (fun x y : string * Combined =>
                       Qle_bool (score (snd y)) (score (snd x))) d)).
  { apply H.
    - intros a b E. apply Qle_bool_iff. apply Qlt_le_weak, Qnot_le_lt.
      intros Hle. apply Qle_bool_iff in Hle. congruence.
    - intros a b c H1 H2. apply Qle_bool_iff in H1, H2. apply Qle_bool_iff.
      now apply Qle_trans with (score (snd b)). }
  clear H. induction Hs as [|x l Hs IH Hf]; constructor; auto.
  rewrite Forall_forall in *. intros y Hy. apply Qle_bool_iff. auto.
Qed.

Lemma StronglySorted_map {A B : Type} (R : A -> A -> Prop) (S : B -> B -> Prop)
    (f : A -> B) (l : list A) :
  (forall a b, R a b -> S (f a) (f b)) ->
  StronglySorted R l -> StronglySorted S (map f l).
Proof.
  intros Hf. induction 1 as [|x l Hs IH Hall]; simpl; constructor; auto.
  rewrite Forall_forall in *. intros y Hy. apply in_map_iff in Hy.
  destruct Hy as (z & <- & Hz). auto.
Qed.

Lemma StronglySorted_firstn {A : Type} (R : A -> A -> Prop) (n : nat) (l : list A) :
  StronglySorted R l -> StronglySorted R (firstn n l).
Proof.
  intros H. rewrite <- (firstn_skipn n l) in H. now apply StronglySorted_app in H.
Qed.

(** ** The hybrid list *)

Lemma hybrid_ok_inv (self : HealthPredictor) (user_symptoms : string)
    (top_n : nat) (out : list Prediction) :
  hybrid_prediction self user_symptoms top_n = Ok out ->
  exists sims ml,
    predict_diseases_similarity self user_symptoms top_n = Ok sims /\
    predict_diseases_ml self user_symptoms top_n = Ok ml /\
    out = combine_predictions sims ml top_n.
Proof.
  unfold hybrid_prediction. intros H.
  apply bind_ok in H. destruct H as (sims & Hs & H).
  apply bind_ok in H. destruct H as (ml & Hm & H).
  injection H as <-. eauto.
Qed.

Lemma combine_predictions_names (sims ml : list Prediction) (top_n : nat) :
  map disease (combine_predictions sims ml top_n)
  = firstn top_n (Dict.keys (sort_by_score (combined_scores sims ml))).
Proof.
  unfold combine_predictions. fold (combined_scores sims ml).
  unfold Dict.keys. rewrite firstn_map, map_map.
  apply map_ext_in. intros [k c] Hin. simpl.
  apply In_firstn in Hin. unfold sort_by_score in Hin.
  apply stable_sort_In in Hin.
  destruct (combined_scores_keys sims ml) as [_ Hk].
  unfold keyed_by_disease in Hk. rewrite Forall_forall in Hk.
  symmetry. apply (Hk _ Hin).
Qed.

(** X18. What [hybrid_prediction] returns has at most [top_n] candidates, no
    disease twice, and confidences in descending order. *)
Theorem hybrid_list_shape
    (self : HealthPredictor) (user_symptoms : string) (top_n : nat)
    (out : list Prediction) :
  hybrid_prediction self user_symptoms top_n = Ok out ->
  length out <= top_n /\
  NoDup (map disease out) /\
  StronglySorted confidence_ge out.
Proof.
  intros H. apply hybrid_ok_inv in H. destruct H as (sims & ml & _ & _ & ->).
  split; [|split].
  - unfold combine_predictions. rewrite length_map. apply firstn_le_length.
  - rewrite combine_predictions_names. apply NoDup_firstn.
    destruct (combined_scores_keys sims ml) as [Hd _].
    unfold Dict.keys, sort_by_score.
    apply (Permutation_NoDup
             (Permutation_sym (Permutation_map fst (stable_sort_perm _ _)))).
    exact Hd.
  - unfold combine_predictions. fold (combined_scores sims ml).
    apply (StronglySorted_map
             (fun x y : string * Combined => (score (snd y) <= score (snd x))%Q)).
    + intros a b Hab. unfold confidence_ge. simpl. now apply round2_mono.
    + apply StronglySorted_firstn, sort_by_score_sorted.
Qed.

Lemma hybrid_list_shape_witness :
  exists out,
    hybrid_prediction sample_predictor "fever, cough, chills" 2 = Ok out /\
    length out <= 2 /\
    NoDup (map disease out) /\
    StronglySorted confidence_ge out.
Proof.
  eexists. split; [reflexivity|].
  apply (hybrid_list_shape sample_predictor "fever, cough, chills" 2).
  reflexivity.
Defined.

Lemma keys_set_In {V : Type} (k k' : string) (v : V) (d : Dict.t V) :
  In k' (Dict.keys (Dict.set k v d)) <-> k' = k \/ In k' (Dict.keys d).
Proof.
  rewrite keys_set. destruct (Dict.mem k d) eqn:E.
  - apply mem_keys in E. split; auto. intros [->|H]; auto.
  - rewrite in_app_iff. simpl. split; intros [H|H]; auto.
    destruct H as [<-|[]]; auto.
Qed.

Lemma keys_add_ml (d : Dict.t Combined) (p : Prediction) (k : string) :
  In k (Dict.keys (add_ml d p)) <-> k = disease p \/ In k (Dict.keys d).
Proof.
  unfold add_ml. destruct (Dict.mem (disease p) d) eqn:E.
  - rewrite keys_update. apply mem_keys in E. split; auto. intros [->|H]; auto.
  - apply keys_set_In.
Qed.

Lemma keys_weigh_similarity (preds : list Prediction) (d : Dict.t Combined)
    (k : string) :
  In k (Dict.keys (weigh_similarity preds d))
  <-> In k (map disease preds) \/ In k (Dict.keys d).
Proof.
  unfold weigh_similarity. revert d; induction preds as [|p r IH]; intros d; simpl.
  - tauto.
  - rewrite IH. unfold add_similarity. rewrite keys_set_In.
    split; intros H; repeat destruct H as [H|H]; auto.
Qed.

Lemma keys_weigh_ml (preds : list Prediction) (d : Dict.t Combined) (k : string) :
  In k (Dict.keys (weigh_ml preds d))
  <-> In k (map disease preds) \/ In k (Dict.keys d).
Proof.
  unfold weigh_ml. revert d; induction preds as [|p r IH]; intros d; simpl.
  - tauto.
  - rewrite IH, keys_add_ml.
    split; intros H; repeat destruct H as [H|H]; auto.
Qed.

Lemma weigh_similarity_infos (P : Prediction -> Prop) (preds : list Prediction)
    (d : Dict.t Combined) :
  Forall P preds ->
  Forall (fun kv => P (info (snd kv))) d ->
  Forall (fun kv => P (info (snd kv))) (weigh_similarity preds d).
Proof.
  unfold weigh_similarity. intros Hp. revert d; induction Hp as [|p r Hp Hr IH];
    intros d Hd; simpl; auto.
  apply IH. unfold add_similarity. rewrite Forall_forall in *.
  intros kv Hin. apply In_set in Hin. destruct Hin as [Hin| ->]; auto.
Qed.

(** Where an entry of [combined_scores] takes its fields from. *)
Lemma weigh_ml_origin (sims ml preds : list Prediction) (d : Dict.t Combined) :
  incl preds ml ->
  (forall k, In k (map disease sims) -> In k (Dict.keys d)) ->
  Forall (fun kv => In (info (snd kv)) sims \/
                    (In (info (snd kv)) ml /\
                     ~ In (disease (info (snd kv))) (map disease sims))) d ->
  Forall (fun kv => In (info (snd kv)) sims \/
                    (In (info (snd kv)) ml /\
                     ~ In (disease (info (snd kv))) (map disease sims)))
         (weigh_ml preds d).
Proof.
  unfold weigh_ml. revert d; induction preds as [|p r IH]; intros d Hi Hk Hd;
    simpl; auto.
  apply IH.
  - intros x Hx. apply Hi. now right.
  - intros k Hin. apply keys_add_ml. right. auto.
  - unfold add_ml. destruct (Dict.mem (disease p) d) eqn:E;
      rewrite Forall_forall in *; intros kv Hin.
    + apply In_update in Hin. destruct Hin as [Hin|(c & Hc & Ec)]; auto.
      rewrite Ec. simpl. apply (Hd _ Hc).
    + apply In_set in Hin. destruct Hin as [Hin| ->]; auto.
      right. simpl. split; [apply Hi; now left|].
      intros Hn. apply Hk, mem_keys in Hn. congruence.
Qed.

Lemma combine_predictions_origin (sims ml : list Prediction) (top_n : nat)
    (p : Prediction) :
  In p (combine_predictions sims ml top_n) ->
  (exists ps, In ps sims /\ p = with_confidence ps (confidence p)) \/
  (exists pm, In pm ml /\ ~ In (disease pm) (map disease sims) /\
              p = with_confidence pm (confidence p)).
Proof.
  intros Hp. unfold combine_predictions in Hp.
  apply in_map_iff in Hp. destruct Hp as ([k c] & <- & Hin).
  apply In_firstn in Hin. unfold sort_by_score in Hin.
  apply stable_sort_In in Hin.
  assert (Ho : Forall (fun kv : string * Combined =>
                         In (info (snd kv)) sims \/
                         (In (info (snd kv)) ml /\
                          ~ In (disease (info (snd kv))) (map disease sims)))
                      (weigh_ml ml (weigh_similarity sims []))).
  { apply weigh_ml_origin.
    - intros x Hx; exact Hx.
    - intros k' Hk'. apply keys_weigh_similarity. now left.
    - apply (weigh_similarity_infos
               (fun x => In x sims \/
                         (In x ml /\ ~ In (disease x) (map disease sims)))).
      + apply Forall_forall. auto.
      + constructor. }
  rewrite Forall_forall in Ho. specialize (Ho _ Hin). simpl in Ho.
  destruct Ho as [Ho|[Ho Hn]]; [left | right]; exists (info c); auto.
Qed.

(** X19. Every candidate [hybrid_prediction] returns is a candidate of one
    of the two arms with its confidence replaced: of the similarity arm, or
    of the classifier arm for a disease the similarity arm did not name (the
    similarity arm's fields are the ones kept when both name it). *)
Theorem hybrid_candidate_origin
    (self : HealthPredictor) (user_symptoms : string) (top_n : nat)
    (sims ml : list Prediction) :
  predict_diseases_similarity self user_symptoms top_n = Ok sims ->
  predict_diseases_ml self user_symptoms top_n = Ok ml ->
  exists out,
    hybrid_prediction self user_symptoms top_n = Ok out /\
    forall p, In p out ->
      (exists ps, In ps sims /\ p = with_confidence ps (confidence p)) \/
      (exists pm, In pm ml /\ ~ In (disease pm) (map disease sims) /\
                  p = with_confidence pm (confidence p)).
Proof.
  intros Hs Hm. exists (combine_predictions sims ml top_n). split.
  - unfold hybrid_prediction. now rewrite Hs, bind_Ok, Hm, bind_Ok.
  - intros p Hp. now apply combine_predictions_origin with top_n.
Qed.

Lemma hybrid_candidate_origin_witness :
  exists out,
    hybrid_prediction sample_predictor "fever, cough, chills" 3 = Ok out /\
    forall p, In p out ->
      (exists ps, In ps sample_similarity_predictions /\
                  p = with_confidence ps (confidence p)) \/
      (exists pm, In pm sample_ml_predictions /\
                  ~ In (disease pm) (map disease sample_similarity_predictions) /\
                  p = with_confidence pm (confidence p)).
Proof.
  apply (hybrid_candidate_origin sample_predictor "fever, cough, chills" 3
           sample_similarity_predictions sample_ml_predictions); reflexivity.
Defined.

(** X20. A disease that one of the arms proposes is missing from the hybrid
    list only when the list is full, with [top_n] candidates. *)
Theorem hybrid_drops_only_when_full
    (self : HealthPredictor) (user_symptoms : string) (top_n : nat)
    (sims ml : list Prediction) :
  predict_diseases_similarity self user_symptoms top_n = Ok sims ->
  predict_diseases_ml self user_symptoms top_n = Ok ml ->
  exists out,
    hybrid_prediction self user_symptoms top_n = Ok out /\
    forall q, In q (sims ++ ml) ->
      ~ In (disease q) (map disease out) -> length out = top_n.
Proof.
  intros Hs Hm. exists (combine_predictions sims ml top_n). split.
  { unfold hybrid_prediction. now rewrite Hs, bind_Ok, Hm, bind_Ok. }
  intros q Hq Hout. rewrite combine_predictions_names in Hout.
  assert (Hkey : In (disease q) (Dict.keys (sort_by_score (combined_scores sims ml)))).
  { unfold Dict.keys, sort_by_score.
    apply (Permutation_in _
             (Permutation_sym (Permutation_map fst (stable_sort_perm _ _)))).
    apply keys_weigh_ml. apply in_app_or in Hq. destruct Hq as [Hq|Hq].
    - right. apply keys_weigh_similarity. left. now apply in_map.
    - left. now apply in_map. }
  unfold combine_predictions. fold (combined_scores sims ml).
  rewrite length_map.
  rewrite <- (firstn_skipn top_n (Dict.keys (sort_by_score (combined_scores sims ml))))
    in Hkey.
  apply in_app_or in Hkey. destruct Hkey as [Hkey|Hkey]; [contradiction|].
  apply firstn_length_le.
  destruct (Nat.le_gt_cases top_n (length (sort_by_score (combined_scores sims ml))))
    as [|Hlt]; auto.
  rewrite skipn_all2 in Hkey; [contradiction|].
  unfold Dict.keys. rewrite length_map. lia.
Qed.

Lemma hybrid_drops_only_when_full_witness :
  exists out,
    hybrid_prediction sample_predictor "fever, cough, chills" 3 = Ok out /\
    forall q, In q (sample_similarity_predictions ++ sample_ml_predictions) ->
      ~ In (disease q) (map disease out) -> length out = 3.
Proof.
  apply (hybrid_drops_only_when_full sample_predictor "fever, cough, chills" 3
           sample_similarity_predictions sample_ml_predictions); reflexivity.
Defined.

(** ** Confidence bounds *)

Lemma round2_bounds (y : Q) :
  (0 <= y <= 100)%Q -> (0 <= Num.round2 y <= 100)%Q.
Proof.
  intros [H0 H1].
  pose proof (round2_mono 0 y H0) as Hl.
  pose proof (round2_mono y 100 H1) as Hh.
  change (Num.round2 0) with (0 # 100)%Q in Hl.
  change (Num.round2 100) with (10000 # 100)%Q in Hh.
  split.
  - apply Qle_trans with (0 # 100)%Q; auto. unfold Qle; simpl; lia.
  - apply Qle_trans with (10000 # 100)%Q; auto. unfold Qle; simpl; lia.
Qed.

Lemma nth_in_unit (a : list Q) (i : nat) :
  Forall in_unit a -> in_unit (nth i a 0%Q).
Proof.
  intros H. revert i; induction H as [|x r Hx Hr IH]; intros [|i]; simpl; auto;
    unfold in_unit; lra.
Qed.

Lemma percent_bounds (x : Q) :
  in_unit x -> (0 <= Num.round2 (x * 100) <= 100)%Q.
Proof. unfold in_unit. intros H. apply round2_bounds. lra. Qed.

(** The two arms of a fitted predictor, as lists of row and class indices. *)
Lemma fitted_arms_indices (self : HealthPredictor) (user_symptoms : string)
    (top_n : nat) :
  fitted self ->
  exists rs js,
    predict_diseases_similarity self user_symptoms top_n
    = Ok (map (similarity_candidate self
                 (calculate_similarity_scores self user_symptoms)) rs) /\
    predict_diseases_ml self user_symptoms top_n
    = Ok (map (ml_candidate self
                 (predict_proba self (preprocess_symptoms user_symptoms))) js) /\
    NoDup rs /\ NoDup js /\
    Forall (fun i => i < length (df self)) rs /\
    Forall (fun j => j < length (classes_ self)) js.
Proof.
  intros [Hn Hc Hl Hs Hp].
  set (a := calculate_similarity_scores self user_symptoms).
  set (b := predict_proba self (preprocess_symptoms user_symptoms)).
  assert (Ha : Forall (fun i => i < length (df self)) (top_indices a top_n)).
  { rewrite Forall_forall. intros i Hi. apply top_indices_range in Hi.
    unfold a, calculate_similarity_scores in Hi. now rewrite Hs in Hi. }
  assert (Hb : Forall (fun i => i < length (classes_ self)) (top_indices b top_n)).
  { rewrite Forall_forall. intros i Hi. apply top_indices_range in Hi.
    unfold b in Hi. now rewrite Hp in Hi. }
  exists (filter (positive_at a) (top_indices a top_n)),
         (filter (likely_at b) (top_indices b top_n)).
  repeat split.
  - unfold predict_diseases_similarity. fold a. now apply similarity_loop_ok.
  - unfold predict_diseases_ml. fold b. now apply ml_loop_eq.
  - apply NoDup_filter, top_indices_NoDup.
  - apply NoDup_filter, top_indices_NoDup.
  - rewrite Forall_forall in *. intros i Hi. apply filter_In in Hi. apply Ha, Hi.
  - rewrite Forall_forall in *. intros i Hi. apply filter_In in Hi. apply Hb, Hi.
Qed.

(** X21. On a fitted predictor whose cosine scores and class probabilities
    lie between 0 and 1, [hybrid_prediction] returns, and every confidence it
    reports lies between 0 and 100. *)
Theorem hybrid_confidence_in_range
    (self : HealthPredictor) (user_symptoms : string) (top_n : nat) :
  fitted self ->
  Forall in_unit (calculate_similarity_scores self user_symptoms) ->
  Forall in_unit (predict_proba self (preprocess_symptoms user_symptoms)) ->
  exists out,
    hybrid_prediction self user_symptoms top_n = Ok out /\
    forall p, In p out -> (0 <= confidence p <= 100)%Q.
Proof.
  intros Hf Ha Hb.
  destruct (fitted_arms_indices self user_symptoms top_n Hf)
    as (rs & js & Hs & Hm & Hdi & Hdj & Hri & Hrj).
  set (a := calculate_similarity_scores self user_symptoms) in *.
  set (b := predict_proba self (preprocess_symptoms user_symptoms)) in *.
  set (sims := map (similarity_candidate self a) rs) in *.
  set (ml := map (ml_candidate self b) js) in *.
  assert (Hds : NoDup (map disease sims))
    by (apply similarity_names_NoDup; auto; apply (fitted_names Hf)).
  assert (Hdm : NoDup (map disease ml))
    by (apply ml_names_NoDup; auto; apply (fitted_classes Hf)).
  assert (Hcs : forall ps, In ps sims -> (0 <= confidence ps <= 100)%Q).
  { intros ps Hps. apply in_map_iff in Hps. destruct Hps as (i & <- & _).
    apply percent_bounds, nth_in_unit, Ha. }
  assert (Hcm : forall pm, In pm ml -> (0 <= confidence pm <= 100)%Q).
  { intros pm Hpm. apply in_map_iff in Hpm. destruct Hpm as (j & <- & _).
    apply percent_bounds, nth_in_unit, Hb. }
  exists (combine_predictions sims ml top_n). split.
  { unfold hybrid_prediction. now rewrite Hs, bind_Ok, Hm, bind_Ok. }
  intros p Hp. apply combine_predictions_In in Hp.
  destruct Hp as (c & Hget & ->). simpl.
  unfold combined_scores in Hget.
  rewrite (get_weigh_ml ml _ (disease (info c)) Hdm) in Hget.
  rewrite (get_weigh_similarity sims [] (disease (info c)) Hds) in Hget.
  apply round2_bounds.
  destruct (find (named (disease (info c))) ml) as [pm|] eqn:Em;
    destruct (find (named (disease (info c))) sims) as [ps|] eqn:Es;
    try discriminate Hget; injection Hget as <-; simpl;
    try (apply find_some in Em; destruct Em as [Em _]; apply Hcm in Em);
    try (apply find_some in Es; destruct Es as [Es _]; apply Hcs in Es);
    lra.
Qed.

Lemma hybrid_confidence_in_range_witness :
  exists out,
    hybrid_prediction sample_predictor "fever, cough, chills" 3 = Ok out /\
    forall p, In p out -> (0 <= confidence p <= 100)%Q.
Proof.
  apply (hybrid_confidence_in_range sample_predictor "fever, cough, chills" 3).
  - exact sample_predictor_fitted.
  - repeat constructor; simpl; unfold Qle; simpl; lia.
  - repeat constructor; simpl; unfold Qle; simpl; lia.
Defined.

Lemma similarity_candidate_row (self : HealthPredictor) (a : list Q) (i : nat) :
  i < length (df self) ->
  exists r, In r (df self) /\ severity (similarity_candidate self a i) = Severity r.
Proof.
  intros Hi. exists (row_at self i). split; [|reflexivity].
  unfold row_at. now apply nth_In.
Qed.

Lemma ml_candidate_row (self : HealthPredictor) (b : list Q) (j : nat) :
  incl (classes_ self) (map Disease (df self)) ->
  j < length (classes_ self) ->
  exists r, In r (df self) /\ severity (ml_candidate self b j) = Severity r.
Proof.
  intros Hincl Hj.
  assert (Hin : In (class_at self j) (classes_ self))
    by (unfold class_at; now apply nth_In).
  destruct (rows_named_first self _ (Hincl _ Hin)) as (i & r & Hr & Hfirst & _).
  exists r. split; [eapply nth_error_In; eauto|].
  unfold ml_candidate, prediction_of. cbn [severity]. f_equal.
  unfold iloc in Hr.
  destruct (rows_named self (class_at self j)) as [|x xs]; simpl in *; congruence.
Qed.

(** ** When the classifier arm raises *)

Lemma rows_named_none (self : HealthPredictor) (name : string) :
  ~ In name (map Disease (df self)) -> rows_named self name = [].
Proof.
  unfold rows_named. induction (df self) as [|r rest IH]; simpl; auto.
  intros Hn. destruct (String.eqb_spec (Disease r) name) as [E|E].
  - exfalso. apply Hn. now left.
  - apply IH. intros H. apply Hn. now right.
Qed.

Lemma ml_loop_raises_iff (self : HealthPredictor) (probabilities : list Q)
    (idxs : list nat) (e : exn) :
  Forall (fun i => i < length (classes_ self)) idxs ->
  ml_loop self probabilities idxs = Raise e <->
  e = IndexError /\
  exists j, In j idxs /\ likely_at probabilities j = true /\
            ~ In (class_at self j) (map Disease (df self)).
Proof.
  induction 1 as [|idx rest Hidx Hrest IH]; simpl.
  - split; [discriminate|]. intros (_ & j & [] & _).
  - assert (Hname : nth_error (classes_ self) idx = Some (class_at self idx))
      by (now apply nth_error_nth').
    fold (likely_at probabilities idx).
    destruct (likely_at probabilities idx) eqn:El.
    + unfold inverse_transform. rewrite Hname, bind_Ok.
      destruct (in_dec String.string_dec (class_at self idx)
                  (map Disease (df self))) as [Hin|Hout].
      * destruct (rows_named_first self _ Hin) as (i & r & Hr & _).
        rewrite Hr, bind_Ok.
        destruct (ml_loop self probabilities rest) as [preds|e'] eqn:Er.
        -- rewrite bind_Ok. split; [discriminate|].
           intros (He & j & [<-|Hj] & Hl & Hn); [contradiction|].
           assert (H' : Ok preds = Raise e :> result (list Prediction));
             [|discriminate H'].
           apply IH. split; auto. exists j. auto.
        -- simpl. split.
           ++ intros H. destruct (proj1 IH H) as (He & j & Hj & Hl & Hn).
              split; auto. exists j. auto.
           ++ intros (He & j & [<-|Hj] & Hl & Hn); [contradiction|].
              apply IH. split; auto. exists j. auto.
      * rewrite (rows_named_none self _ Hout). simpl. split.
        -- intros H. injection H as <-. split; auto. exists idx. auto.
        -- now intros (-> & _).
    + rewrite IH. split; intros (He & j & Hj & Hl & Hn); split; auto.
      * exists j. auto.
      * destruct Hj as [<-|Hj]; [congruence|]. exists j. auto.
Qed.

(** X23. With at most one probability per class, the classifier arm raises
    exactly when one of the selected classes with probability above 0.01 is
    not the [Disease] of any catalog row, and what it raises is the
    [IndexError] of [.iloc[0]] on the empty selection. *)
Theorem classifier_arm_raises_iff
    (self : HealthPredictor) (user_symptoms : string) (top_n : nat) (e : exn) :
  length (predict_proba self (preprocess_symptoms user_symptoms))
  <= length (classes_ self) ->
  predict_diseases_ml self user_symptoms top_n = Raise e <->
  e = IndexError /\
  exists j,
    In j (top_indices (predict_proba self (preprocess_symptoms user_symptoms))
            top_n) /\
    (1 # 100 < nth j (predict_proba self (preprocess_symptoms user_symptoms)) 0)%Q /\
    ~ In (class_at self j) (map Disease (df self)).
Proof.
  intros Hlen. unfold predict_diseases_ml.
  rewrite ml_loop_raises_iff.
  - split; intros (He & j & Hj & Hl & Hn); split; auto; exists j;
      repeat split; auto; now apply likely_lt.
  - rewrite Forall_forall. intros i Hi. apply top_indices_range in Hi. lia.
Qed.

Lemma classifier_arm_raises_iff_witness :
  predict_diseases_ml stale_predictor "fever" 3 = Raise IndexError.
Proof.
  apply (classifier_arm_raises_iff stale_predictor "fever" 3 IndexError).
  - simpl. lia.
  - split; [reflexivity|]. exists 0. split; [|split].
    + vm_compute. auto.
    + vm_compute. reflexivity.
    + vm_compute. intuition discriminate.
Defined.

(** * The ranking for any [np.argsort], and the statements built on it *)

Lemma ranks_before_descending (a : list Q) (i j : nat) :
  ranks_before a i j -> descending a i j.
Proof.
  unfold descending. intros [H|[H _]]; [now apply Qlt_le_weak|].
  rewrite H. apply Qle_refl.
Qed.

(** The stable sort the examples run on is one such sort. *)
Lemma argsort_sorts : sorts argsort.
Proof.
  intros a. split.
  - rewrite (Permutation_rev (argsort a)). apply ranking_perm.
  - pose proof (indices_of_sorted_pairs a _ (sorted_pairs_sorted a 0)
                  (sorted_pairs_values a)) as H.
    fold (argsort a) in H.
    induction H as [|i l Hs IH Hf]; constructor; auto.
    rewrite Forall_forall in *. intros j Hj.
    apply (ranks_before_descending a j i). auto.
Qed.

Lemma predict_diseases_similarity_by_argsort
    (self : HealthPredictor) (user_symptoms : string) (top_n : nat) :
  predict_diseases_similarity_by argsort self user_symptoms top_n
  = predict_diseases_similarity self user_symptoms top_n.
Proof. reflexivity. Qed.

Lemma predict_diseases_ml_by_argsort
    (self : HealthPredictor) (user_symptoms : string) (top_n : nat) :
  predict_diseases_ml_by argsort self user_symptoms top_n
  = predict_diseases_ml self user_symptoms top_n.
Proof. reflexivity. Qed.

Section AnySort.

Variable sort : list Q -> list nat.
Hypothesis sort_ok : sorts sort.

Lemma ranking_by_perm (a : list Q) :
  Permutation (rev (sort a)) (seq 0 (length a)).
Proof. rewrite <- Permutation_rev. apply sort_ok. Qed.

Lemma ranking_by_sorted (a : list Q) :
  StronglySorted (descending a) (rev (sort a)).
Proof.
  apply (StronglySorted_rev (ascending a)). apply sort_ok.
Qed.

Lemma top_by_range (a : list Q) (n i : nat) :
  In i (top_indices_by sort a n) -> i < length a.
Proof.
  unfold top_indices_by. intros H. apply In_firstn in H.
  apply (Permutation_in _ (ranking_by_perm a)), in_seq in H. lia.
Qed.

Lemma top_by_NoDup (a : list Q) (n : nat) : NoDup (top_indices_by sort a n).
Proof.
  unfold top_indices_by. apply NoDup_firstn.
  apply (Permutation_NoDup (Permutation_sym (ranking_by_perm a))), seq_NoDup.
Qed.

Lemma top_by_sorted (a : list Q) (n : nat) :
  StronglySorted (descending a) (top_indices_by sort a n).
Proof.
  unfold top_indices_by. apply StronglySorted_firstn, ranking_by_sorted.
Qed.

Lemma top_by_complete (a : list Q) (n j : nat) :
  j < length a -> ~ In j (top_indices_by sort a n) ->
  length (top_indices_by sort a n) = n /\
  forall i, In i (top_indices_by sort a n) -> descending a i j.
Proof.
  unfold top_indices_by. intros Hj Hn.
  assert (Hin : In j (rev (sort a))).
  { apply (Permutation_in _ (Permutation_sym (ranking_by_perm a))), in_seq. lia. }
  pose proof (ranking_by_sorted a) as Hs.
  rewrite <- (firstn_skipn n (rev (sort a))) in Hin, Hs.
  apply in_app_or in Hin. destruct Hin as [Hin|Hin]; [contradiction|].
  apply StronglySorted_app in Hs. destruct Hs as (_ & _ & Hs).
  split; [|intros i Hi; now apply Hs].
  apply firstn_length_le.
  destruct (Nat.le_gt_cases n (length (rev (sort a)))) as [|Hlt]; auto.
  rewrite skipn_all2 in Hin by lia. contradiction.
Qed.

(** The indices that survive a threshold, out of the first [n]: a prefix of
    the ranking, complete unless [n] are taken. *)
Lemma top_by_above (a : list Q) (n : nat) (t : Q) :
  let kept := filter (fun i => Num.Qltb t (nth i a 0%Q)) (top_indices_by sort a n) in
  length kept <= n /\ NoDup kept /\
  Forall (fun i => i < length a /\ (t < nth i a 0)%Q) kept /\
  StronglySorted (descending a) kept /\
  forall j, j < length a -> (t < nth j a 0)%Q -> ~ In j kept ->
            length kept = n /\ Forall (fun i => descending a i j) kept.
Proof.
  intros kept. unfold kept. split; [|split; [|split; [|split]]].
  - etransitivity; [apply filter_length_le|].
    unfold top_indices_by. apply firstn_le_length.
  - apply NoDup_filter, top_by_NoDup.
  - rewrite Forall_forall. intros i Hi. apply filter_In in Hi.
    destruct Hi as [Hi Hp]. split; [now apply top_by_range with n|].
    now apply Qltb_lt.
  - apply StronglySorted_filter, top_by_sorted.
  - intros j Hj Hlik Hout.
    assert (Hnot : ~ In j (top_indices_by sort a n)).
    { intros Hin. apply Hout, filter_In. split; auto. now apply Qltb_lt. }
    destruct (top_by_complete a n j Hj Hnot) as [Hn Hall].
    rewrite filter_all.
    + split; auto. rewrite Forall_forall. auto.
    + intros i Hi. apply Qltb_lt. specialize (Hall i Hi). unfold descending in Hall.
      now apply Qlt_le_trans with (nth j a 0%Q).
Qed.

End AnySort.

Lemma similarity_candidate_of_row (self : HealthPredictor) (a : list Q) (i : nat) :
  i < length (df self) -> row_candidate self i (similarity_candidate self a i).
Proof.
  intros Hi. exists (row_at self i). split; [|split; [reflexivity|]].
  - unfold row_at. now apply nth_error_nth'.
  - repeat split.
Qed.

Lemma Forall2_map_r {A B : Type} (R : A -> B -> Prop) (f : A -> B) (l : list A) :
  Forall (fun x => R x (f x)) l -> Forall2 R l (map f l).
Proof. induction 1; simpl; constructor; auto. Qed.

(** C5 as amended.  Whatever order [np.argsort] gives to equal values, the
    similarity scorer returns one candidate per catalog row for the [top_n]
    best rows whose similarity is above 0: at most [top_n] candidates, of
    distinct rows, each carrying its row's name and fields, in descending
    order of similarity; a row with positive similarity that is left out has
    a similarity no larger than any returned row's, and then [top_n] are
    returned.  No order among rows of equal similarity is promised. *)
Theorem similarity_top_n_descending
    (sort : list Q -> list nat)
    (self : HealthPredictor) (user_symptoms : string) (top_n : nat) :
  sorts sort ->
  length (calculate_similarity_scores self user_symptoms) = length (df self) ->
  exists idxs out,
    predict_diseases_similarity_by sort self user_symptoms top_n = Ok out /\
    Forall2 (row_candidate self) idxs out /\
    length idxs <= top_n /\
    NoDup idxs /\
    Forall (fun i => i < length (df self) /\
                     (0 < nth i (calculate_similarity_scores self user_symptoms) 0)%Q)
           idxs /\
    StronglySorted
      (descending (calculate_similarity_scores self user_symptoms)) idxs /\
    forall j,
      j < length (df self) ->
      (0 < nth j (calculate_similarity_scores self user_symptoms) 0)%Q ->
      ~ In j idxs ->
      length idxs = top_n /\
      Forall (fun i =>
                descending (calculate_similarity_scores self user_symptoms) i j)
             idxs.
Proof.
  set (a := calculate_similarity_scores self user_symptoms). intros Hsort Hlen.
  destruct (top_by_above sort Hsort a top_n 0) as (H1 & H2 & H3 & H4 & H5).
  set (idxs := filter (fun i => Num.Qltb 0 (nth i a 0%Q))
                      (top_indices_by sort a top_n)) in *.
  assert (Hrange : Forall (fun i => i < length (df self))
                          (top_indices_by sort a top_n)).
  { rewrite Forall_forall. intros i Hi. rewrite <- Hlen.
    exact (top_by_range sort Hsort a top_n i Hi). }
  exists idxs, (map (similarity_candidate self a) idxs).
  split; [|split; [|split; [|split; [|split; [|split]]]]]; auto.
  - unfold predict_diseases_similarity_by. fold a.
    now apply similarity_loop_ok.
  - apply Forall2_map_r. rewrite Forall_forall in *. intros i Hi.
    apply similarity_candidate_of_row. rewrite <- Hlen. now apply (H3 i).
  - rewrite <- Hlen. exact H3.
  - rewrite <- Hlen. exact H5.
Qed.

Lemma similarity_top_n_descending_witness :
  exists idxs out,
    predict_diseases_similarity_by argsort tied_predictor "fever, cough" 2
    = Ok out /\
    Forall2 (row_candidate tied_predictor) idxs out /\
    length idxs <= 2 /\
    NoDup idxs /\
    Forall (fun i => i < length (df tied_predictor) /\
                     (0 < nth i (calculate_similarity_scores tied_predictor
                                   "fever, cough") 0)%Q)
           idxs /\
    StronglySorted
      (descending (calculate_similarity_scores tied_predictor "fever, cough"))
      idxs /\
    forall j,
      j < length (df tied_predictor) ->
      (0 < nth j (calculate_similarity_scores tied_predictor "fever, cough") 0)%Q ->
      ~ In j idxs ->
      length idxs = 2 /\
      Forall (fun i =>
                descending
                  (calculate_similarity_scores tied_predictor "fever, cough") i j)
             idxs.
Proof.
  apply (similarity_top_n_descending argsort tied_predictor "fever, cough" 2).
  - exact argsort_sorts.
  - reflexivity.
Defined.

Lemma hybrid_prediction_by_argsort
    (self : HealthPredictor) (user_symptoms : string) (top_n : nat) :
  hybrid_prediction_by argsort self user_symptoms top_n
  = hybrid_prediction self user_symptoms top_n.
Proof. reflexivity. Qed.

(** ** The classifier arm *)

Lemma ml_candidate_class (self : HealthPredictor) (b : list Q) (j : nat) :
  incl (classes_ self) (map Disease (df self)) ->
  j < length (classes_ self) ->
  class_candidate self j (ml_candidate self b j).
Proof.
  intros Hincl Hj.
  assert (Hn : nth_error (classes_ self) j = Some (class_at self j))
    by (unfold class_at; now apply nth_error_nth').
  split; [exact Hn|].
  assert (Hin : In (class_at self j) (classes_ self))
    by (unfold class_at; now apply nth_In).
  destruct (rows_named_first self _ (Hincl _ Hin)) as (i & r & Hr & Hfirst).
  exists i, r. split; [exact Hfirst|].
  unfold iloc in Hr. unfold ml_candidate.
  destruct (rows_named self (class_at self j)) as [|x xs]; simpl in Hr;
    [discriminate|].
  injection Hr as ->. repeat split.
Qed.

Lemma classifier_arm_by (sort : list Q -> list nat)
    (self : HealthPredictor) (user_symptoms : string) (top_n : nat) :
  sorts sort ->
  incl (classes_ self) (map Disease (df self)) ->
  length (predict_proba self (preprocess_symptoms user_symptoms))
  <= length (classes_ self) ->
  predict_diseases_ml_by sort self user_symptoms top_n
  = Ok (map (ml_candidate self (predict_proba self (preprocess_symptoms user_symptoms)))
          (filter (likely_at (predict_proba self (preprocess_symptoms user_symptoms)))
             (top_indices_by sort
                (predict_proba self (preprocess_symptoms user_symptoms)) top_n))).
Proof.
  intros Hsort Hincl Hlen. unfold predict_diseases_ml_by.
  apply ml_loop_eq; auto.
  rewrite Forall_forall. intros i Hi.
  apply (top_by_range sort Hsort) in Hi. lia.
Qed.

(** C10.  The classifier arm takes a label's fields from the first catalog
    row of that name.  When every encoder class names a catalog row and there
    is at most one probability per class, the arm returns; each candidate it
    returns is named by an encoder class and carries the severity,
    precautions, diet recommendations, description and symptoms of the first
    row whose Disease is that name; and a class whose probability is above
    0.01 has such a candidate in the list, unless [top_n] candidates are
    returned.  This holds whatever order [np.argsort] gives equal
    probabilities. *)
Theorem ml_candidates_carry_first_row
    (sort : list Q -> list nat)
    (self : HealthPredictor) (user_symptoms : string) (top_n : nat) :
  sorts sort ->
  incl (classes_ self) (map Disease (df self)) ->
  length (predict_proba self (preprocess_symptoms user_symptoms))
  <= length (classes_ self) ->
  exists preds,
    predict_diseases_ml_by sort self user_symptoms top_n = Ok preds /\
    Forall (fun p => In (disease p) (classes_ self) /\
                     exists i r, first_row_named self (disease p) i r /\
                                 carries_fields_of p r) preds /\
    forall j,
      j < length (predict_proba self (preprocess_symptoms user_symptoms)) ->
      (1 # 100 < nth j (predict_proba self (preprocess_symptoms user_symptoms)) 0)%Q ->
      (exists p i r,
          In p preds /\ nth_error (classes_ self) j = Some (disease p) /\
          first_row_named self (disease p) i r /\ carries_fields_of p r) \/
      length preds = top_n.
Proof.
  intros Hsort Hincl Hlen.
  set (b := predict_proba self (preprocess_symptoms user_symptoms)) in *.
  destruct (top_by_above sort Hsort b top_n (1 # 100)) as (H1 & H2 & H3 & H4 & H5).
  fold (likely_at b) in H1, H2, H3, H4, H5.
  set (kept := filter (likely_at b) (top_indices_by sort b top_n)) in *.
  exists (map (ml_candidate self b) kept). split; [|split].
  - now apply classifier_arm_by.
  - rewrite Forall_forall in *. intros p Hp. apply in_map_iff in Hp.
    destruct Hp as (i & <- & Hi). destruct (H3 i Hi) as [Hr _].
    destruct (ml_candidate_class self b i Hincl) as [Hn Hrow]; [lia|].
    split; [|exact Hrow]. eapply nth_error_In; eauto.
  - intros j Hj Hp.
    destruct (in_dec Nat.eq_dec j kept) as [Hin|Hout].
    + left. destruct (ml_candidate_class self b j Hincl) as [Hn (i & r & Hrow)];
        [lia|].
      exists (ml_candidate self b j), i, r. split; [now apply in_map|].
      split; [exact Hn|exact Hrow].
    + right. rewrite length_map. now apply (H5 j Hj Hp Hout).
Qed.

Lemma ml_candidates_carry_first_row_witness :
  exists preds,
    predict_diseases_ml_by argsort duplicate_predictor "fever" 3 = Ok preds /\
    Forall (fun p => In (disease p) (classes_ duplicate_predictor) /\
                     exists i r, first_row_named duplicate_predictor (disease p) i r /\
                                 carries_fields_of p r) preds /\
    forall j,
      j < length (predict_proba duplicate_predictor (preprocess_symptoms "fever")) ->
      (1 # 100 < nth j (predict_proba duplicate_predictor
                          (preprocess_symptoms "fever")) 0)%Q ->
      (exists p i r,
          In p preds /\
          nth_error (classes_ duplicate_predictor) j = Some (disease p) /\
          first_row_named duplicate_predictor (disease p) i r /\
          carries_fields_of p r) \/
      length preds = 3.
Proof.
  apply (ml_candidates_carry_first_row argsort duplicate_predictor "fever" 3).
  - exact argsort_sorts.
  - intros name [<- | [<- | []]]; simpl; auto.
  - simpl. lia.
Defined.

(** X17. Whatever order [np.argsort] gives equal probabilities, the
    classifier arm (when every encoder class names a catalog row and there is
    at most one probability per class) returns one candidate per class for
    the [top_n] most probable classes whose probability is above 0.01: at
    most [top_n] candidates, of distinct classes, each named by its class and
    carrying the fields of the first catalog row of that name, in descending
    order of probability; a class above 0.01 that is left out has a
    probability no larger than any returned class's, and then [top_n] are
    returned.  No order among classes of equal probability is promised. *)
Theorem classifier_top_n_descending
    (sort : list Q -> list nat)
    (self : HealthPredictor) (user_symptoms : string) (top_n : nat) :
  sorts sort ->
  incl (classes_ self) (map Disease (df self)) ->
  length (predict_proba self (preprocess_symptoms user_symptoms))
  <= length (classes_ self) ->
  exists idxs out,
    predict_diseases_ml_by sort self user_symptoms top_n = Ok out /\
    Forall2 (class_candidate self) idxs out /\
    length idxs <= top_n /\
    NoDup idxs /\
    Forall (fun j =>
              j < length (predict_proba self (preprocess_symptoms user_symptoms)) /\
              (1 # 100 < nth j (predict_proba self
                                  (preprocess_symptoms user_symptoms)) 0)%Q)
           idxs /\
    StronglySorted
      (descending (predict_proba self (preprocess_symptoms user_symptoms))) idxs /\
    forall j,
      j < length (predict_proba self (preprocess_symptoms user_symptoms)) ->
      (1 # 100 < nth j (predict_proba self (preprocess_symptoms user_symptoms)) 0)%Q ->
      ~ In j idxs ->
      length idxs = top_n /\
      Forall (fun i =>
                descending (predict_proba self (preprocess_symptoms user_symptoms))
                           i j)
             idxs.
Proof.
  intros Hsort Hincl Hlen.
  set (b := predict_proba self (preprocess_symptoms user_symptoms)) in *.
  destruct (top_by_above sort Hsort b top_n (1 # 100)) as (H1 & H2 & H3 & H4 & H5).
  fold (likely_at b) in H1, H2, H3, H4, H5.
  set (kept := filter (likely_at b) (top_indices_by sort b top_n)) in *.
  exists kept, (map (ml_candidate self b) kept).
  split; [|split; [|split; [|split; [|split; [|split]]]]]; auto.
  - now apply classifier_arm_by.
  - apply Forall2_map_r. rewrite Forall_forall in *. intros i Hi.
    apply ml_candidate_class; auto. destruct (H3 i Hi) as [Hr _]. lia.
Qed.

Lemma classifier_top_n_descending_witness :
  exists idxs out,
    predict_diseases_ml_by argsort sample_predictor "fever, cough, chills" 2
    = Ok out /\
    Forall2 (class_candidate sample_predictor) idxs out /\
    length idxs <= 2 /\
    NoDup idxs /\
    Forall (fun j =>
              j < length (predict_proba sample_predictor
                            (preprocess_symptoms "fever, cough, chills")) /\
              (1 # 100 < nth j (predict_proba sample_predictor
                                  (preprocess_symptoms "fever, cough, chills")) 0)%Q)
           idxs /\
    StronglySorted
      (descending (predict_proba sample_predictor
                     (preprocess_symptoms "fever, cough, chills"))) idxs /\
    forall j,
      j < length (predict_proba sample_predictor
                    (preprocess_symptoms "fever, cough, chills")) ->
      (1 # 100 < nth j (predict_proba sample_predictor
                          (preprocess_symptoms "fever, cough, chills")) 0)%Q ->
      ~ In j idxs ->
      length idxs = 2 /\
      Forall (fun i =>
                descending (predict_proba sample_predictor
                              (preprocess_symptoms "fever, cough, chills")) i j)
             idxs.
Proof.
  apply (classifier_top_n_descending argsort sample_predictor
           "fever, cough, chills" 2).
  - exact argsort_sorts.
  - intros name [<- | [<- | [<- | []]]]; simpl; auto.
  - simpl. lia.
Defined.

(** ** The merge *)




(** ** No overlap: the classifier arm alone *)

Lemma ml_loop_inv (self : HealthPredictor) (b : list Q) (idxs : list nat)
    (preds : list Prediction) :
  ml_loop self b idxs = Ok preds ->
  preds = map (ml_candidate self b) (filter (likely_at b) idxs) /\
  Forall (fun i => i < length (classes_ self)) (filter (likely_at b) idxs).
Proof.
  revert preds. induction idxs as [|idx rest IH]; intros preds H; simpl in H.
  - injection H as <-. split; constructor.
  - simpl.
    change (Num.Qltb (1 # 100) (nth idx b 0%Q)) with (likely_at b idx) in H.
    destruct (likely_at b idx); [|now apply IH].
    apply bind_ok in H. destruct H as (name & Hname & H).
    apply bind_ok in H. destruct H as (r & Hr & H).
    apply bind_ok in H. destruct H as (tl & Htl & H).
    injection H as <-. destruct (IH tl Htl) as [-> Hrange].
    unfold inverse_transform in Hname.
    destruct (nth_error (classes_ self) idx) as [n|] eqn:En; [|discriminate].
    injection Hname as ->.
    assert (Hidx : idx < length (classes_ self))
      by (apply nth_error_Some; congruence).
    assert (Hc : class_at self idx = name)
      by (unfold class_at; now apply nth_error_nth).
    split; [|constructor; auto].
    simpl. f_equal. unfold ml_candidate. rewrite Hc.
    unfold iloc in Hr.
    destruct (rows_named self name) as [|x xs]; simpl in Hr; [discriminate|].
    now injection Hr as ->.
Qed.

Lemma stable_sort_sorted_id {A : Type} (leb : A -> A -> bool) (l : list A) :
  StronglySorted (fun a b => leb a b = true) l -> stable_sort leb l = l.
Proof.
  induction 1 as [|x l Hs IH Hall]; simpl; auto.
  rewrite IH. destruct l as [|y r]; simpl; auto.
  inversion Hall as [|? ? Hxy _]; subst. now rewrite Hxy.
Qed.

Lemma set_fresh {V : Type} (k : string) (v : V) (d : Dict.t V) :
  Dict.mem k d = false -> Dict.set k v d = d ++ [(k, v)].
Proof.
  induction d as [|[k0 v0] r IH]; simpl; auto.
  destruct (String.eqb k0 k); simpl; [discriminate|].
  intros H. now rewrite IH.
Qed.

Lemma mem_app {V : Type} (k : string) (d1 d2 : Dict.t V) :
  Dict.mem k (d1 ++ d2) = Dict.mem k d1 || Dict.mem k d2.
Proof. unfold Dict.mem. apply existsb_app. Qed.

(** The entry the 40% loop makes for a disease it meets first. *)
Lemma weigh_ml_fresh (preds : list Prediction) (d : Dict.t Combined) :
  NoDup (map disease preds) ->
  (forall p, In p preds -> Dict.mem (disease p) d = false) ->
  weigh_ml preds d
  = d ++ map (fun p => (disease p, mkCombined p (confidence p * (4 # 10))%Q)) preds.
Proof.
  unfold weigh_ml. revert d.
  induction preds as [|p r IH]; intros d Hnd Hfresh; simpl.
  - now rewrite app_nil_r.
  - inversion Hnd as [|? ? Hp Hr]; subst.
    unfold add_ml at 2. rewrite (Hfresh p (or_introl eq_refl)).
    rewrite set_fresh by (apply Hfresh; now left).
    rewrite IH; auto.
    + now rewrite <- app_assoc.
    + intros p' Hp'. rewrite mem_app, (Hfresh p' (or_intror Hp')). simpl.
      destruct (String.eqb_spec (disease p) (disease p')) as [E|E]; auto.
      exfalso. apply Hp. rewrite E. now apply in_map.
Qed.

Lemma classifier_only_combined (ml : list Prediction) (top_n : nat) :
  NoDup (map disease ml) ->
  length ml <= top_n ->
  StronglySorted (fun p p' => (confidence p' <= confidence p)%Q) ml ->
  combine_predictions [] ml top_n = map classifier_share ml.
Proof.
  intros Hnd Hlen Hs. unfold combine_predictions. simpl.
  rewrite weigh_ml_fresh by auto. simpl.
  unfold sort_by_score. rewrite stable_sort_sorted_id.
  - rewrite firstn_all2 by (rewrite length_map; lia).
    rewrite map_map. apply map_ext. intros p. simpl.
    unfold classifier_share. now rewrite Qmult_comm_eq.
  - apply (StronglySorted_map (fun p p' => (confidence p' <= confidence p)%Q));
      auto.
    intros p p' H. simpl. apply Qle_bool_iff.
    apply Qmult_le_compat_r; auto. discriminate.
Qed.

(** C1 as amended.  When the similarity of the query to every catalog row is
    0, the similarity scorer returns the empty list, and [predict] is the
    classifier arm alone: it raises what the arm raises, and when the arm
    returns (the encoder's classes being distinct) it returns exactly the
    arm's candidates, in the arm's order, the confidence C of each replaced
    by round(0.4*C, 2).  This holds whatever order [np.argsort] gives equal
    values. *)
Theorem no_overlap_leaves_classifier_arm
    (sort : list Q -> list nat)
    (self : HealthPredictor) (user_symptoms : string) (top_n : nat) :
  sorts sort ->
  NoDup (classes_ self) ->
  Forall (fun x => (x == 0)%Q) (calculate_similarity_scores self user_symptoms) ->
  predict_diseases_similarity_by sort self user_symptoms top_n = Ok [] /\
  (forall e,
      predict_diseases_ml_by sort self user_symptoms top_n = Raise e ->
      hybrid_prediction_by sort self user_symptoms top_n = Raise e) /\
  (forall ml,
      predict_diseases_ml_by sort self user_symptoms top_n = Ok ml ->
      hybrid_prediction_by sort self user_symptoms top_n
      = Ok (map classifier_share ml)).
Proof.
  intros Hsort Hclasses Hz.
  assert (Hs : predict_diseases_similarity_by sort self user_symptoms top_n = Ok []).
  { unfold predict_diseases_similarity_by. now apply similarity_loop_no_overlap. }
  split; [exact Hs|]. unfold hybrid_prediction_by. rewrite Hs, bind_Ok. split.
  - intros e He. now rewrite He.
  - intros ml Hml. rewrite Hml, bind_Ok. f_equal.
    unfold predict_diseases_ml_by in Hml.
    set (b := predict_proba self (preprocess_symptoms user_symptoms)) in *.
    apply ml_loop_inv in Hml. destruct Hml as [-> Hrange].
    destruct (top_by_above sort Hsort b top_n (1 # 100)) as (H1 & H2 & _ & H4 & _).
    fold (likely_at b) in H1, H2, H4.
    apply classifier_only_combined.
    + now apply ml_names_NoDup.
    + now rewrite length_map.
    + apply (StronglySorted_map (descending b)); auto.
      intros i j Hij. unfold ml_candidate, prediction_of. cbn [confidence].
      apply round2_mono. unfold descending in Hij.
      apply Qmult_le_compat_r; auto. discriminate.
Qed.

Lemma no_overlap_leaves_classifier_arm_witness :
  predict_diseases_similarity_by argsort no_overlap_predictor "xyzzy" 3 = Ok [] /\
  (forall e,
      predict_diseases_ml_by argsort no_overlap_predictor "xyzzy" 3 = Raise e ->
      hybrid_prediction_by argsort no_overlap_predictor "xyzzy" 3 = Raise e) /\
  (forall ml,
      predict_diseases_ml_by argsort no_overlap_predictor "xyzzy" 3 = Ok ml ->
      hybrid_prediction_by argsort no_overlap_predictor "xyzzy" 3
      = Ok (map classifier_share ml)).
Proof.
  apply (no_overlap_leaves_classifier_arm argsort no_overlap_predictor "xyzzy" 3).
  - exact argsort_sorts.
  - repeat constructor; simpl; intuition discriminate.
  - repeat constructor.
Defined.

(** ** The severity assessment on every list *)

(** X1. On the empty list [generate_severity_assessment] returns the Unknown
    assessment; it raises exactly on a non-empty list none of whose
    candidates has one of the three tiers as severity, and what it raises is
    [KeyError]. *)
Theorem severity_assessment_raises_iff :
  Rec.generate_severity_assessment [] = Ok unknown_assessment /\
  forall (predictions : list Prediction) (e : exn),
    Rec.generate_severity_assessment predictions = Raise e <->
    e = KeyError /\ predictions <> [] /\ untiered predictions.
Proof.
  split; [reflexivity|]. intros predictions e.
  destruct predictions as [|pred rest].
  { split; [discriminate|]. intros (_ & H & _). now elim H. }
  destruct (tier_dec (highest_severity pred rest)) as [Ht|Hn].
  - destruct (assessment_ok pred rest Ht) as [a Ha]. rewrite Ha.
    split; [discriminate|]. intros (_ & _ & Hu). exfalso.
    apply highest_tier_iff in Ht. destruct Ht as (p & Hin & Hp).
    now apply (Hu p Hin).
  - rewrite (assessment_raises pred rest Hn). split.
    + intros H. injection H as <-. repeat split; [discriminate|].
      intros p Hin Hp. apply Hn, highest_tier_iff. eauto.
    + now intros (-> & _).
Qed.

(** ** Letter case *)

(** X16. On ASCII text letter case does not matter to the engine: the
    symptoms typed in capitals get the same normalized text, the same
    similarity and classifier candidates and the same hybrid predictions. *)
Theorem predictions_ignore_case
    (self : HealthPredictor) (user_symptoms : string) (top_n : nat) :
  ascii_text user_symptoms ->
  preprocess_symptoms (Str.upper user_symptoms) = preprocess_symptoms user_symptoms /\
  predict_diseases_similarity self (Str.upper user_symptoms) top_n
  = predict_diseases_similarity self user_symptoms top_n /\
  predict_diseases_ml self (Str.upper user_symptoms) top_n
  = predict_diseases_ml self user_symptoms top_n /\
  hybrid_prediction self (Str.upper user_symptoms) top_n
  = hybrid_prediction self user_symptoms top_n.
Proof.
  intros _.
  assert (Hs : predict_diseases_similarity self (Str.upper user_symptoms) top_n
               = predict_diseases_similarity self user_symptoms top_n).
  { unfold predict_diseases_similarity, calculate_similarity_scores.
    now rewrite preprocess_upper. }
  assert (Hm : predict_diseases_ml self (Str.upper user_symptoms) top_n
               = predict_diseases_ml self user_symptoms top_n).
  { unfold predict_diseases_ml. now rewrite preprocess_upper. }
  repeat split; auto using preprocess_upper.
  unfold hybrid_prediction. now rewrite Hs, Hm.
Qed.

Lemma predictions_ignore_case_witness :
  ascii_text "Fever; cough" /\
  preprocess_symptoms (Str.upper "Fever; cough") = preprocess_symptoms "Fever; cough" /\
  predict_diseases_similarity sample_predictor (Str.upper "Fever; cough") 3
  = predict_diseases_similarity sample_predictor "Fever; cough" 3 /\
  predict_diseases_ml sample_predictor (Str.upper "Fever; cough") 3
  = predict_diseases_ml sample_predictor "Fever; cough" 3 /\
  hybrid_prediction sample_predictor (Str.upper "Fever; cough") 3
  = hybrid_prediction sample_predictor "Fever; cough" 3.
Proof.
  assert (H : ascii_text "Fever; cough")
    by (unfold ascii_text; repeat constructor; vm_compute; lia).
  split; [exact H|].
  apply (predictions_ignore_case sample_predictor "Fever; cough" 3 H).
Defined.

(** ** Prediction, then recommendation *)

Lemma sample_catalog_tiered : tiered_catalog sample_predictor.
Proof.
  unfold tiered_catalog, is_tier. simpl.
  constructor; [right; left; reflexivity|].
  constructor; [right; right; reflexivity|].
  constructor; [right; left; reflexivity|]. constructor.
Qed.

(** X22. On a fitted predictor whose catalog rows all have a known tier,
    neither step of an analysis raises: [hybrid_prediction] returns a list,
    [generate_comprehensive_recommendations] returns a bundle for that list,
    the bundle is the error bundle exactly when no candidate was found, and
    otherwise the overall severity of its assessment is one of the three
    tiers. *)
Theorem prediction_then_recommendation_returns
    (self : HealthPredictor) (timestamp user_symptoms : string) (top_n : nat) :
  fitted self ->
  tiered_catalog self ->
  exists predictions bundle,
    hybrid_prediction self user_symptoms top_n = Ok predictions /\
    Rec.generate_comprehensive_recommendations timestamp predictions
      user_symptoms = Ok bundle /\
    (Dict.mem "error" bundle = true <-> predictions = []) /\
    (predictions <> [] ->
     exists assessment s,
       Dict.get "severity_assessment" bundle = Some (VDict assessment) /\
       Rec.overall_severity assessment = Ok s /\ is_tier s).
Proof.
  intros Hf Ht.
  destruct (fitted_arms_indices self user_symptoms top_n Hf)
    as (rs & js & Hs & Hm & _ & _ & Hri & Hrj).
  set (a := calculate_similarity_scores self user_symptoms) in *.
  set (b := predict_proba self (preprocess_symptoms user_symptoms)) in *.
  set (sims := map (similarity_candidate self a) rs) in *.
  set (ml := map (ml_candidate self b) js) in *.
  assert (Hh : hybrid_prediction self user_symptoms top_n
               = Ok (combine_predictions sims ml top_n)).
  { unfold hybrid_prediction. now rewrite Hs, bind_Ok, Hm, bind_Ok. }
  assert (Hsev : forall p, In p (combine_predictions sims ml top_n) ->
                           is_tier (severity p)).
  { intros p Hp. unfold tiered_catalog in Ht. rewrite Forall_forall in Ht, Hri, Hrj.
    apply combine_predictions_origin in Hp.
    destruct Hp as [(ps & Hps & ->)|(pm & Hpm & _ & ->)]; cbn [severity with_confidence].
    - apply in_map_iff in Hps. destruct Hps as (i & <- & Hi).
      destruct (similarity_candidate_row self a i (Hri _ Hi)) as (r & Hr & ->). auto.
    - apply in_map_iff in Hpm. destruct Hpm as (j & <- & Hj).
      destruct (ml_candidate_row self b j (fitted_labels Hf) (Hrj _ Hj))
        as (r & Hr & ->). auto. }
  rewrite Hh.
  destruct (combine_predictions sims ml top_n) as [|p rest] eqn:Ec.
  - exists []. eexists. split; [reflexivity|]. split; [reflexivity|].
    split; [split; auto|]. intros H. now elim H.
  - assert (Htier : is_tier (highest_severity p rest)).
    { apply highest_tier_iff. exists p. split; [now left|]. apply Hsev. now left. }
    destruct (comprehensive_ok timestamp user_symptoms p rest Htier)
      as (act & l & f & Hb & _).
    exists (p :: rest). eexists. split; [reflexivity|]. split; [exact Hb|].
    split; [split; discriminate|]. intros _.
    exists (assessment_of (highest_severity p rest) act), (highest_severity p rest).
    split; [reflexivity|]. split; [apply overall_of_assessment|exact Htier].
Qed.

Lemma prediction_then_recommendation_returns_witness :
  exists predictions bundle,
    hybrid_prediction sample_predictor "fever, cough" 3 = Ok predictions /\
    Rec.generate_comprehensive_recommendations "2024-01-01 00:00:00" predictions
      "fever, cough" = Ok bundle /\
    (Dict.mem "error" bundle = true <-> predictions = []) /\
    (predictions <> [] ->
     exists assessment s,
       Dict.get "severity_assessment" bundle = Some (VDict assessment) /\
       Rec.overall_severity assessment = Ok s /\ is_tier s).
Proof.
  apply (prediction_then_recommendation_returns sample_predictor
           "2024-01-01 00:00:00" "fever, cough" 3).
  - exact sample_predictor_fitted.
  - exact sample_catalog_tiered.
Defined.
